(** * Alltoallv profiler: pattern classification and aggregation

    A shallow embedding of the Go package [patterns] (pattern buckets,
    topology views, persisted pattern files) and of the cross-group
    aggregator [profiler.AnalyzeSubCommsResults], with the properties of the
    specification stated and proved (or refuted) over the embedding. *)

From Stdlib Require Import ZArith String Ascii List Permutation Lia DecimalString.
From Stdlib Require DecimalPos DecimalZ.
From stdpp Require Import base option list gmap fin_maps sorting strings.

Local Open Scope Z_scope.

(** ** Go's [int] (64 bits, two's complement) *)

Module GoInt.

Definition min_int : Z := - 2 ^ 63.
Definition max_int : Z := 2 ^ 63 - 1.

(** The value an arithmetic result takes once it is stored in an [int]. *)
Definition wrap (z : Z) : Z := (z + 2 ^ 63) mod 2 ^ 64 - 2 ^ 63.

Definition add (a b : Z) : Z := wrap (a + b).
Definition mul (a b : Z) : Z := wrap (a * b).

Definition in_range (z : Z) : Prop := min_int <= z <= max_int.

(** [fmt.Sprintf("%d", z)] *)
Definition fmt_d (z : Z) : string := NilZero.string_of_int (Z.to_int z).

End GoInt.

(** ** Go's [map[int]int]

    A map value is either the nil map or a reference to a table.  The package
    never writes to a signature map after it has received it, so a table is
    modelled by its contents. *)

Abbreviation IntMap := (option (gmap Z Z)).

Definition nil_map : IntMap := None.

(** [len(m)] *)
Definition len_map (m : IntMap) : Z :=
  match m with
  | None => 0
  | Some g => Z.of_nat (size g)
  end.

(** The entries a [for k, v := range m] visits, in one admissible order.  Go
    leaves the order unspecified; functions whose result depends on it take
    the order as an argument instead (see [range_order] below). *)
Definition range_map (m : IntMap) : list (Z * Z) :=
  match m with
  | None => []
  | Some g => map_to_list g
  end.

(** [reflect.DeepEqual] on two [map[int]int] values: both nil or both non-nil,
    same length, and every key of the first maps to the same value in the
    second. *)
Definition DeepEqual (p1 p2 : IntMap) : bool :=
  match p1, p2 with
  | None, None => true
  | Some g1, Some g2 =>
      bool_decide (size g1 = size g2)
      && forallb (fun e => bool_decide (g2 !! e.1 = Some e.2)) (map_to_list g1)
  | _, _ => false
  end.

Definition CompareCallPatterns (p1 p2 : IntMap) : bool :=
  if negb (len_map p1 =? len_map p2) then false else DeepEqual p1 p2.

(** ** Buckets and pattern collections *)

Record CallData := mkCallData {
  Send : IntMap;
  Recv : IntMap;
  Count : Z;
  Calls : list Z
}.

(** [*CallData]: an address in the store of allocated records. *)
Abbreviation ptr := nat (only parsing).

Record Data := mkData {
  AllPatterns : list ptr;
  OneToN : list ptr;
  NToN : list ptr;
  NToOne : list ptr;
  Empty : list ptr
}.

(** [var patterns Data]: the zero value. *)
Definition zero_Data : Data := mkData [] [] [] [] [].

(** ** Threading state

    [ST S A] is a computation over a state of type [S]; [None] is a run-time
    panic.  Go's [error] results are ordinary return values. *)

Definition ST (S A : Type) : Type := S -> option (A * S).

Definition ret {S A} (a : A) : ST S A := fun s => Some (a, s).

Definition bind {S A B} (c : ST S A) (k : A -> ST S B) : ST S B :=
  fun s => match c s with
           | Some (a, s') => k a s'
           | None => None
           end.

Definition panic {S A} : ST S A := fun _ => None.

Declare Scope go_scope.
Delimit Scope go_scope with go.
Notation "'let*' x ':=' c 'in' k" := (bind c (fun x => k))
  (at level 10, x pattern, c at level 100, k at level 200) : go_scope.
Notation "'do*' c 'in' k" := (bind c (fun _ => k))
  (at level 10, c at level 100, k at level 200) : go_scope.

(** ** The store of [CallData] records

    A panic of a computation over the store is a load or a store through an
    address that was never allocated. *)

Abbreviation M := (ST (list CallData)).

(** [*p] *)
Definition load (p : ptr) : M CallData :=
  fun h => match h !! p with
           | Some cd => Some (cd, h)
           | None => None
           end.

(** [*p = cd] *)
Definition store (p : ptr) (cd : CallData) : M unit :=
  fun h => if bool_decide (p < length h)%nat then Some (tt, <[p := cd]> h) else None.

(** [new(CallData)], initialised to [cd]. *)
Definition new (cd : CallData) : M ptr :=
  fun h => Some (length h, h ++ [cd]).

(** ** Errors *)

Inductive error :=
| io_EOF
| io_failure (what : string)
| not_a_header (line : string)
| wrong_file_format (line : string)
| unable_to_read (path : string) (cause : error)
| unable_to_find_call (callNum : Z)
| parser_compromised (line : string)
| foreign_error (msg : string).

(** ** [Data.addPattern] *)

(** The scan of [d.AllPatterns]; [true] when a bucket matched, was updated and
    the function returned from inside the loop. *)
Fixpoint addPattern_scan (callNum : Z) (sendPatterns recvPatterns : IntMap)
    (xs : list ptr) : M bool :=
  match xs with
  | [] => ret false
  | x :: rest =>
      (let* cd := load x in
       if CompareCallPatterns (Send cd) sendPatterns
          && CompareCallPatterns (Recv cd) recvPatterns
       then
         do* store x (mkCallData (Send cd) (Recv cd) (GoInt.add (Count cd) 1)
                                 (Calls cd ++ [callNum])) in
         ret true
       else addPattern_scan callNum sendPatterns recvPatterns rest)%go
  end.

(** The body of the loop over the entries of the send signature. *)
Definition addPattern_classify (new_cp : ptr) (d : Data) (e : Z * Z) : Data :=
  let sendTo := e.1 in
  let n := e.2 in
  if GoInt.mul n 100 <? sendTo then
    mkData (AllPatterns d) (OneToN d ++ [new_cp]) (NToN d) (NToOne d) (Empty d)
  else if sendTo =? n then
    mkData (AllPatterns d) (OneToN d) (NToN d ++ [new_cp]) (NToOne d) (Empty d)
  else if GoInt.mul sendTo 100 <? n then
    mkData (AllPatterns d) (OneToN d) (NToN d) (NToOne d ++ [new_cp]) (Empty d)
  else d.

(** [addPattern] with the order in which the classification loop visits the
    entries of [sendPatterns] made explicit. *)
Definition addPattern_in_order (order : list (Z * Z)) (callNum : Z)
    (sendPatterns recvPatterns : IntMap) (d : Data) : M (Data * option error) :=
  (let* found := addPattern_scan callNum sendPatterns recvPatterns (AllPatterns d) in
   if found : bool then ret (d, None)
   else
     let* new_cp := new (mkCallData sendPatterns recvPatterns 1 [callNum]) in
     let d1 := mkData (AllPatterns d ++ [new_cp]) (OneToN d) (NToN d) (NToOne d)
                      (Empty d) in
     ret (foldl (addPattern_classify new_cp) d1 order, None))%go.

Definition addPattern (callNum : Z) (sendPatterns recvPatterns : IntMap)
    (d : Data) : M (Data * option error) :=
  addPattern_in_order (range_map sendPatterns) callNum sendPatterns recvPatterns d.

(** ** [Same]: the structural check between two collections

    The calls to [log.Printf] do not affect the result and are left out.
    The loops over the entries of a map return on a condition that does not
    depend on the position of the entry, so any order gives the same result
    ([existsb] and [forallb] are invariant under permutation). *)

(** [patternIsInList]; the first conjunct is the source's [numP == numP]. *)
Fixpoint patternIsInList (h : list CallData) (numPeers numRanks : Z) (ctx : string)
    (patterns : list ptr) : option Z :=
  match patterns with
  | [] => Some 0
  | p :: rest =>
      cd ← h !! p;
      let m := if String.eqb ctx "SEND" then Send cd else Recv cd in
      if existsb (fun e => (e.1 =? e.1) && (numRanks =? e.2)) (range_map m)
      then Some (Count cd)
      else patternIsInList h numPeers numRanks ctx rest
  end.

(** One pass of [sameListOfPatterns] over the entries of a bucket: [false]
    when the function returned [false] from inside the loop. *)
Fixpoint sameListOfPatterns_entries (h : list CallData) (ctx : string)
    (patterns2 : list ptr) (entries : list (Z * Z)) : option bool :=
  match entries with
  | [] => Some true
  | e :: rest =>
      count ← patternIsInList h e.1 e.2 ctx patterns2;
      if count =? 0 then Some false
      else sameListOfPatterns_entries h ctx patterns2 rest
  end.

Fixpoint sameListOfPatterns_pass (h : list CallData) (ctx : string)
    (patterns1 patterns2 : list ptr) : option bool :=
  match patterns1 with
  | [] => Some true
  | p1 :: rest =>
      cd ← h !! p1;
      let m := if String.eqb ctx "SEND" then Send cd else Recv cd in
      ok ← sameListOfPatterns_entries h ctx patterns2 (range_map m);
      if ok : bool then sameListOfPatterns_pass h ctx rest patterns2
      else Some false
  end.

Definition sameListOfPatterns (h : list CallData) (patterns1 patterns2 : list ptr)
    : option bool :=
  ok ← sameListOfPatterns_pass h "SEND" patterns1 patterns2;
  if ok : bool then sameListOfPatterns_pass h "RECV" patterns1 patterns2
  else Some false.

Definition Same (h : list CallData) (patterns1 patterns2 : Data) : option bool :=
  sameListOfPatterns h (AllPatterns patterns1) (AllPatterns patterns2).

Definition NoSummary (d : Data) : bool :=
  if negb (length (OneToN d) =? 0)%nat then false
  else if negb (length (NToOne d) =? 0)%nat then false
  else if negb (length (NToN d) =? 0)%nat then false
  else true.

(** ** [ParseFiles]: the classification pass of one group *)

(** Modelled from the spec: the package [counts] is not part of the sources;
    [Bin] and [SendRecvStats] carry the fields of [counts.Bin] and
    [counts.SendRecvStats] that the modelled functions read or write. *)
Record Bin := mkBin {
  Size : Z;
  Min : Z;
  Max : Z
}.

Record SendRecvStats := mkSendRecvStats {
  SendPatterns : IntMap;
  RecvPatterns : IntMap;
  TotalSendNonZeroCounts : Z;
  TotalRecvNonZeroCounts : Z;
  TotalNumCalls : Z;
  Bins : list Bin
}.

Definition zero_SendRecvStats : SendRecvStats :=
  mkSendRecvStats None None 0 0 0 [].

Section ParseFiles.

(** [counts.NewSendRecvStats] and [counts.ParseFiles] are not part of the
    sources.  The latter reads the count files: what it returns is fixed by
    the environment, here by the number of calls made to it before. *)
Variable counts_NewSendRecvStats : Z -> SendRecvStats.
Variable counts_ParseFiles :
  string -> string -> Z -> Z -> nat -> SendRecvStats * option error.

(** The loop [for i := 0; i < numCalls; i++], over the values [todo] that [i]
    still has to take. *)
Fixpoint ParseFiles_loop (sendCountsFile recvCountsFile : string)
    (numCalls sizeThreshold : Z) (todo : list Z)
    (patterns : Data) (callsCountsData : SendRecvStats)
    : M (SendRecvStats * Data * option error) :=
  match todo with
  | [] => ret (callsCountsData, patterns, None)
  | i :: rest =>
      let '(callCountsData, err) :=
        counts_ParseFiles sendCountsFile recvCountsFile numCalls sizeThreshold
                          (Z.to_nat i) in
      match err with
      | Some e => ret (callCountsData, patterns, Some e)
      | None =>
          (let* (patterns, err) :=
             addPattern i (SendPatterns callCountsData)
                        (RecvPatterns callCountsData) patterns in
           match err with
           | Some e => ret (callCountsData, patterns, Some e)
           | None =>
               let* patterns :=
                 if (TotalSendNonZeroCounts callCountsData =? 0)
                    && (TotalRecvNonZeroCounts callCountsData =? 0)
                 then
                   let* emptyPattern := new (mkCallData None None 1 [i]) in
                   ret (mkData (AllPatterns patterns) (OneToN patterns)
                               (NToN patterns) (NToOne patterns)
                               (Empty patterns ++ [emptyPattern]))
                 else ret patterns in
               ParseFiles_loop sendCountsFile recvCountsFile numCalls
                 sizeThreshold rest patterns
                 (mkSendRecvStats (SendPatterns callsCountsData)
                    (RecvPatterns callsCountsData)
                    (TotalSendNonZeroCounts callsCountsData)
                    (TotalRecvNonZeroCounts callsCountsData)
                    (GoInt.add (TotalNumCalls callsCountsData) 1)
                    (Bins callsCountsData))
           end)%go
      end
  end.

Definition ParseFiles (sendCountsFile recvCountsFile : string)
    (numCalls sizeThreshold : Z) : M (SendRecvStats * Data * option error) :=
  ParseFiles_loop sendCountsFile recvCountsFile numCalls sizeThreshold
    (seqZ 0 numCalls) zero_Data (counts_NewSendRecvStats sizeThreshold).

End ParseFiles.

(** A sequence of [addPattern] calls on one collection, from the zero value. *)
Fixpoint addPatterns (calls : list (Z * IntMap * IntMap)) (d : Data) : M Data :=
  match calls with
  | [] => ret d
  | c :: rest =>
      (let* (d', _) := addPattern c.1.1 c.1.2 c.2 d in addPatterns rest d')%go
  end.

(** ** Strings and files *)

Definition nl : string := String "010"%char EmptyString.
Definition tab : string := String "009"%char EmptyString.

Fixpoint in_cutset (c : ascii) (cutset : string) : bool :=
  match cutset with
  | EmptyString => false
  | String c' rest => Ascii.eqb c c' || in_cutset c rest
  end.

(** [strings.TrimLeft] and [strings.TrimRight] (on ASCII text). *)
Fixpoint TrimLeft (s cutset : string) : string :=
  match s with
  | EmptyString => EmptyString
  | String c rest => if in_cutset c cutset then TrimLeft rest cutset else s
  end.

Fixpoint TrimRight (s cutset : string) : string :=
  match s with
  | EmptyString => EmptyString
  | String c rest =>
      match TrimRight rest cutset with
      | EmptyString => if in_cutset c cutset then EmptyString else String c EmptyString
      | t => String c t
      end
  end.

(** *** [filepath.Clean] and [filepath.Join] (on paths with the separator [/])

    [filepath.Clean] reads its argument element by element, an element being
    the text between two separators. *)

(** The elements of a path: the texts between its separators. *)
Fixpoint path_elements (path : string) : list string :=
  match path with
  | EmptyString => [EmptyString]
  | String c rest =>
      if Ascii.eqb c "/"%char then EmptyString :: path_elements rest
      else match path_elements rest with
           | [] => [String c EmptyString]
           | e :: es => String c e :: es
           end
  end.

(** One turn of the loop of [filepath.Clean].  [out] is what has been kept so
    far: the number of [..] elements at its start (a path that is not rooted
    keeps the [..] elements it cannot resolve) and the elements after them,
    the last one first.  An empty element and a [.] element are dropped; a
    [..] element removes the last element kept, if there is one. *)
Definition Clean_element (rooted : bool) (out : nat * list string) (e : string)
    : nat * list string :=
  if String.eqb e "" then out
  else if String.eqb e "." then out
  else if String.eqb e ".." then
    match out.2 with
    | _ :: kept => (out.1, kept)
    | [] => if rooted then out else (S out.1, [])
    end
  else (out.1, e :: out.2).

(** The elements with a separator between two of them. *)
Fixpoint join_with (sep : string) (l : list string) : string :=
  match l with
  | [] => EmptyString
  | e :: rest =>
      match rest with
      | [] => e
      | _ :: _ => e +:+ sep +:+ join_with sep rest
      end
  end.

(** [filepath.Clean]: the empty path is [.]; a rooted path keeps its leading
    separator; a path cleaned to nothing is [/] when rooted and [.]
    otherwise. *)
Definition filepath_Clean (path : string) : string :=
  if String.eqb path "" then "."
  else
    let rooted := String.prefix "/" path in
    let out := foldl (Clean_element rooted) (0%nat, []) (path_elements path) in
    let elements := replicate out.1 ".." ++ reverse out.2 in
    match elements with
    | [] => if rooted then "/" else "."
    | _ :: _ => (if rooted then "/" else "") +:+ join_with "/" elements
    end.

(** [filepath.Join] of two elements: empty elements in front are ignored,
    the others are joined with a separator and the result is cleaned; two
    empty elements give the empty path. *)
Definition filepath_Join (d name : string) : string :=
  if String.eqb d "" then
    if String.eqb name "" then EmptyString else filepath_Clean name
  else filepath_Clean (d +:+ "/" +:+ name).

(** A path of one element that is a name: not empty, not [.] nor [..], and
    without separator. *)
Definition file_name (n : string) : Prop :=
  in_cutset "/" n = false /\ n <> EmptyString /\ n <> "." /\ n <> "..".

(** The outside world of the report writers and readers: the files by path,
    the number of further operations the file system accepts before it starts
    to fail, and the number of [range] statements over maps executed so far. *)
Record World := mkWorld {
  files : gmap string string;
  quota : nat;
  tick : nat
}.

Abbreviation IO := (ST World).

(** [x, err := f(); if err != nil { return err }] *)
Notation "'try*' c 'in' k" :=
  (bind c (fun err => match err with Some e => ret (Some e) | None => k end))
  (at level 10, c at level 100, k at level 200) : go_scope.

(** [os.OpenFile(path, os.O_WRONLY|os.O_CREATE|os.O_TRUNC, 0755)]; the
    descriptor is the path. *)
Definition os_OpenFile (path : string) : IO (string * option error) :=
  fun w => match quota w with
           | O => Some ((path, Some (io_failure path)), w)
           | S q => Some ((path, None), mkWorld (<[path := EmptyString]> (files w)) q (tick w))
           end.

Definition content_of (fd : string) (w : World) : string :=
  default EmptyString (files w !! fd).

(** [fd.WriteString(s)] *)
Definition WriteString (fd s : string) : IO (option error) :=
  fun w => match quota w with
           | O => Some (Some (io_failure fd), w)
           | S q => Some (None, mkWorld (<[fd := content_of fd w +:+ s]> (files w)) q (tick w))
           end.

(** [for _, x := range l { err := body(x); if err != nil { return err } }] *)
Fixpoint for_each {A} (body : A -> IO (option error)) (l : list A)
    : IO (option error) :=
  match l with
  | [] => ret None
  | x :: rest => (try* body x in for_each body rest)%go
  end.

(** The same loop with the counter [num], incremented at the end of the body. *)
Fixpoint for_each_num {A} (body : Z -> A -> IO (option error)) (num : Z)
    (l : list A) : IO (option error) :=
  match l with
  | [] => ret None
  | x :: rest => (try* body num x in for_each_num body (GoInt.add num 1) rest)%go
  end.

(** Reading through a pointer while writing a report: the store is not
    modified. *)
Definition deref (h : list CallData) (p : ptr) : IO CallData :=
  fun w => match h !! p with
           | Some cd => Some (cd, w)
           | None => None
           end.

(** [bufio.Reader.ReadString('\n')] on the text that is left to read. *)
Fixpoint ReadString_nl (s : string) : string * string * bool :=
  match s with
  | EmptyString => (EmptyString, EmptyString, false)
  | String c rest =>
      if Ascii.eqb c "010"%char then (String c EmptyString, rest, true)
      else let '(line, rest', found) := ReadString_nl rest in
           (String c line, rest', found)
  end.

Definition ReadString (reader : string) : string * option error * string :=
  let '(line, rest, found) := ReadString_nl reader in
  (line, if found : bool then None else Some io_EOF, rest).

Definition GetFilePath (basedir : string) (jobid rank : Z) : string :=
  filepath_Join basedir
    ("patterns-job" +:+ GoInt.fmt_d jobid +:+ "-rank" +:+ GoInt.fmt_d rank +:+ ".md").

(** The prefix of all the pattern summary files. *)
Definition SummaryFilePrefix : string := "patterns-summary-".

Definition GetSummaryFilePath (basedir : string) (jobid rank : Z) : string :=
  filepath_Join basedir
    (SummaryFilePrefix +:+ "job" +:+ GoInt.fmt_d jobid +:+ "-rank"
     +:+ GoInt.fmt_d rank +:+ ".md").

Section Reports.

(** The order in which the [n]-th [range] statement of a run visits the
    entries of a map; Go leaves it unspecified. *)
Variable range_order : nat -> IntMap -> list (Z * Z).

(** The package [notation] and the constant
    [format.MulticommHighlightFilePrefix] are not part of the sources. *)
Variable notation_CompressIntArray : list Z -> string.
Variable notation_ConvertCompressedCallListToIntSlice :
  string -> list Z * option error.
Variable format_MulticommHighlightFilePrefix : string.

Definition range (m : IntMap) : IO (list (Z * Z)) :=
  fun w => Some (range_order (tick w) m, mkWorld (files w) (quota w) (S (tick w))).

Definition sent_line (e : Z * Z) : string :=
  GoInt.fmt_d e.2 +:+ " ranks sent to " +:+ GoInt.fmt_d e.1 +:+ " other ranks" +:+ nl.

Definition recvd_line (e : Z * Z) : string :=
  GoInt.fmt_d e.2 +:+ " ranks recv'd from " +:+ GoInt.fmt_d e.1 +:+ " other ranks" +:+ nl.

Definition writeDataToFile (h : list CallData) (fd : string) (cd : ptr)
    : IO (option error) :=
  (let* c := deref h cd in
   let* sends := range (Send c) in
   try* for_each (fun e => WriteString fd (sent_line e)) sends in
   let* recvs := range (Recv c) in
   try* for_each (fun e => WriteString fd (recvd_line e)) recvs in
   ret None)%go.

Definition pattern_header (num count totalNumCalls : Z) : string :=
  "## Pattern #" +:+ GoInt.fmt_d num +:+ " (" +:+ GoInt.fmt_d count +:+ "/"
  +:+ GoInt.fmt_d totalNumCalls +:+ " alltoallv calls)" +:+ nl +:+ nl.

Definition WriteToFile (h : list CallData) (fd : string) (num totalNumCalls : Z)
    (cd : ptr) : IO (option error) :=
  (let* c := deref h cd in
   try* WriteString fd (pattern_header num (Count c) totalNumCalls) in
   try* WriteString fd
          ("Alltoallv calls: " +:+ notation_CompressIntArray (Calls c) +:+ nl) in
   try* writeDataToFile h fd cd in
   try* WriteString fd nl in
   ret None)%go.

(** The part of [profiler.SaveStats] that writes the patterns file of a
    group (the other parts write the statistics and summary files through
    the package [counts]). *)
Definition SaveStats_patterns (h : list CallData) (patternsFd : string)
    (patternsData : Data) (numCalls : Z) : IO (option error) :=
  (try* WriteString patternsFd ("# Patterns" +:+ nl) in
   for_each_num (fun num cp => WriteToFile h patternsFd num numCalls cp) 0
     (AllPatterns patternsData))%go.

(** *** Reading a patterns file back *)

Definition GetPatternHeader (reader : string)
    : list Z * string * option error * string :=
  let '(line, readerErr, reader) := ReadString reader in
  match readerErr with
  | Some e => ([], EmptyString, Some e, reader)
  | None =>
      if negb (String.prefix "## Pattern #" line)
      then ([], EmptyString, Some (not_a_header line), reader)
      else
        let '(line, readerErr, reader) := ReadString reader in
        match readerErr with
        | Some e => ([], EmptyString, Some e, reader)
        | None =>
            if negb (String.prefix "Alltoallv calls: " line)
            then ([], EmptyString, Some (not_a_header line), reader)
            else
              let callIDsStr := TrimLeft line "Alltoallv calls: " in
              let callIDsStr := TrimRight callIDsStr nl in
              let '(callIDs, err) :=
                notation_ConvertCompressedCallListToIntSlice callIDsStr in
              (callIDs, callIDsStr, err, reader)
        end
  end.

(** The loop of [getPatterns]; [None] when [fuel] runs out. *)
Fixpoint getPatterns_loop (fuel : nat) (patterns reader : string)
    : option (string * option error * string) :=
  match fuel with
  | O => None
  | S fuel' =>
      let '(line, readerErr, reader) := ReadString reader in
      match readerErr with
      | Some io_EOF => Some (patterns, None, reader)
      | Some e => Some (patterns, Some e, reader)
      | None =>
          if String.eqb line "" || String.eqb line nl
          then Some (patterns, None, reader)
          else if String.prefix "Alltoallv calls: " line
          then Some (patterns, Some (parser_compromised line), reader)
          else getPatterns_loop fuel' (patterns +:+ line) reader
      end
  end.

Definition getPatterns (reader : string) : option (string * option error * string) :=
  getPatterns_loop (S (String.length reader)) EmptyString reader.

(** The loop of [GetCall] over the blocks of the file. *)
Fixpoint GetCall_loop (fuel : nat) (patternsOutputFile : string) (callNum : Z)
    (reader : string) : option (string * option error) :=
  match fuel with
  | O => None
  | S fuel' =>
      let '(callIDs, _, err, reader) := GetPatternHeader reader in
      match err with
      | Some io_EOF => Some (EmptyString, Some (unable_to_find_call callNum))
      | Some e => Some (EmptyString, Some (unable_to_read patternsOutputFile e))
      | None =>
          let targetBlock := existsb (fun c => c =? callNum) callIDs in
          if targetBlock then
            '(patterns, err, _) ← getPatterns reader;
            match err with
            | Some _ => Some (EmptyString, None)
            | None => Some (patterns, None)
            end
          else
            '(_, err, reader) ← getPatterns reader;
            match err with
            | Some _ => Some (EmptyString, None)
            | None => GetCall_loop fuel' patternsOutputFile callNum reader
            end
      end
  end.

(** [GetCall] on the files of the world; [None] only if the loops ran out
    of fuel. *)
Definition GetCall (fs : gmap string string) (dir : string) (jobid rank callNum : Z)
    : option (string * option error) :=
  let patternsOutputFile := GetFilePath dir jobid rank in
  match fs !! patternsOutputFile with
  | None => Some (EmptyString, Some (io_failure patternsOutputFile))
  | Some text =>
      let '(line, readerErr, reader) := ReadString text in
      match readerErr with
      | Some e => Some (EmptyString, Some e)
      | None =>
          if negb (String.eqb line ("# Patterns" +:+ nl))
          then Some (EmptyString, Some (wrong_file_format line))
          else GetCall_loop (S (String.length reader)) patternsOutputFile callNum reader
      end
  end.

(** *** The consolidated report of the cross-group aggregator *)

(** [WriteSubcommNtoNPatterns], [WriteSubcomm1toNPatterns] and
    [WriteSubcommNto1Patterns] are the same function up to the title they
    write and the view they read. *)
Definition WriteSubcommPatterns (title : string) (view : Data -> list ptr)
    (h : list CallData) (fd : string) (ranks : list Z)
    (stats : gmap Z SendRecvStats) (patterns : gmap Z Data) : IO (option error) :=
  (try* WriteString fd (title +:+ nl +:+ nl) in
   try* WriteString fd (nl +:+ "### Pattern(s) description" +:+ nl +:+ nl) in
   let* r0 := match ranks with
              | [] => panic
              | r0 :: _ => ret r0
              end in
   try* for_each (fun p => writeDataToFile h fd p)
          (view (default zero_Data (patterns !! r0))) in
   try* WriteString fd
          (nl +:+ nl +:+ "### Sub-communicator(s) information" +:+ nl +:+ nl) in
   try* for_each
          (fun r =>
             try* WriteString fd
                    ("-> Subcommunicator led by rank " +:+ GoInt.fmt_d r +:+ ":" +:+ nl) in
             for_each_num
               (fun num p =>
                  let* c := deref h p in
                  WriteString fd
                    (tab +:+ "pattern #" +:+ GoInt.fmt_d num +:+ ": "
                     +:+ GoInt.fmt_d (Count c) +:+ "/"
                     +:+ GoInt.fmt_d
                           (TotalNumCalls (default zero_SendRecvStats (stats !! r)))
                     +:+ " alltoallv calls" +:+ nl))
               0 (view (default zero_Data (patterns !! r))))
          ranks in
   ret None)%go.

Definition WriteSubcommNtoNPatterns := WriteSubcommPatterns "## N to n patterns" NToN.
Definition WriteSubcomm1toNPatterns := WriteSubcommPatterns "## 1 to n patterns" OneToN.
Definition WriteSubcommNto1Patterns := WriteSubcommPatterns "## N to 1 patterns" NToOne.

(** The first loop of [AnalyzeSubCommsResults], over the groups in the
    order [range allPatterns] visits them: [Some false] when the function
    returned [nil] from inside the loop, [Some true] when the loop ended. *)
Fixpoint AnalyzeSubCommsResults_scan (h : list CallData)
    (numPatterns numNtoNPatterns num1toNPatterns numNto1Patterns : Z)
    (referencePatterns : Data) (groups : list Data) : option bool :=
  match groups with
  | [] => Some true
  | p :: rest =>
      if numPatterns =? -1 then
        AnalyzeSubCommsResults_scan h
          (Z.of_nat (length (AllPatterns p))) (Z.of_nat (length (NToN p)))
          (Z.of_nat (length (OneToN p))) (Z.of_nat (length (NToOne p))) p rest
      else if negb (numPatterns =? Z.of_nat (length (AllPatterns p)))
              || negb (numNto1Patterns =? Z.of_nat (length (NToOne p)))
              || negb (numNtoNPatterns =? Z.of_nat (length (NToN p)))
              || negb (num1toNPatterns =? Z.of_nat (length (OneToN p)))
      then Some false
      else
        same ← Same h referencePatterns p;
        if negb same then Some false
        else AnalyzeSubCommsResults_scan h numPatterns numNtoNPatterns
               num1toNPatterns numNto1Patterns referencePatterns rest
  end.

Definition empty_line (rank : Z) (d : Data) (st : SendRecvStats) : string :=
  "-> Sub-communicator led by rank " +:+ GoInt.fmt_d rank +:+ ": "
  +:+ GoInt.fmt_d (Z.of_nat (length (Empty d))) +:+ "/"
  +:+ GoInt.fmt_d (TotalNumCalls st) +:+ " alltoallv calls" +:+ nl.

Definition bin_line (b : Bin) : string :=
  if negb (Max b =? -1) then
    tab +:+ GoInt.fmt_d (Size b) +:+ " of the messages are of size between "
    +:+ GoInt.fmt_d (Min b) +:+ " and " +:+ GoInt.fmt_d (GoInt.add (Max b) (-1))
    +:+ " bytes" +:+ nl
  else
    tab +:+ GoInt.fmt_d (Size b) +:+ " of messages are larger or equal of "
    +:+ GoInt.fmt_d (Min b) +:+ " bytes" +:+ nl.

(** The part of [AnalyzeSubCommsResults] after the first loop: it creates
    the report file and writes it.  [ranks_order] is the order in which
    [range stats] visits the keys. *)
Definition AnalyzeSubCommsResults_report (h : list CallData) (ranks_order : list Z)
    (dir : string) (stats : gmap Z SendRecvStats) (allPatterns : gmap Z Data)
    : IO (option error) :=
  (let multicommHighlightFile :=
     filepath_Join dir (format_MulticommHighlightFilePrefix +:+ ".md") in
   let* (fd, err) := os_OpenFile multicommHighlightFile in
   match err with
   | Some e => ret (Some e)
   | None =>
       try* WriteString fd
              ("Alltoallv on sub-communicators detected." +:+ nl +:+ nl
               +:+ "# Patterns summary" +:+ nl +:+ nl) in
       let ranks := merge_sort Z.le ranks_order in
       let* r0 := match ranks with
                  | [] => panic
                  | r0 :: _ => ret r0
                  end in
       let first := default zero_Data (allPatterns !! r0) in
       try* (if (0 <? length (NToN first))%nat
             then WriteSubcommNtoNPatterns h fd ranks stats allPatterns
             else ret None) in
       try* (if (0 <? length (OneToN first))%nat
             then WriteSubcomm1toNPatterns h fd ranks stats allPatterns
             else ret None) in
       try* (if (0 <? length (NToOne first))%nat
             then WriteSubcommNto1Patterns h fd ranks stats allPatterns
             else ret None) in
       try* WriteString fd
              (nl +:+ "## All 0 counts pattern; no data exchanged" +:+ nl +:+ nl) in
       try* for_each
              (fun rank =>
                 let d := default zero_Data (allPatterns !! rank) in
                 if (0 <? length (Empty d))%nat
                 then WriteString fd
                        (empty_line rank d
                           (default zero_SendRecvStats (stats !! rank)))
                 else ret None)
              ranks in
       try* WriteString fd (nl +:+ "# Counts analysis" +:+ nl +:+ nl) in
       try* for_each
              (fun rank =>
                 try* WriteString fd
                        ("-> Sub-communicator led by rank " +:+ GoInt.fmt_d rank
                         +:+ ":" +:+ nl) in
                 for_each (fun b => WriteString fd (bin_line b))
                   (Bins (default zero_SendRecvStats (stats !! rank))))
              ranks in
       ret None
   end)%go.

(** [groups_order] is the order in which [range allPatterns] visits the
    groups. *)
Definition AnalyzeSubCommsResults (h : list CallData)
    (groups_order : list (Z * Data)) (ranks_order : list Z) (dir : string)
    (stats : gmap Z SendRecvStats) (allPatterns : gmap Z Data)
    : IO (option error) :=
  match AnalyzeSubCommsResults_scan h (-1) (-1) (-1) (-1) zero_Data
          (groups_order.*2) with
  | None => panic
  | Some false => ret None
  | Some true => AnalyzeSubCommsResults_report h ranks_order dir stats allPatterns
  end.

End Reports.

(** * Value-level reading of the bucket store

    The buckets of a collection, in the order of [AllPatterns], as the list
    of the records its addresses point to; [addOrMerge] is what one call of
    [addPattern] does to that list. *)

Definition same_sig (s r : IntMap) (cd : CallData) : bool :=
  CompareCallPatterns (Send cd) s && CompareCallPatterns (Recv cd) r.

Definition bump (callNum : Z) (cd : CallData) : CallData :=
  mkCallData (Send cd) (Recv cd) (GoInt.add (Count cd) 1) (Calls cd ++ [callNum]).

Fixpoint addOrMerge (callNum : Z) (s r : IntMap) (bs : list CallData) : list CallData :=
  match bs with
  | [] => [mkCallData s r 1 [callNum]]
  | b :: rest =>
      if same_sig s r b then bump callNum b :: rest
      else b :: addOrMerge callNum s r rest
  end.

Definition buckets_at (h : list CallData) (ps : list ptr) (bs : list CallData) : Prop :=
  Forall2 (fun p b => h !! p = Some b) ps bs.

(** The call numbers of the calls of a sequence that carry the pair [(s, r)],
    in the order of the calls. *)
Definition calls_with (s r : IntMap) (calls : list (Z * IntMap * IntMap)) : list Z :=
  (fun c => c.1.1) <$>
    List.filter (fun c => CompareCallPatterns c.1.2 s && CompareCallPatterns c.2 r) calls.

Definition sig (b : CallData) : IntMap * IntMap := (Send b, Recv b).

Definition touch (callNum : Z) (s r : IntMap) (b : CallData) : CallData :=
  if same_sig s r b then bump callNum b else b.

Definition addOrMerge_all (calls : list (Z * IntMap * IntMap)) (bs : list CallData)
    : list CallData :=
  foldl (fun bs c => addOrMerge c.1.1 c.1.2 c.2 bs) bs calls.

(** What the buckets of a collection record about the calls fed so far. *)
Definition records (calls : list (Z * IntMap * IntMap)) (bs : list CallData) : Prop :=
  NoDup (sig <$> bs)
  /\ Forall (fun b => Calls b = calls_with (Send b) (Recv b) calls
                      /\ Count b = Z.of_nat (length (Calls b))
                      /\ Calls b <> []) bs
  /\ (forall s r, calls_with s r calls <> [] -> (s, r) ∈ sig <$> bs).

(** ** Value-level reading of the classification loop *)

(** The rule, if any, that the loop body applies to an entry: the first of
    the three tests that succeeds. *)
Definition is_OneToN (e : Z * Z) : bool := GoInt.mul e.2 100 <? e.1.
Definition is_NToN (e : Z * Z) : bool := negb (is_OneToN e) && (e.1 =? e.2).
Definition is_NToOne (e : Z * Z) : bool :=
  negb (is_OneToN e) && negb (e.1 =? e.2) && (GoInt.mul e.1 100 <? e.2).

Definition hits (f : Z * Z -> bool) (es : list (Z * Z)) : nat :=
  length (List.filter f es).

(** ** Sample data *)

Module Sample.

(** Two ranks send to two peers each. *)
Definition two_by_two : IntMap := Some {[2 := 2]}.

(** 200 ranks send to one peer each and two ranks send to two peers each. *)
Definition mixed : IntMap := Some (<[1 := 200]> {[2 := 2]}).

Definition calls : list (Z * IntMap * IntMap) :=
  [(0, two_by_two, two_by_two); (1, mixed, mixed); (2, two_by_two, two_by_two)].

End Sample.

(** ** References to a bucket from the topology views *)

(** The number of times the address [p] occurs in a view. *)
Definition refs (p : ptr) (view : list ptr) : nat :=
  length (List.filter (fun q => bool_decide (q = p)) view).

Definition topology_refs (d : Data) (p : ptr) : nat :=
  (refs p (OneToN d) + refs p (NToN d) + refs p (NToOne d))%nat.

(** The references to every bucket mirror the entries of its send
    signature; addresses outside [AllPatterns] are not referenced. *)
Definition views_mirror (d : Data) (h : list CallData) : Prop :=
  forall p,
    (p ∈ AllPatterns d ->
     exists cd, h !! p = Some cd
       /\ refs p (OneToN d) = hits is_OneToN (range_map (Send cd))
       /\ refs p (NToN d) = hits is_NToN (range_map (Send cd))
       /\ refs p (NToOne d) = hits is_NToOne (range_map (Send cd)))
    /\ (p ∉ AllPatterns d ->
        refs p (OneToN d) = 0%nat /\ refs p (NToN d) = 0%nat
        /\ refs p (NToOne d) = 0%nat).

(** ** Value-level reading of a classification pass *)

Section ParseFiles_reading.

Variable counts_ParseFiles :
  string -> string -> Z -> Z -> nat -> SendRecvStats * option error.
Variables (sendCountsFile recvCountsFile : string) (numCalls sizeThreshold : Z).

(** What [counts.ParseFiles] returns in the iteration of call [i]. *)
Definition counts_of (i : Z) : SendRecvStats :=
  (counts_ParseFiles sendCountsFile recvCountsFile numCalls sizeThreshold
                     (Z.to_nat i)).1.

Definition parse_ok (i : Z) : Prop :=
  (counts_ParseFiles sendCountsFile recvCountsFile numCalls sizeThreshold
                     (Z.to_nat i)).2 = None.

(** The calls that the pass feeds to [addPattern]. *)
Definition fed_calls (todo : list Z) : list (Z * IntMap * IntMap) :=
  (fun i => (i, SendPatterns (counts_of i), RecvPatterns (counts_of i))) <$> todo.

(** A call that exchanges no data: all its send and receive counts are
    zero. *)
Definition is_barrier (i : Z) : bool :=
  (TotalSendNonZeroCounts (counts_of i) =? 0)
  && (TotalRecvNonZeroCounts (counts_of i) =? 0).

Definition barrier_calls (todo : list Z) : list Z := List.filter is_barrier todo.

End ParseFiles_reading.

(** The records of [Empty]: one per barrier-like call [i], with no signature,
    hit count 1 and [i] as its only call. *)
Definition empties_at (h : list CallData) (ps : list ptr) (calls : list Z) : Prop :=
  Forall2 (fun p i => h !! p = Some (mkCallData None None 1 [i])) ps calls.

(** The sum of the hit counts of a list of buckets. *)
Definition total_count (bs : list CallData) : Z :=
  foldr (fun b acc => Count b + acc) 0 bs.

Module SamplePass.

(** A pass in which the calls with an even number exchange no data and the
    others have the [Sample.mixed] shape. *)
Definition counts_ParseFiles (_ _ : string) (_ _ : Z) (invocation : nat)
    : SendRecvStats * option error :=
  if Nat.even invocation
  then (mkSendRecvStats (Some ∅) (Some ∅) 0 0 0 [], None)
  else (mkSendRecvStats Sample.mixed Sample.mixed 202 202 0 [], None).

Definition counts_NewSendRecvStats (_ : Z) : SendRecvStats := zero_SendRecvStats.

End SamplePass.

Module SampleGroups.

(** Four ranks with three peers each, and four ranks with five peers each:
    two shapes that no topology rule picks up. *)
Definition three_peers : IntMap := Some {[3 := 4]}.
Definition five_peers : IntMap := Some {[5 := 4]}.

(** The store after the passes of two groups of one call each. *)
Definition store : list CallData :=
  [mkCallData three_peers three_peers 1 [0]; mkCallData five_peers five_peers 1 [0]].

Definition group_a : Data := mkData [0%nat] [] [] [] [].
Definition group_b : Data := mkData [1%nat] [] [] [] [].

(** A third group with two buckets. *)
Definition group_c : Data := mkData [0%nat; 1%nat] [] [] [] [].

End SampleGroups.

(** The lengths that the aggregator compares between groups. *)
Definition view_lengths (d : Data) : nat * nat * nat * nat :=
  (length (AllPatterns d), length (NToOne d), length (NToN d), length (OneToN d)).

(** The buckets of a collection are allocated in the store. *)
Definition allocated (h : list CallData) (d : Data) : Prop :=
  Forall (fun p => is_Some (h !! p)) (AllPatterns d).

(** ** Predicates on texts and worlds *)

Fixpoint no_newline (s : string) : bool :=
  match s with
  | EmptyString => true
  | String c rest => negb (Ascii.eqb c "010"%char) && no_newline rest
  end.

(** The file [fd], if it exists in [w], still exists in [w'] and its text in
    [w'] continues its text in [w]. *)
Definition grows (fd : string) (w w' : World) : Prop :=
  forall text, files w !! fd = Some text ->
  exists more, files w' !! fd = Some (text +:+ more).

Definition Grows (fd : string) {A} (f : IO A) : Prop :=
  forall w r w', f w = Some (r, w') -> grows fd w w'.

(** ** The text of the consolidated report *)

Definition join (l : list string) : string := foldr String.append EmptyString l.

Definition report_title : string :=
  "Alltoallv on sub-communicators detected." +:+ nl +:+ nl
  +:+ "# Patterns summary" +:+ nl +:+ nl.

Definition tally_title : string :=
  nl +:+ "## All 0 counts pattern; no data exchanged" +:+ nl +:+ nl.

Definition counts_title : string := nl +:+ "# Counts analysis" +:+ nl +:+ nl.

(** The tally of the calls that exchanged no data: one line per group that
    has some, in the order of [ranks]. *)
Definition tally_text (ranks : list Z) (stats : gmap Z SendRecvStats)
    (allPatterns : gmap Z Data) : string :=
  join ((fun rank =>
           let d := default zero_Data (allPatterns !! rank) in
           if (0 <? length (Empty d))%nat
           then empty_line rank d (default zero_SendRecvStats (stats !! rank))
           else EmptyString) <$> ranks).

(** The binned size statistics: per group a heading and one line per bin. *)
Definition bins_text (ranks : list Z) (stats : gmap Z SendRecvStats) : string :=
  join ((fun rank =>
           ("-> Sub-communicator led by rank " +:+ GoInt.fmt_d rank +:+ ":" +:+ nl)
           +:+ join (bin_line <$> Bins (default zero_SendRecvStats (stats !! rank))))
          <$> ranks).

(** A topology section: absent when the view is empty, and otherwise a text
    that starts with the title of the section. *)
Definition section_shape (title : string) (view : list ptr) (s : string) : Prop :=
  match view with
  | [] => s = EmptyString
  | _ :: _ => exists body, s = (title +:+ nl +:+ nl) +:+ body
  end.

(** The collection of the group with the smallest rank, whose buckets the
    report describes. *)
Definition first_group (ranks_order : list Z) (allPatterns : gmap Z Data) : Data :=
  match merge_sort Z.le ranks_order with
  | [] => zero_Data
  | r0 :: _ => default zero_Data (allPatterns !! r0)
  end.

Definition described_buckets (ranks_order : list Z) (allPatterns : gmap Z Data)
    : list ptr :=
  let first := first_group ranks_order allPatterns in
  NToN first ++ OneToN first ++ NToOne first.

(** Every bucket of [ps] has at most one entry in each signature. *)
Definition small_signatures (h : list CallData) (ps : list ptr) : Prop :=
  forall p cd, p ∈ ps -> h !! p = Some cd ->
  len_map (Send cd) <= 1 /\ len_map (Recv cd) <= 1.

(** An order a [range] statement may follow: some arrangement of the entries
    of the map. *)
Definition admissible (range_order : nat -> IntMap -> list (Z * Z)) : Prop :=
  forall n m, range_order n m ≡ₚ range_map m.

Module SampleReport.

Definition store : list CallData := [mkCallData Sample.mixed Sample.mixed 1 [0]].
Definition group : Data := mkData [0%nat] [] [0%nat] [0%nat] [].
Definition allPatterns : gmap Z Data := {[0 := group]}.
Definition stats : gmap Z SendRecvStats :=
  {[0 := mkSendRecvStats None None 0 0 1 [mkBin 202 0 200]]}.
Definition world : World := mkWorld ∅ 100 0.

Definition forwards (_ : nat) (m : IntMap) : list (Z * Z) := range_map m.
Definition backwards (_ : nat) (m : IntMap) : list (Z * Z) := reverse (range_map m).

End SampleReport.

(** ** Value-level reading of [Same] *)

(** Some bucket of [bs] has, in the signature of the given direction, an
    entry whose rank count is [v]. *)
Definition has_rank_count (ctx : string) (bs : list CallData) (v : Z) : Prop :=
  exists b e,
    b ∈ bs /\ e ∈ range_map (if String.eqb ctx "SEND" then Send b else Recv b)
    /\ e.2 = v.

(** Every rank count of the signatures of [bs1] in the given direction is a
    rank count of some signature of [bs2]. *)
Definition rank_counts_covered (ctx : string) (bs1 bs2 : list CallData) : Prop :=
  forall b1 e,
    b1 ∈ bs1 -> e ∈ range_map (if String.eqb ctx "SEND" then Send b1 else Recv b1) ->
    has_rank_count ctx bs2 e.2.

(** A computation that never panics. *)
Definition Runs {A} (f : IO A) : Prop := forall w, is_Some (f w).

(** The buckets that a report reads through the three topology views of a
    collection are allocated. *)
Definition views_allocated (h : list CallData) (d : Data) : Prop :=
  Forall (fun p => is_Some (h !! p)) (NToN d ++ OneToN d ++ NToOne d).

(** ** The layout that the reader of a patterns file accepts *)

(** A line of pattern data, without its newline: not empty, and the line
    does not look like the second line of a header. *)
Definition data_line (l : string) : bool :=
  no_newline l && negb (String.eqb l EmptyString)
  && negb (String.prefix "Alltoallv calls: " (l +:+ nl)).

(** The lines, each followed by a newline. *)
Definition lines_text (lines : list string) : string :=
  join ((fun l => l +:+ nl) <$> lines).

(** A call list as the header parser recovers it from its line: it has no
    newline and does not start with a character of ["Alltoallv calls: "]
    (which [strings.TrimLeft] would strip). *)
Definition call_list_text (ids : string) : bool :=
  no_newline ids
  && match ids with
     | EmptyString => true
     | String c _ => negb (in_cutset c "Alltoallv calls: ")
     end.

(** A block whose two header lines follow one another. *)
Record Block := mkBlock {
  block_title : string;
  block_ids : string;
  block_lines : list string
}.

Definition block_text (b : Block) : string :=
  ("## Pattern #" +:+ block_title b) +:+ nl
  +:+ ("Alltoallv calls: " +:+ block_ids b) +:+ nl
  +:+ lines_text (block_lines b) +:+ nl.

Definition block_ok (convert : string -> list Z * option error) (b : Block) : Prop :=
  no_newline (block_title b) = true
  /\ call_list_text (block_ids b) = true
  /\ Forall (fun l => data_line l = true) (block_lines b)
  /\ (convert (block_ids b)).2 = None.

(** The first block whose decoded call list holds [callNum]. *)
Fixpoint find_block (convert : string -> list Z * option error) (callNum : Z)
    (blocks : list Block) : option Block :=
  match blocks with
  | [] => None
  | b :: rest =>
      if existsb (fun c => c =? callNum) (convert (block_ids b)).1 then Some b
      else find_block convert callNum rest
  end.

(** * The command [srcountsanalyzer] *)

Module srcountsanalyzer.

Record callPattern := mkCallPattern {
  send : IntMap;
  recv : IntMap;
  count : Z;
  calls : list Z
}.

Record GlobalPatterns := mkGlobalPatterns {
  cp : list ptr
}.

(** Modelled from the spec: the package [datafilereader] is not part of the
    sources; [CallInfo] carries the fields of [datafilereader.CallInfo] that
    [main] reads. *)
Record CallPatterns := mkCallPatterns {
  SendPatterns : IntMap;
  RecvPatterns : IntMap
}.

Record CallInfo := mkCallInfo {
  SendSmallMsgs : Z;
  SendSmallNotZeroMsgs : Z;
  SendLargeMsgs : Z;
  SendDatatypeSize : Z;
  RecvDatatypeSize : Z;
  CommSize : Z;
  SendMin : Z;
  RecvMin : Z;
  SendMax : Z;
  RecvMax : Z;
  SendNotZeroMin : Z;
  RecvNotZeroMin : Z;
  TotalSendZeroCounts : Z;
  TotalRecvZeroCounts : Z;
  Patterns : CallPatterns
}.

(** The local variables of [main] that its loop over the calls updates. *)
Record Locals := mkLocals {
  globalPatterns : GlobalPatterns;
  datatypesSend : gmap Z Z;
  datatypesRecv : gmap Z Z;
  commSizes : gmap Z Z;
  sendMins : gmap Z Z;
  recvMins : gmap Z Z;
  sendMaxs : gmap Z Z;
  recvMaxs : gmap Z Z;
  recvNotZeroMins : gmap Z Z;
  sendNotZeroMins : gmap Z Z;
  callSendSparsity : gmap Z Z;
  callRecvSparsity : gmap Z Z;
  numSendSmallMsgs : Z;
  numSendSmallNotZeroMsgs : Z;
  numSendLargeMsgs : Z
}.

(** The variables as [main] declares them: the zero value and empty maps. *)
Definition initial_Locals : Locals :=
  mkLocals (mkGlobalPatterns []) ∅ ∅ ∅ ∅ ∅ ∅ ∅ ∅ ∅ ∅ ∅ 0 0 0.

(** [if _, ok := probe[k]; ok { m[k]++ } else { m[k] = 1 }]; the increment
    of a key that [m] does not hold starts from the zero value. *)
Definition count_key (probe m : gmap Z Z) (k : Z) : gmap Z Z :=
  match probe !! k with
  | Some _ => <[k := GoInt.add (default 0 (m !! k)) 1]> m
  | None => <[k := 1]> m
  end.

Section main.

(** [datafilereader.CompareCallPatterns] and [datafilereader.LookupCall] are
    not part of the sources. *)
Variable datafilereader_CompareCallPatterns : IntMap -> IntMap -> bool.
Variable datafilereader_LookupCall :
  string -> string -> Z -> Z -> CallInfo * option error.

(** The scan of [globalPatterns.cp]; [true] when a pattern matched, was
    updated and the function returned from inside the loop. *)
Fixpoint addPattern_scan (callNum : Z) (sendPatterns recvPatterns : IntMap)
    (xs : list ptr) : ST (list callPattern) bool :=
  match xs with
  | [] => ret false
  | x :: rest =>
      fun h =>
        match h !! x with
        | None => None
        | Some c =>
            if datafilereader_CompareCallPatterns (send c) sendPatterns
               && datafilereader_CompareCallPatterns (recv c) recvPatterns
            then Some (true, <[x := mkCallPattern (send c) (recv c)
                                      (GoInt.add (count c) 1)
                                      (calls c ++ [callNum])]> h)
            else addPattern_scan callNum sendPatterns recvPatterns rest h
        end
  end.

Definition addPattern (callNum : Z) (sendPatterns recvPatterns : IntMap)
    (g : GlobalPatterns) : ST (list callPattern) (GlobalPatterns * option error) :=
  (let* found := addPattern_scan callNum sendPatterns recvPatterns (cp g) in
   if found : bool then ret (g, None)
   else
     fun h =>
       let new_cp := length h in
       Some ((mkGlobalPatterns (cp g ++ [new_cp]), None),
             h ++ [mkCallPattern sendPatterns recvPatterns 1 [callNum]]))%go.

(** The loop of [main] over the calls, over the values [todo] that [i] still
    has to take; [inl] is an exit through [log.Fatalf]. *)
Fixpoint main_loop (sendCountsFile recvCountsFile : string) (sizeThreshold : Z)
    (todo : list Z) (l : Locals) : ST (list callPattern) (error + Locals) :=
  match todo with
  | [] => ret (inr l)
  | i :: rest =>
      let '(callInfo, err) :=
        datafilereader_LookupCall sendCountsFile recvCountsFile i sizeThreshold in
      match err with
      | Some e => ret (inl e)
      | None =>
          let numSendSmallMsgs' :=
            GoInt.add (numSendSmallMsgs l) (SendSmallMsgs callInfo) in
          let numSendSmallNotZeroMsgs' :=
            GoInt.add (numSendSmallNotZeroMsgs l) (SendSmallNotZeroMsgs callInfo) in
          let numSendLargeMsgs' :=
            GoInt.add (numSendLargeMsgs l) (SendLargeMsgs callInfo) in
          let datatypesSend' :=
            count_key (datatypesSend l) (datatypesSend l) (SendDatatypeSize callInfo) in
          let datatypesRecv' :=
            count_key (datatypesRecv l) (datatypesRecv l) (RecvDatatypeSize callInfo) in
          let commSizes' :=
            count_key (commSizes l) (commSizes l) (CommSize callInfo) in
          let sendMins' := count_key (sendMins l) (sendMins l) (SendMin callInfo) in
          let recvMins' := count_key (recvMins l) (recvMins l) (RecvMin callInfo) in
          let sendMaxs' := count_key (sendMaxs l) (sendMaxs l) (SendMax callInfo) in
          let recvMaxs' := count_key (recvMaxs l) (recvMaxs l) (RecvMax callInfo) in
          let sendMins'' :=
            count_key (sendNotZeroMins l) sendMins' (SendNotZeroMin callInfo) in
          let recvMins'' :=
            count_key (recvNotZeroMins l) recvMins' (RecvNotZeroMin callInfo) in
          let callSendSparsity' :=
            count_key (callSendSparsity l) (callSendSparsity l)
                      (TotalSendZeroCounts callInfo) in
          let callRecvSparsity' :=
            count_key (callRecvSparsity l) (callRecvSparsity l)
                      (TotalRecvZeroCounts callInfo) in
          (let* (g, err) :=
             addPattern i (SendPatterns (Patterns callInfo))
                        (RecvPatterns (Patterns callInfo)) (globalPatterns l) in
           match err with
           | Some e => ret (inl e)
           | None =>
               main_loop sendCountsFile recvCountsFile sizeThreshold rest
                 (mkLocals g datatypesSend' datatypesRecv' commSizes' sendMins''
                    recvMins'' sendMaxs' recvMaxs' (recvNotZeroMins l)
                    (sendNotZeroMins l) callSendSparsity' callRecvSparsity'
                    numSendSmallMsgs' numSendSmallNotZeroMsgs' numSendLargeMsgs')
           end)%go
      end
  end.

(** *** Reading the loop *)

(** What [datafilereader.LookupCall] returns for call [i]. *)
Definition info_of (sendCountsFile recvCountsFile : string) (sizeThreshold i : Z)
    : CallInfo :=
  (datafilereader_LookupCall sendCountsFile recvCountsFile i sizeThreshold).1.

Definition lookup_ok (sendCountsFile recvCountsFile : string) (sizeThreshold i : Z)
    : Prop :=
  (datafilereader_LookupCall sendCountsFile recvCountsFile i sizeThreshold).2 = None.

(** The calls that the loop feeds to [addPattern]. *)
Definition fed_calls (sendCountsFile recvCountsFile : string) (sizeThreshold : Z)
    (todo : list Z) : list (Z * IntMap * IntMap) :=
  (fun i =>
     (i, SendPatterns (Patterns (info_of sendCountsFile recvCountsFile sizeThreshold i)),
      RecvPatterns (Patterns (info_of sendCountsFile recvCountsFile sizeThreshold i))))
  <$> todo.

End main.

(** The number of calls whose field [f] has the value [k]. *)
Definition occurrences (f : CallInfo -> Z) (infos : list CallInfo) (k : Z) : nat :=
  length (List.filter (fun c => f c =? k) infos).

(** The map [m] counts the calls by the value of their field [f]: a value
    that no call has is not a key. *)
Definition tallies (m : gmap Z Z) (f : CallInfo -> Z) (infos : list CallInfo) : Prop :=
  forall k,
    m !! k = if (occurrences f infos k =? 0)%nat then None
             else Some (Z.of_nat (occurrences f infos k)).

(** A pattern of the command as a bucket of the package [patterns]. *)
Definition as_CallData (c : callPattern) : CallData :=
  mkCallData (send c) (recv c) (count c) (calls c).

(** What the loop of [main] keeps between two calls: seven of its maps count
    the calls by the value of a field, and two of its maps are empty. *)
Definition loop_invariant (l : Locals) (infos : list CallInfo) : Prop :=
  tallies (datatypesSend l) SendDatatypeSize infos
  /\ tallies (datatypesRecv l) RecvDatatypeSize infos
  /\ tallies (commSizes l) CommSize infos
  /\ tallies (sendMaxs l) SendMax infos
  /\ tallies (recvMaxs l) RecvMax infos
  /\ tallies (callSendSparsity l) TotalSendZeroCounts infos
  /\ tallies (callRecvSparsity l) TotalRecvZeroCounts infos
  /\ sendNotZeroMins l = ∅
  /\ recvNotZeroMins l = ∅.

Module SampleRun.

Definition info (i : Z) : CallInfo :=
  mkCallInfo 4 2 0 8 8 4 5 5 9 9 5 5 (i mod 2) 0
    (mkCallPatterns (if i mod 2 =? 0 then Sample.two_by_two else Sample.mixed)
                    (if i mod 2 =? 0 then Sample.two_by_two else Sample.mixed)).

Definition LookupCall (_ _ : string) (i _ : Z) : CallInfo * option error :=
  (info i, None).

End SampleRun.

End srcountsanalyzer.

(** ** The patterns that [srcountsanalyzer] prints *)

Module srcountsanalyzer_output.

Section print.

Variable range_order : nat -> IntMap -> list (Z * Z).
Variable notation_CompressIntArray : list Z -> string.

(** The loop of [main] that prints the patterns on the standard output,
    from the [range] statement number [tick] on; [None] is the dereference
    of an address that was never allocated. *)
Fixpoint print_patterns (h : list srcountsanalyzer.callPattern) (tick : nat) (num : Z)
    (cps : list ptr) : option string :=
  match cps with
  | [] => Some EmptyString
  | p :: rest =>
      c ← h !! p;
      out ← print_patterns h (S (S tick)) (GoInt.add num 1) rest;
      Some (("## Pattern #" +:+ GoInt.fmt_d num +:+ " ("
             +:+ GoInt.fmt_d (srcountsanalyzer.count c) +:+ " alltoallv calls)" +:+ nl)
            +:+ ("Alltoallv calls: "
                 +:+ notation_CompressIntArray (srcountsanalyzer.calls c) +:+ nl)
            +:+ join ((fun e => GoInt.fmt_d e.2 +:+ " ranks sent to "
                                +:+ GoInt.fmt_d e.1 +:+ " other ranks" +:+ nl)
                      <$> range_order tick (srcountsanalyzer.send c))
            +:+ join ((fun e => GoInt.fmt_d e.2 +:+ " ranks recv'd from "
                                +:+ GoInt.fmt_d e.1 +:+ " other ranks" +:+ nl)
                      <$> range_order (S tick) (srcountsanalyzer.recv c))
            +:+ nl +:+ out)
  end.

(** [fmt.Printf("\n# Patterns\n")] and the loop. *)
Definition print_patterns_section (h : list srcountsanalyzer.callPattern) (tick : nat)
    (g : srcountsanalyzer.GlobalPatterns) : option string :=
  out ← print_patterns h tick 0 (srcountsanalyzer.cp g);
  Some (nl +:+ "# Patterns" +:+ nl +:+ out).

(** The lines that describe a pattern, printed from [range] statement
    [tick] on. *)
Definition described (tick : nat) (c : srcountsanalyzer.callPattern) : string :=
  join ((fun e => GoInt.fmt_d e.2 +:+ " ranks sent to "
                  +:+ GoInt.fmt_d e.1 +:+ " other ranks" +:+ nl)
        <$> range_order tick (srcountsanalyzer.send c))
  +:+ join ((fun e => GoInt.fmt_d e.2 +:+ " ranks recv'd from "
                      +:+ GoInt.fmt_d e.1 +:+ " other ranks" +:+ nl)
            <$> range_order (S tick) (srcountsanalyzer.recv c)).

(** The printed patterns as blocks of a patterns file. *)
Fixpoint blocks_of (tick : nat) (num : Z) (cs : list srcountsanalyzer.callPattern)
    : list Block :=
  match cs with
  | [] => []
  | c :: rest =>
      mkBlock (GoInt.fmt_d num +:+ " (" +:+ GoInt.fmt_d (srcountsanalyzer.count c)
               +:+ " alltoallv calls)")
              (notation_CompressIntArray (srcountsanalyzer.calls c))
              (((fun e => GoInt.fmt_d e.2 +:+ " ranks sent to "
                          +:+ GoInt.fmt_d e.1 +:+ " other ranks")
                <$> range_order tick (srcountsanalyzer.send c))
               ++ ((fun e => GoInt.fmt_d e.2 +:+ " ranks recv'd from "
                             +:+ GoInt.fmt_d e.1 +:+ " other ranks")
                   <$> range_order (S tick) (srcountsanalyzer.recv c)))
      :: blocks_of (S (S tick)) (GoInt.add num 1) rest
  end.

End print.

End srcountsanalyzer_output.

(** ** The summary file of [profiler.SaveStats] *)

Section Summary_file.

Variable range_order : nat -> IntMap -> list (Z * Z).
Variable notation_CompressIntArray : list Z -> string.

(** The part of [profiler.SaveStats] that writes the summary file of a
    group.  Only the loop over [OneToN] increments [num]. *)
Definition SaveStats_summary (h : list CallData) (patternsSummaryFd : string)
    (patternsData : Data) (numCalls : Z) : IO (option error) :=
  (if negb (NoSummary patternsData) then
     try* (if negb (length (OneToN patternsData) =? 0)%nat then
             try* WriteString patternsSummaryFd ("# 1 to N patterns" +:+ nl +:+ nl) in
             for_each_num
               (fun num cp =>
                  WriteToFile range_order notation_CompressIntArray h
                    patternsSummaryFd num numCalls cp)
               0 (OneToN patternsData)
           else ret None) in
     try* (if negb (length (NToOne patternsData) =? 0)%nat then
             try* WriteString patternsSummaryFd
                    (nl +:+ "# N to 1 patterns" +:+ nl +:+ nl) in
             for_each
               (fun cp =>
                  WriteToFile range_order notation_CompressIntArray h
                    patternsSummaryFd 0 numCalls cp)
               (NToOne patternsData)
           else ret None) in
     try* (if negb (length (NToN patternsData) =? 0)%nat then
             try* WriteString patternsSummaryFd
                    (nl +:+ "# N to n patterns" +:+ nl +:+ nl) in
             for_each
               (fun cp =>
                  WriteToFile range_order notation_CompressIntArray h
                    patternsSummaryFd 0 numCalls cp)
               (NToN patternsData)
           else ret None) in
     ret None
   else
     try* WriteString patternsSummaryFd "Nothing special detected; no summary" in
     ret None)%go.

(** *** The text of a summary file *)

(** The block of a bucket, written from [range] statement [tick] on under
    the number [num]. *)
Definition block_written (tick : nat) (num totalNumCalls : Z) (c : CallData) : string :=
  pattern_header num (Count c) totalNumCalls
  +:+ ("Alltoallv calls: " +:+ notation_CompressIntArray (Calls c) +:+ nl)
  +:+ join (sent_line <$> range_order tick (Send c))
  +:+ join (recvd_line <$> range_order (S tick) (Recv c))
  +:+ nl.

(** The blocks of buckets with their numbers, one after the other. *)
Fixpoint blocks_written (tick : nat) (totalNumCalls : Z) (l : list (Z * CallData))
    : string :=
  match l with
  | [] => EmptyString
  | (num, c) :: rest =>
      block_written tick num totalNumCalls c
      +:+ blocks_written (S (S tick)) totalNumCalls rest
  end.

(** The buckets numbered from [n] on. *)
Fixpoint numbered (n : Z) (cs : list CallData) : list (Z * CallData) :=
  match cs with
  | [] => []
  | c :: rest => (n, c) :: numbered (GoInt.add n 1) rest
  end.

(** A section of the summary: nothing for an empty view. *)
Definition summary_section (title : string) (tick : nat) (totalNumCalls : Z)
    (l : list (Z * CallData)) : string :=
  match l with
  | [] => EmptyString
  | _ => title +:+ blocks_written tick totalNumCalls l
  end.

(** The summary of a group whose views hold the buckets [one_to_n],
    [n_to_one] and [n_to_n]: the buckets of the first section are numbered
    from 0 on, the buckets of the other two all bear the number 0. *)
Definition summary_text (tick : nat) (totalNumCalls : Z)
    (one_to_n n_to_one n_to_n : list CallData) : string :=
  match one_to_n, n_to_one, n_to_n with
  | [], [], [] => "Nothing special detected; no summary"
  | _, _, _ =>
      summary_section ("# 1 to N patterns" +:+ nl +:+ nl) tick totalNumCalls
        (numbered 0 one_to_n)
      +:+ summary_section (nl +:+ "# N to 1 patterns" +:+ nl +:+ nl)
            (tick + 2 * length one_to_n) totalNumCalls
            ((fun c => (0, c)) <$> n_to_one)
      +:+ summary_section (nl +:+ "# N to n patterns" +:+ nl +:+ nl)
            (tick + 2 * length one_to_n + 2 * length n_to_one) totalNumCalls
            ((fun c => (0, c)) <$> n_to_n)
  end.

End Summary_file.

Module SampleSummary.

(** The collection of the sample calls: its second bucket is in [NToN] and
    in [NToOne]. *)
Definition store : list CallData :=
  [mkCallData Sample.two_by_two Sample.two_by_two 2 [0; 2];
   mkCallData Sample.mixed Sample.mixed 1 [1]].

Definition data : Data := mkData [0; 1]%nat [] [0; 1]%nat [1]%nat [].

Definition compress (l : list Z) : string :=
  match l with
  | [_; _] => "0,2"
  | _ => "1"
  end.

Definition world : World := mkWorld {["summary.md" := EmptyString]} 99 0.

(** The world after the summary of the sample collection is written. *)
Definition written : World :=
  match SaveStats_summary (fun _ m => range_map m) compress store "summary.md" data 3
          world with
  | Some (_, w') => w'
  | None => world
  end.

End SampleSummary.

(** ** Equality of signatures, in words *)

(** The keys of a map value with their values; a nil map has none. *)
Definition entries (m : IntMap) : gmap Z Z := default ∅ m.

(** Equality of two signatures in the words of the specification:
    identical key sets and identical values. *)
Definition same_keys_and_values (p1 p2 : IntMap) : Prop := entries p1 = entries p2.

(** The call numbers of the calls of a sequence whose pair has the keys and
    values of [(s, r)], in the order of the calls. *)
Definition calls_alike (s r : IntMap) (calls : list (Z * IntMap * IntMap)) : list Z :=
  (fun c => c.1.1) <$>
    List.filter (fun c => bool_decide (entries c.1.2 = entries s
                                       /\ entries c.2 = entries r)) calls.

(** The call numbers of the calls of a sequence whose pair is [(s, r)] as a
    pair of map values: the same keys and values, and nil exactly where
    [(s, r)] is nil. *)
Definition calls_feeding (s r : IntMap) (calls : list (Z * IntMap * IntMap)) : list Z :=
  (fun c => c.1.1) <$>
    List.filter (fun c => bool_decide (c.1.2 = s /\ c.2 = r)) calls.

Module SampleNil.

(** A call with nil signatures and a call with empty, allocated
    signatures. *)
Definition calls : list (Z * IntMap * IntMap) :=
  [(0, None, None); (1, Some ∅, Some ∅)].

End SampleNil.

Module SampleCovering.

(** Three groups of one bucket each, none picked up by a topology rule.  The
    only rank count of the reference, 4, occurs in the two other groups;
    the second group also has the rank count 7 and the third the rank
    count 9. *)
Definition reference_sig : IntMap := Some {[1 := 4]}.
Definition second_sig : IntMap := Some (<[1 := 4]> {[2 := 7]}).
Definition third_sig : IntMap := Some (<[1 := 4]> {[3 := 9]}).

Definition store : list CallData :=
  [mkCallData reference_sig reference_sig 1 [0];
   mkCallData second_sig second_sig 1 [0];
   mkCallData third_sig third_sig 1 [0]].

Definition reference : Data := mkData [0%nat] [] [] [] [].
Definition second : Data := mkData [1%nat] [] [] [] [].
Definition third : Data := mkData [2%nat] [] [] [] [].

Definition allPatterns : gmap Z Data :=
  <[0 := reference]> (<[1 := second]> {[2 := third]}).

Definition one_call : SendRecvStats := mkSendRecvStats None None 0 0 1 [mkBin 4 0 200].

Definition stats : gmap Z SendRecvStats :=
  <[0 := one_call]> (<[1 := one_call]> {[2 := one_call]}).

Definition world : World := mkWorld ∅ 100 0.

End SampleCovering.

Module SampleSubcomms.

(** Two groups, led by the ranks 0 and 4, of one bucket each: two ranks
    with two peers each, which the classification puts in [NToN]. *)
Definition store : list CallData :=
  [mkCallData Sample.two_by_two Sample.two_by_two 2 [0; 1];
   mkCallData Sample.two_by_two Sample.two_by_two 1 [0]].

Definition group0 : Data := mkData [0%nat] [] [0%nat] [] [].
Definition group4 : Data := mkData [1%nat] [] [1%nat] [] [].

Definition allPatterns : gmap Z Data := <[0 := group0]> {[4 := group4]}.

Definition stats : gmap Z SendRecvStats :=
  <[0 := mkSendRecvStats None None 4 4 2 [mkBin 8 0 200]]>
    {[4 := mkSendRecvStats None None 4 4 1 [mkBin 3 0 200; mkBin 1 200 (-1)]]}.

Definition world : World := mkWorld ∅ 100 0.

Definition forwards (_ : nat) (m : IntMap) : list (Z * Z) := range_map m.
Definition backwards (_ : nat) (m : IntMap) : list (Z * Z) := reverse (range_map m).

(** The world after the report of the two groups is written, the keys of
    the statistics visited in the order 4, 0. *)
Definition written : World :=
  match AnalyzeSubCommsResults_report forwards "multicomm" store [4; 0] "out" stats
          allPatterns world with
  | Some (_, w') => w'
  | None => world
  end.

End SampleSubcomms.

(** * Properties *)

Section GoInt_facts.

Lemma wrap_in_range z : GoInt.in_range z -> GoInt.wrap z = z.
Proof.
  unfold GoInt.in_range, GoInt.wrap, GoInt.min_int, GoInt.max_int. intros Hz.
  rewrite Z.mod_small; lia.
Qed.

Lemma add_one_small z : 0 <= z < GoInt.max_int -> GoInt.add z 1 = z + 1.
Proof.
  intros Hz. apply wrap_in_range.
  unfold GoInt.in_range, GoInt.min_int, GoInt.max_int in *. lia.
Qed.

End GoInt_facts.

Section Signatures.

Lemma DeepEqual_eq p1 p2 : DeepEqual p1 p2 = true <-> p1 = p2.
Proof.
  destruct p1 as [g1|], p2 as [g2|]; simpl; try (split; [discriminate|congruence]);
    [|done].
  rewrite andb_true_iff, bool_decide_eq_true, forallb_forall. split.
  - intros [Hsz Hall]. f_equal. apply map_subseteq_size_eq; [|lia].
    apply map_subseteq_spec. intros k v Hk.
    specialize (Hall (k, v)). rewrite bool_decide_eq_true in Hall.
    apply Hall, list_elem_of_In, elem_of_map_to_list, Hk.
  - intros [= ->]. split; [done|]. intros [k v] Hin. apply bool_decide_eq_true.
    by apply elem_of_map_to_list, list_elem_of_In.
Qed.

(** [CompareCallPatterns] decides equality of the two map values. *)
Lemma CompareCallPatterns_eq p1 p2 : CompareCallPatterns p1 p2 = true <-> p1 = p2.
Proof.
  unfold CompareCallPatterns. destruct (len_map p1 =? len_map p2) eqn:Hlen; simpl.
  - apply DeepEqual_eq.
  - split; [discriminate|]. intros ->. rewrite Z.eqb_refl in Hlen. discriminate.
Qed.

Lemma CompareCallPatterns_refl p : CompareCallPatterns p p = true.
Proof. by apply CompareCallPatterns_eq. Qed.

Lemma same_sig_true s r cd : same_sig s r cd = true <-> Send cd = s /\ Recv cd = r.
Proof.
  unfold same_sig. by rewrite andb_true_iff, !CompareCallPatterns_eq.
Qed.

Lemma same_sig_false s r cd : same_sig s r cd = false <-> ~ (Send cd = s /\ Recv cd = r).
Proof. rewrite <- same_sig_true. by destruct (same_sig s r cd). Qed.

End Signatures.

Section Store.

Lemma buckets_at_length h ps bs : buckets_at h ps bs -> length ps = length bs.
Proof. apply Forall2_length. Qed.

Lemma buckets_at_valid h ps bs p : buckets_at h ps bs -> p ∈ ps -> (p < length h)%nat.
Proof.
  intros Hrep Hin. apply list_elem_of_lookup in Hin as [i Hi].
  destruct (Forall2_lookup_l _ _ _ _ _ Hrep Hi) as (b & _ & Hb).
  by apply lookup_lt_Some in Hb.
Qed.

Lemma buckets_at_frame h h' ps bs :
  buckets_at h ps bs -> (forall q, q ∈ ps -> h' !! q = h !! q) -> buckets_at h' ps bs.
Proof.
  intros Hrep Hfr. unfold buckets_at in *.
  induction Hrep as [|p b ps bs Hp Hrep IH]; constructor.
  - rewrite Hfr; [done|]. by left.
  - apply IH. intros q Hq. apply Hfr. by right.
Qed.

Lemma buckets_at_alloc h ps bs cd : buckets_at h ps bs -> buckets_at (h ++ [cd]) ps bs.
Proof.
  intros Hrep. eapply buckets_at_frame; [done|].
  intros q Hq. apply lookup_app_l. by eapply buckets_at_valid.
Qed.

Lemma buckets_at_inj h ps bs bs' : buckets_at h ps bs -> buckets_at h ps bs' -> bs = bs'.
Proof.
  intros H1. revert bs'. induction H1 as [|p b ps bs Hp H1 IH]; intros bs' H2;
    inversion H2; subst; [done|]. f_equal; [congruence|]. by apply IH.
Qed.

Lemma addOrMerge_miss callNum s r bs :
  existsb (same_sig s r) bs = false ->
  addOrMerge callNum s r bs = bs ++ [mkCallData s r 1 [callNum]].
Proof.
  induction bs as [|b bs IH]; simpl; [done|].
  destruct (same_sig s r b); simpl; [discriminate|]. intros H. by rewrite IH.
Qed.

Lemma addOrMerge_hit_length callNum s r bs :
  existsb (same_sig s r) bs = true -> length (addOrMerge callNum s r bs) = length bs.
Proof.
  induction bs as [|b bs IH]; simpl; [discriminate|].
  destruct (same_sig s r b); simpl; [done|]. intros H. by rewrite IH.
Qed.

(** The scan of [addPattern] against the value-level reading. *)
Lemma addPattern_scan_spec callNum s r ps :
  forall bs h, NoDup ps -> buckets_at h ps bs ->
  exists h',
    addPattern_scan callNum s r ps h = Some (existsb (same_sig s r) bs, h')
    /\ length h' = length h
    /\ (forall q, q ∉ ps -> h' !! q = h !! q)
    /\ (if existsb (same_sig s r) bs
        then buckets_at h' ps (addOrMerge callNum s r bs)
        else h' = h).
Proof.
  induction ps as [|p ps IH]; intros bs h Hnd Hrep; inversion Hrep as [|? b ? bs' Hp Hrep']; subst.
  - exists h. by simpl.
  - apply NoDup_cons in Hnd as [Hnotin Hnd]. simpl.
    unfold bind at 1, load. rewrite Hp. fold (same_sig s r b).
    destruct (same_sig s r b) eqn:Hsig; simpl.
    + pose proof (lookup_lt_Some _ _ _ Hp) as Hlt.
      unfold bind, store. rewrite bool_decide_eq_true_2 by done.
      exists (<[p := bump callNum b]> h). split; [done|].
      split; [by rewrite length_insert|]. split.
      * intros q Hq. apply list_lookup_insert_ne. intros ->. apply Hq. by left.
      * constructor; [by apply list_lookup_insert_eq|].
        eapply buckets_at_frame; [exact Hrep'|].
        intros q Hq. apply list_lookup_insert_ne. by intros ->.
    + destruct (IH bs' h Hnd Hrep') as (h' & Hrun & Hlen & Hfr & Hres).
      exists h'. split; [done|]. split; [done|]. split.
      * intros q Hq. apply Hfr. intros Hin. apply Hq. by right.
      * destruct (existsb (same_sig s r) bs'); [|done].
        constructor; [|done]. by rewrite Hfr.
Qed.

End Store.

Section Classifier.

Lemma hits_perm f es es' : es ≡ₚ es' -> hits f es = hits f es'.
Proof.
  intros Hp. unfold hits. induction Hp; simpl; try congruence.
  - destruct (f x); simpl; congruence.
  - destruct (f x), (f y); simpl; congruence.
Qed.

Lemma hits_le f es : (hits f es <= length es)%nat.
Proof. unfold hits. induction es as [|e es IH]; simpl; [lia|]. destruct (f e); simpl; lia. Qed.

Lemma hits_cons f e es :
  hits f (e :: es) = ((if f e then 1 else 0) + hits f es)%nat.
Proof. unfold hits. simpl. by destruct (f e). Qed.

(** The three rules exclude one another on one entry. *)
Lemma rules_exclusive e :
  ((if is_OneToN e then 1 else 0) + (if is_NToN e then 1 else 0)
   + (if is_NToOne e then 1 else 0) <= 1)%nat.
Proof.
  unfold is_NToN, is_NToOne.
  destruct (is_OneToN e), (e.1 =? e.2), (GoInt.mul e.1 100 <? e.2); simpl; lia.
Qed.

Lemma hits_disjoint_le es :
  (hits is_OneToN es + hits is_NToN es + hits is_NToOne es <= length es)%nat.
Proof.
  induction es as [|e es IH]; [done|].
  rewrite !hits_cons. pose proof (rules_exclusive e). simpl. lia.
Qed.

(** The classification loop appends to each view one reference per entry
    that the view's rule picks up, whatever the order of the entries. *)
Lemma classify_fold new_cp es : forall d,
  foldl (addPattern_classify new_cp) d es =
  mkData (AllPatterns d)
         (OneToN d ++ replicate (hits is_OneToN es) new_cp)
         (NToN d ++ replicate (hits is_NToN es) new_cp)
         (NToOne d ++ replicate (hits is_NToOne es) new_cp)
         (Empty d).
Proof.
  induction es as [|e es IH]; intros d; simpl.
  - rewrite !app_nil_r. by destruct d.
  - rewrite IH. unfold addPattern_classify, hits, is_NToN, is_NToOne, is_OneToN. simpl.
    destruct (GoInt.mul e.2 100 <? e.1); simpl.
    { by rewrite <- app_assoc. }
    destruct (e.1 =? e.2); simpl.
    { by rewrite <- app_assoc. }
    destruct (GoInt.mul e.1 100 <? e.2); simpl; [by rewrite <- app_assoc|done].
Qed.

Lemma classify_order_irrelevant new_cp d es es' :
  es ≡ₚ es' ->
  foldl (addPattern_classify new_cp) d es = foldl (addPattern_classify new_cp) d es'.
Proof.
  intros Hp. rewrite !classify_fold.
  by rewrite (hits_perm _ _ _ Hp), (hits_perm is_NToN _ _ Hp), (hits_perm is_NToOne _ _ Hp).
Qed.

(** [addPattern] does not depend on the order in which the runtime visits
    the entries of the send signature. *)
Lemma addPattern_order_irrelevant order callNum s r d h :
  order ≡ₚ range_map s ->
  addPattern_in_order order callNum s r d h = addPattern callNum s r d h.
Proof.
  intros Hp. unfold addPattern, addPattern_in_order, bind.
  destruct (addPattern_scan callNum s r (AllPatterns d) h) as [[[] h']|]; try done.
  unfold new, ret. by rewrite (classify_order_irrelevant _ _ _ _ Hp).
Qed.

End Classifier.

Section AddPattern.

(** One call of [addPattern] against the value-level reading: it never
    panics on a collection whose addresses are allocated and distinct, it
    returns a nil error, and the buckets become [addOrMerge] of the
    buckets. *)
Lemma addPattern_spec callNum s r d h bs :
  NoDup (AllPatterns d) -> buckets_at h (AllPatterns d) bs ->
  exists d' h',
    addPattern callNum s r d h = Some ((d', None), h')
    /\ NoDup (AllPatterns d')
    /\ buckets_at h' (AllPatterns d') (addOrMerge callNum s r bs)
    /\ (forall q, q ∉ AllPatterns d -> (q < length h)%nat -> h' !! q = h !! q)
    /\ Empty d' = Empty d
    /\ (if existsb (same_sig s r) bs
        then d' = d /\ length h' = length h
        else h' = h ++ [mkCallData s r 1 [callNum]]
             /\ d' = mkData (AllPatterns d ++ [length h])
                       (OneToN d ++ replicate (hits is_OneToN (range_map s)) (length h))
                       (NToN d ++ replicate (hits is_NToN (range_map s)) (length h))
                       (NToOne d ++ replicate (hits is_NToOne (range_map s)) (length h))
                       (Empty d)).
Proof.
  intros Hnd Hrep.
  destruct (addPattern_scan_spec callNum s r _ _ _ Hnd Hrep)
    as (h1 & Hrun & Hlen & Hfr & Hres).
  unfold addPattern, addPattern_in_order, bind. rewrite Hrun.
  destruct (existsb (same_sig s r) bs) eqn:Hex.
  - exists d, h1. unfold ret. repeat split; try done.
    intros q Hq _. by apply Hfr.
  - subst h1. unfold new, ret. rewrite classify_fold. simpl.
    eexists _, _. split; [reflexivity|]. simpl. split.
    { apply NoDup_app. split; [done|]. split; [|apply NoDup_singleton].
      intros p Hp ->%list_elem_of_singleton.
      pose proof (buckets_at_valid _ _ _ _ Hrep Hp). lia. }
    split.
    { rewrite addOrMerge_miss by done. apply Forall2_app.
      - by apply buckets_at_alloc.
      - constructor; [|constructor]. by rewrite lookup_app_r, Nat.sub_diag. }
    split; [|done].
    intros q _ Hq. by apply lookup_app_l.
Qed.

End AddPattern.

(** ** The bucket store as a deduplicating map from signature pairs to calls *)

Section Buckets.

Lemma sig_touch callNum s r b : sig (touch callNum s r b) = sig b.
Proof. unfold touch. by destruct (same_sig s r b). Qed.

Lemma same_sig_sig s r b : same_sig s r b = true <-> sig b = (s, r).
Proof. rewrite same_sig_true. unfold sig. split; [by intros [-> ->]|by intros [= -> ->]]. Qed.

Lemma existsb_same_sig s r bs :
  existsb (same_sig s r) bs = true <-> (s, r) ∈ sig <$> bs.
Proof.
  rewrite existsb_exists, list_elem_of_fmap. split.
  - intros (b & Hin%list_elem_of_In & Hs%same_sig_sig). eauto.
  - intros (b & Heq & Hin). exists b. split; [by apply list_elem_of_In|].
    by apply same_sig_sig.
Qed.

Lemma addOrMerge_touch callNum s r bs :
  NoDup (sig <$> bs) ->
  addOrMerge callNum s r bs =
  (touch callNum s r <$> bs)
    ++ (if existsb (same_sig s r) bs then [] else [mkCallData s r 1 [callNum]]).
Proof.
  induction bs as [|b bs IH]; [done|].
  rewrite !fmap_cons. intros [Hnotin Hnd]%NoDup_cons.
  cbn [addOrMerge existsb]. unfold touch at 1.
  destruct (same_sig s r b) eqn:Hb; cbn [orb].
  - rewrite app_nil_r. f_equal.
    apply same_sig_sig in Hb. rewrite Hb in Hnotin.
    clear IH Hnd. induction bs as [|b' bs IH]; [done|].
    rewrite fmap_cons in Hnotin. apply not_elem_of_cons in Hnotin as [Hne Hnotin].
    rewrite fmap_cons, <- IH by done. f_equal. unfold touch.
    destruct (same_sig s r b') eqn:Hb'; [|done].
    apply same_sig_sig in Hb'. congruence.
  - by rewrite IH.
Qed.

Lemma calls_with_app s r calls calls' :
  calls_with s r (calls ++ calls') = calls_with s r calls ++ calls_with s r calls'.
Proof. unfold calls_with. by rewrite List.filter_app, fmap_app. Qed.

Lemma calls_with_one s r callNum s' r' :
  calls_with s r [(callNum, s', r')] = if same_sig s r (mkCallData s' r' 0 []) then [callNum] else [].
Proof. unfold calls_with, same_sig. simpl. by destruct (_ && _). Qed.

Lemma calls_with_length s r calls : (length (calls_with s r calls) <= length calls)%nat.
Proof. unfold calls_with. rewrite length_fmap. apply List.filter_length_le. Qed.

Lemma records_nil : records [] [].
Proof.
  split; [constructor|]. split; [constructor|]. intros s r H. by destruct H.
Qed.

(** One more call keeps the record exact. *)
Lemma records_step calls bs callNum s r :
  Z.of_nat (length calls) < GoInt.max_int ->
  records calls bs ->
  records (calls ++ [(callNum, s, r)]) (addOrMerge callNum s r bs).
Proof.
  intros Hbound (Hnd & Hall & Hcov).
  rewrite addOrMerge_touch by done.
  assert (Hsame : forall s' r', same_sig s' r' (mkCallData s r 0 []) = true <-> (s', r') = (s, r)).
  { intros s' r'. rewrite same_sig_true. simpl. split; [by intros [-> ->]|by intros [= -> ->]]. }
  assert (Hsigs : sig <$> (touch callNum s r <$> bs) = sig <$> bs).
  { rewrite <- list_fmap_compose. apply list_fmap_ext. intros i b _. apply sig_touch. }
  assert (Hmiss : existsb (same_sig s r) bs = false -> calls_with s r calls = []).
  { intros Hex. destruct (calls_with s r calls) eqn:Hc; [done|].
    exfalso. assert ((s, r) ∈ sig <$> bs) as Hin by (apply Hcov; by rewrite Hc).
    apply existsb_same_sig in Hin. congruence. }
  split; [|split].
  - rewrite fmap_app, Hsigs. destruct (existsb (same_sig s r) bs) eqn:Hex.
    + by rewrite app_nil_r.
    + change (sig <$> [mkCallData s r 1 [callNum]]) with [(s, r)].
      apply NoDup_app. split; [done|]. split; [|apply NoDup_singleton].
      intros x Hx ->%list_elem_of_singleton. apply existsb_same_sig in Hx. congruence.
  - apply Forall_app. split.
    + apply Forall_fmap. eapply Forall_impl; [exact Hall|].
      intros b (Hcalls & Hcount & Hne). simpl. unfold touch.
      rewrite calls_with_app, calls_with_one.
      destruct (same_sig s r b) eqn:Hb.
      * simpl. apply same_sig_true in Hb as [Hs Hr]. rewrite Hs, Hr in *.
        rewrite (proj2 (Hsame s r)) by done.
        split; [by rewrite Hcalls|]. split; [|by destruct (Calls b)].
        rewrite length_app, Hcount. simpl.
        pose proof (calls_with_length s r calls). rewrite <- Hcalls in H.
        rewrite add_one_small; lia.
      * destruct (same_sig (Send b) (Recv b) (mkCallData s r 0 [])) eqn:Hb'.
        { apply Hsame in Hb'. apply same_sig_false in Hb. destruct Hb.
          by inversion Hb'. }
        by rewrite app_nil_r.
    + destruct (existsb (same_sig s r) bs) eqn:Hex; constructor; [|constructor].
      simpl. rewrite calls_with_app, calls_with_one, (proj2 (Hsame s r)) by done.
      rewrite Hmiss by done. done.
  - intros s' r' Hne. rewrite fmap_app, Hsigs.
    rewrite calls_with_app, calls_with_one in Hne.
    destruct (same_sig s' r' (mkCallData s r 0 [])) eqn:Heq.
    + apply Hsame in Heq. inversion Heq; subst.
      destruct (existsb (same_sig s r) bs) eqn:Hex.
      * rewrite app_nil_r. by apply existsb_same_sig.
      * apply elem_of_app. right. simpl. by left.
    + rewrite app_nil_r in Hne. apply elem_of_app. left. by apply Hcov.
Qed.

Lemma addOrMerge_all_snoc calls c bs :
  addOrMerge_all (calls ++ [c]) bs = addOrMerge c.1.1 c.1.2 c.2 (addOrMerge_all calls bs).
Proof. unfold addOrMerge_all. by rewrite foldl_app. Qed.

Lemma records_all calls :
  Z.of_nat (length calls) <= GoInt.max_int -> records calls (addOrMerge_all calls []).
Proof.
  induction calls as [|[[n s] r] calls IH] using rev_ind; intros Hbound.
  - apply records_nil.
  - rewrite addOrMerge_all_snoc. rewrite length_app in Hbound. simpl in Hbound.
    apply records_step; [lia|]. apply IH. lia.
Qed.

(** A sequence of calls against the value-level reading. *)
Lemma addPatterns_spec calls : forall d h bs,
  NoDup (AllPatterns d) -> buckets_at h (AllPatterns d) bs ->
  exists d' h',
    addPatterns calls d h = Some (d', h')
    /\ NoDup (AllPatterns d')
    /\ buckets_at h' (AllPatterns d') (addOrMerge_all calls bs)
    /\ Empty d' = Empty d.
Proof.
  induction calls as [|[[n s] r] calls IH]; intros d h bs Hnd Hrep.
  - exists d, h. by simpl.
  - destruct (addPattern_spec n s r d h bs Hnd Hrep)
      as (d1 & h1 & Hrun & Hnd1 & Hrep1 & _ & Hemp & _).
    destruct (IH d1 h1 _ Hnd1 Hrep1) as (d2 & h2 & Hrun2 & Hnd2 & Hrep2 & Hemp2).
    exists d2, h2. simpl. unfold bind. rewrite Hrun. simpl.
    split; [done|]. split; [done|]. split; [done|]. congruence.
Qed.

End Buckets.

(** ** The bucket store deduplicates by signature pair *)

(** C1, as stated, with the equality of signatures in the words of the
    specification (identical key sets and identical values): a pair fed [N]
    times has exactly one bucket, with hit count [N].  A call with nil
    signatures followed by a call with empty, allocated signatures refutes
    it: the two pairs have the same keys and values (none), and the
    collection ends with two buckets of hit count 1. *)
Lemma one_bucket_per_same_keys_and_values_counterexample :
  ~ (forall calls d h,
       addPatterns calls zero_Data [] = Some (d, h) ->
       forall s r, calls_alike s r calls <> [] ->
       exists i p cd,
         AllPatterns d !! i = Some p /\ h !! p = Some cd
         /\ same_keys_and_values (Send cd) s /\ same_keys_and_values (Recv cd) r
         /\ Count cd = Z.of_nat (length (calls_alike s r calls))
         /\ Calls cd = calls_alike s r calls
         /\ forall j q cd',
              AllPatterns d !! j = Some q -> h !! q = Some cd' ->
              same_keys_and_values (Send cd') s ->
              same_keys_and_values (Recv cd') r -> j = i).
Proof.
  intros Hstated.
  destruct (Hstated SampleNil.calls (mkData [0; 1]%nat [] [] [] [])
              [mkCallData None None 1 [0]; mkCallData (Some ∅) (Some ∅) 1 [1]]
              eq_refl None None)
    as (i & p & cd & Hi & Hp & _ & _ & Hcount & _).
  { by vm_compute. }
  destruct i as [|[|i]]; simpl in Hi; [| |done];
    injection Hi as <-; simpl in Hp; injection Hp as <-;
    vm_compute in Hcount; discriminate Hcount.
Qed.

Section Feeding.

Lemma calls_with_feeding s r calls : calls_with s r calls = calls_feeding s r calls.
Proof.
  unfold calls_with, calls_feeding. f_equal.
  induction calls as [|c calls IH]; [done|]. simpl. rewrite IH.
  assert (CompareCallPatterns c.1.2 s && CompareCallPatterns c.2 r
          = bool_decide (c.1.2 = s /\ c.2 = r)) as ->; [|done].
  destruct (bool_decide (c.1.2 = s /\ c.2 = r)) eqn:Hd.
  - apply bool_decide_eq_true in Hd as [-> ->].
    by rewrite !CompareCallPatterns_refl.
  - apply bool_decide_eq_false in Hd. apply not_true_iff_false.
    intros [H1 H2]%andb_true_iff. apply Hd.
    split; by apply CompareCallPatterns_eq.
Qed.

Lemma map_values_equal (p1 p2 : IntMap) :
  p1 = p2 <-> (p1 = None <-> p2 = None) /\ same_keys_and_values p1 p2.
Proof.
  split; [by intros ->|]. intros [Hnil Hkv].
  destruct p1 as [g1|], p2 as [g2|]; unfold same_keys_and_values in Hkv; simpl in Hkv.
  - by rewrite Hkv.
  - by destruct (proj2 Hnil eq_refl).
  - by destruct (proj1 Hnil eq_refl).
  - done.
Qed.

End Feeding.

(** C1, amended.  Two signatures are the same map value when they have
    identical key sets and identical values and are both nil or both not
    nil.  Feed any sequence of calls to [addPattern], starting from the zero
    collection (the number of calls fits in an [int], as the length of a Go
    slice does).  The run does not panic, and for every pair [(s, r)] that
    was fed at least once there is exactly one position of [AllPatterns]
    whose bucket carries the same pair of map values; the hit count of that
    bucket is the number [N] of calls that fed this pair and its call list is
    the [N] call numbers in the order they were fed.  Moreover a further call
    with a pair that no bucket carries allocates one record with hit count 1
    and the call number as its only call, and appends its address at the end
    of [AllPatterns]. *)
Theorem addPattern_one_bucket_per_pair (h0 : list CallData)
    (calls : list (Z * IntMap * IntMap)) :
  Z.of_nat (length calls) <= GoInt.max_int ->
  (forall p1 p2 : IntMap,
     p1 = p2 <-> (p1 = None <-> p2 = None) /\ same_keys_and_values p1 p2)
  /\ exists d h,
    addPatterns calls zero_Data h0 = Some (d, h)
    /\ (forall s r, calls_feeding s r calls <> [] ->
        exists i p,
          AllPatterns d !! i = Some p
          /\ h !! p = Some (mkCallData s r (Z.of_nat (length (calls_feeding s r calls)))
                                       (calls_feeding s r calls))
          /\ forall j q cd,
               AllPatterns d !! j = Some q -> h !! q = Some cd ->
               Send cd = s -> Recv cd = r -> j = i)
    /\ (forall callNum s r,
        (forall q cd, q ∈ AllPatterns d -> h !! q = Some cd ->
                      ~ (Send cd = s /\ Recv cd = r)) ->
        exists d',
          addPattern callNum s r d h
          = Some ((d', None), h ++ [mkCallData s r 1 [callNum]])
          /\ AllPatterns d' = AllPatterns d ++ [length h]).
Proof.
  intros Hbound. split; [apply map_values_equal|].
  destruct (addPatterns_spec calls zero_Data h0 [])
    as (d & h & Hrun & Hnd & Hrep & _); [constructor|constructor|].
  pose proof (records_all calls Hbound) as (Hsigs & Hall & Hcov).
  set (bs := addOrMerge_all calls []) in *.
  exists d, h. split; [done|]. split.
  - intros s r Hne. rewrite <- !calls_with_feeding in *.
    apply Hcov, list_elem_of_fmap in Hne as (b & Hb & Hin).
    apply list_elem_of_lookup in Hin as [i Hi].
    destruct (Forall2_lookup_r _ _ _ _ _ Hrep Hi) as (p & Hp & Hhp).
    exists i, p. split; [done|]. split.
    + rewrite Forall_forall in Hall.
      destruct (Hall b) as (Hcalls & Hcount & _); [by eapply list_elem_of_lookup_2|].
      destruct b as [bs' br bc bl]. unfold sig in Hb. simpl in *.
      inversion Hb; subst. by rewrite Hhp.
    + intros j q cd Hj Hq Hs Hr.
      destruct (Forall2_lookup_l _ _ _ _ _ Hrep Hj) as (b' & Hb' & Hq').
      assert (b' = cd) as -> by congruence.
      eapply NoDup_lookup; [exact Hsigs| |].
      * by rewrite list_lookup_fmap, Hb'.
      * rewrite list_lookup_fmap, Hi. simpl. rewrite <- Hb. unfold sig.
        by rewrite Hs, Hr.
  - intros callNum s r Hnone.
    destruct (addPattern_spec callNum s r d h bs Hnd Hrep)
      as (d' & h' & Hadd & _ & _ & _ & _ & Hres).
    assert (existsb (same_sig s r) bs = false) as Hex.
    { destruct (existsb (same_sig s r) bs) eqn:Hex; [|done].
      apply existsb_exists in Hex as (b & Hin%list_elem_of_In & Hsame).
      apply list_elem_of_lookup in Hin as [i Hi].
      destruct (Forall2_lookup_r _ _ _ _ _ Hrep Hi) as (p & Hp & Hhp).
      apply same_sig_true in Hsame.
      destruct (Hnone p b); [by eapply list_elem_of_lookup_2|done|done]. }
    rewrite Hex in Hres. destruct Hres as [-> ->].
    eexists. split; [exact Hadd|done].
Qed.

Lemma addPattern_one_bucket_per_pair_witness :
  Z.of_nat (length Sample.calls) <= GoInt.max_int
  /\ (forall p1 p2 : IntMap,
        p1 = p2 <-> (p1 = None <-> p2 = None) /\ same_keys_and_values p1 p2)
  /\ exists d h,
       addPatterns Sample.calls zero_Data [] = Some (d, h)
       /\ (forall s r, calls_feeding s r Sample.calls <> [] ->
           exists i p,
             AllPatterns d !! i = Some p
             /\ h !! p = Some (mkCallData s r
                                 (Z.of_nat (length (calls_feeding s r Sample.calls)))
                                 (calls_feeding s r Sample.calls))
             /\ forall j q cd,
                  AllPatterns d !! j = Some q -> h !! q = Some cd ->
                  Send cd = s -> Recv cd = r -> j = i)
       /\ (forall callNum s r,
           (forall q cd, q ∈ AllPatterns d -> h !! q = Some cd ->
                         ~ (Send cd = s /\ Recv cd = r)) ->
           exists d',
             addPattern callNum s r d h
             = Some ((d', None), h ++ [mkCallData s r 1 [callNum]])
             /\ AllPatterns d' = AllPatterns d ++ [length h]).
Proof.
  split; [by vm_compute|].
  apply (addPattern_one_bucket_per_pair [] Sample.calls). by vm_compute.
Defined.

(** The buckets of the sample calls: the pair fed twice has one bucket with
    hit count 2 and calls 0 and 2. *)
Example addPatterns_sample :
  addPatterns Sample.calls zero_Data []
  = Some (mkData [0; 1]%nat [] [0; 1]%nat [1]%nat [],
          [mkCallData Sample.two_by_two Sample.two_by_two 2 [0; 2];
           mkCallData Sample.mixed Sample.mixed 1 [1]]).
Proof. by vm_compute. Qed.

(** ** A matching call changes one bucket and nothing else *)

Section Frame.

Lemma addPattern_scan_hit callNum s r ps : forall h,
  Forall (fun p => is_Some (h !! p)) ps ->
  Exists (fun p => exists cd, h !! p = Some cd /\ same_sig s r cd = true) ps ->
  exists p cd,
    p ∈ ps /\ h !! p = Some cd /\ same_sig s r cd = true
    /\ addPattern_scan callNum s r ps h = Some (true, <[p := bump callNum cd]> h).
Proof.
  induction ps as [|p ps IH]; intros h Hall Hex; [by inversion Hex|].
  apply Forall_cons in Hall as [[cd Hcd] Hall].
  simpl. unfold bind at 1, load. rewrite Hcd. fold (same_sig s r cd).
  destruct (same_sig s r cd) eqn:Hsig.
  - exists p, cd. split; [by left|]. split; [done|]. split; [done|].
    unfold bind, store. by rewrite bool_decide_eq_true_2 by by eapply lookup_lt_Some.
  - apply Exists_cons in Hex as [(cd' & Hcd' & Hsig')|Hex]; [congruence|].
    destruct (IH h Hall Hex) as (q & cq & Hq & Hhq & Hsq & Hrun).
    exists q, cq. split; [by right|]. done.
Qed.

Lemma addPattern_scan_no_alloc callNum s r ps : forall h b h',
  addPattern_scan callNum s r ps h = Some (b, h') -> length h' = length h.
Proof.
  induction ps as [|p ps IH]; intros h b h'; simpl.
  - by intros [= _ ->].
  - unfold bind at 1, load. destruct (h !! p) as [cd|]; [|done].
    destruct (_ && _).
    + unfold bind, store. case_bool_decide; [|done]. intros [= _ <-].
      by rewrite length_insert.
    + apply IH.
Qed.

End Frame.

(** C8.  When some bucket of the collection carries a pair structurally
    equal to the pair of the call, [addPattern] returns the collection as it
    was: [AllPatterns] (length and order) and the views [OneToN], [NToN],
    [NToOne] and [Empty] are the same lists of addresses.  The store differs
    at one address only, the address of a matching bucket, where the hit
    count went up by one and the call number was appended to the call list;
    no record is allocated and none is removed. *)
Theorem addPattern_match_changes_one_bucket (d : Data) (h : list CallData)
    (callNum : Z) (s r : IntMap) :
  Forall (fun p => is_Some (h !! p)) (AllPatterns d) ->
  Exists (fun p => exists cd, h !! p = Some cd /\ same_sig s r cd = true)
         (AllPatterns d) ->
  exists p cd,
    p ∈ AllPatterns d /\ h !! p = Some cd /\ same_sig s r cd = true
    /\ addPattern callNum s r d h
       = Some ((d, None),
               <[p := mkCallData (Send cd) (Recv cd) (GoInt.add (Count cd) 1)
                                 (Calls cd ++ [callNum])]> h).
Proof.
  intros Hall Hex.
  destruct (addPattern_scan_hit callNum s r _ h Hall Hex) as (p & cd & Hp & Hcd & Hsig & Hrun).
  exists p, cd. repeat (split; [done|]).
  unfold addPattern, addPattern_in_order, bind. by rewrite Hrun.
Qed.

Lemma addPattern_match_changes_one_bucket_witness :
  exists p cd,
    p ∈ [0; 1]%nat
    /\ [mkCallData Sample.two_by_two Sample.two_by_two 2 [0; 2];
        mkCallData Sample.mixed Sample.mixed 1 [1]] !! p = Some cd
    /\ same_sig Sample.mixed Sample.mixed cd = true
    /\ addPattern 3 Sample.mixed Sample.mixed (mkData [0; 1]%nat [] [0; 1]%nat [1]%nat [])
         [mkCallData Sample.two_by_two Sample.two_by_two 2 [0; 2];
          mkCallData Sample.mixed Sample.mixed 1 [1]]
       = Some ((mkData [0; 1]%nat [] [0; 1]%nat [1]%nat [], None),
               <[p := mkCallData (Send cd) (Recv cd) (GoInt.add (Count cd) 1)
                                 (Calls cd ++ [3])]>
                 [mkCallData Sample.two_by_two Sample.two_by_two 2 [0; 2];
                  mkCallData Sample.mixed Sample.mixed 1 [1]]).
Proof.
  apply (addPattern_match_changes_one_bucket
           (mkData [0; 1]%nat [] [0; 1]%nat [1]%nat [])).
  - repeat constructor; by eexists.
  - right. left. eexists. split; [reflexivity|]. by vm_compute.
Defined.

(** ** The topology classifier *)

Section Thresholds.

Lemma mul_100_small z : 0 <= z -> z * 100 <= GoInt.max_int -> GoInt.mul z 100 = z * 100.
Proof.
  intros H0 Hmax. apply wrap_in_range.
  unfold GoInt.in_range, GoInt.min_int, GoInt.max_int in *. lia.
Qed.

(** On an entry of non-negative counts whose hundredfold fits in an [int]
    the three tests of the loop body are the three comparisons on the
    integers, and at most one of them holds. *)
Lemma rules_on_counts sendTo n :
  0 <= sendTo -> 0 <= n ->
  sendTo * 100 <= GoInt.max_int -> n * 100 <= GoInt.max_int ->
  is_OneToN (sendTo, n) = bool_decide (sendTo > n * 100)
  /\ is_NToN (sendTo, n) = bool_decide (sendTo = n)
  /\ is_NToOne (sendTo, n) = bool_decide (sendTo * 100 < n).
Proof.
  intros Hs Hn Hs100 Hn100. unfold is_NToN, is_NToOne, is_OneToN. simpl.
  rewrite !mul_100_small by done.
  destruct (Z.ltb_spec (n * 100) sendTo), (Z.eqb_spec sendTo n),
    (Z.ltb_spec (sendTo * 100) n); simpl;
    repeat case_bool_decide; first [done | lia].
Qed.

End Thresholds.

(** C3.  The body of the classification loop, on an entry
    [(peerCount, numRanks)] of the send signature (two counts, hence not
    negative, and small enough for their hundredfold to fit in an [int]):
    the new bucket is appended to [OneToN] iff [peerCount > numRanks * 100],
    to [NToN] iff [peerCount = numRanks] and to [NToOne] iff
    [peerCount * 100 < numRanks], with these strict comparisons and this
    multiplier; a view whose rule does not hold is left as it was, so an
    entry that matches no rule is added to no view.  [AllPatterns] and
    [Empty] are not touched. *)
Theorem classifier_thresholds (new_cp : ptr) (d : Data) (peerCount numRanks : Z) :
  0 <= peerCount -> 0 <= numRanks ->
  peerCount * 100 <= GoInt.max_int -> numRanks * 100 <= GoInt.max_int ->
  let d' := addPattern_classify new_cp d (peerCount, numRanks) in
  OneToN d' = (if bool_decide (peerCount > numRanks * 100)
               then OneToN d ++ [new_cp] else OneToN d)
  /\ NToN d' = (if bool_decide (peerCount = numRanks)
                then NToN d ++ [new_cp] else NToN d)
  /\ NToOne d' = (if bool_decide (peerCount * 100 < numRanks)
                  then NToOne d ++ [new_cp] else NToOne d)
  /\ AllPatterns d' = AllPatterns d
  /\ Empty d' = Empty d.
Proof.
  intros Hs Hn Hs100 Hn100 d'.
  destruct (rules_on_counts peerCount numRanks Hs Hn Hs100 Hn100) as (H1 & H2 & H3).
  subst d'. rewrite <- H1, <- H2, <- H3.
  pose proof (classify_fold new_cp [(peerCount, numRanks)] d) as Hfold.
  simpl in Hfold. rewrite Hfold. rewrite !hits_cons. unfold hits. simpl.
  destruct (is_OneToN (peerCount, numRanks)), (is_NToN (peerCount, numRanks)),
    (is_NToOne (peerCount, numRanks)); simpl; by rewrite ?app_nil_r.
Qed.

Lemma classifier_thresholds_witness :
  let d' := addPattern_classify 0%nat zero_Data (101, 1) in
  OneToN d' = (if bool_decide (101 > 1 * 100) then OneToN zero_Data ++ [0%nat]
               else OneToN zero_Data)
  /\ NToN d' = (if bool_decide (101 = 1) then NToN zero_Data ++ [0%nat]
                else NToN zero_Data)
  /\ NToOne d' = (if bool_decide (101 * 100 < 1) then NToOne zero_Data ++ [0%nat]
                  else NToOne zero_Data)
  /\ AllPatterns d' = AllPatterns zero_Data
  /\ Empty d' = Empty zero_Data.
Proof.
  apply (classifier_thresholds 0%nat zero_Data 101 1); by vm_compute.
Defined.

(** The entries used by the specification to pin the thresholds. *)
Example classify_101_1 :
  addPattern_classify 7%nat zero_Data (101, 1) = mkData [] [7%nat] [] [] [].
Proof. reflexivity. Qed.

Example classify_100_1 :
  addPattern_classify 7%nat zero_Data (100, 1) = zero_Data.
Proof. reflexivity. Qed.

Example classify_4_4 :
  addPattern_classify 7%nat zero_Data (4, 4) = mkData [] [] [7%nat] [] [].
Proof. reflexivity. Qed.

Example classify_4_5 :
  addPattern_classify 7%nat zero_Data (4, 5) = zero_Data.
Proof. reflexivity. Qed.

Example classify_1_101 :
  addPattern_classify 7%nat zero_Data (1, 101) = mkData [] [] [] [7%nat] [].
Proof. reflexivity. Qed.

Example classify_1_100 :
  addPattern_classify 7%nat zero_Data (1, 100) = zero_Data.
Proof. reflexivity. Qed.

(** ** References from the topology views to a bucket *)

Section Views.

Lemma refs_app p l l' : refs p (l ++ l') = (refs p l + refs p l')%nat.
Proof. unfold refs. by rewrite List.filter_app, length_app. Qed.

Lemma refs_replicate_eq p k : refs p (replicate k p) = k.
Proof.
  unfold refs. induction k as [|k IH]; simpl; [done|].
  rewrite bool_decide_eq_true_2 by done. simpl. by rewrite IH.
Qed.

Lemma refs_replicate_ne p q k : q <> p -> refs p (replicate k q) = 0%nat.
Proof.
  intros Hne. unfold refs. induction k as [|k IH]; simpl; [done|].
  by rewrite bool_decide_eq_false_2 by done.
Qed.

Lemma refs_zero p l : p ∉ l -> refs p l = 0%nat.
Proof.
  unfold refs. induction l as [|q l IH]; simpl; [done|].
  intros [Hne Hnotin]%not_elem_of_cons.
  rewrite bool_decide_eq_false_2 by done. by apply IH.
Qed.

Lemma refs_pos p l : p ∈ l -> (0 < refs p l)%nat.
Proof.
  unfold refs. induction 1 as [|q l Hin IH]; simpl.
  - rewrite bool_decide_eq_true_2 by done. simpl. lia.
  - case_bool_decide; simpl; lia.
Qed.

(** The scan never changes the signature pair of a record. *)
Lemma addPattern_scan_keeps_sig callNum s r ps : forall h b h',
  addPattern_scan callNum s r ps h = Some (b, h') ->
  forall q cd, h !! q = Some cd ->
  exists cd', h' !! q = Some cd' /\ Send cd' = Send cd /\ Recv cd' = Recv cd.
Proof.
  induction ps as [|p ps IH]; intros h b h'; simpl.
  - intros [= _ <-] q cd Hq. by exists cd.
  - unfold bind at 1, load. destruct (h !! p) as [cp|] eqn:Hp; [|done].
    destruct (_ && _).
    + unfold bind, store. case_bool_decide; [|done]. intros [= _ <-] q cd Hq.
      destruct (decide (q = p)) as [->|Hne].
      * rewrite list_lookup_insert_eq by done. eexists. split; [done|].
        assert (cp = cd) as -> by congruence. done.
      * rewrite list_lookup_insert_ne by done. by exists cd.
    + apply IH.
Qed.

Lemma views_mirror_step callNum s r d h bs :
  NoDup (AllPatterns d) -> buckets_at h (AllPatterns d) bs -> views_mirror d h ->
  exists d' h',
    addPattern callNum s r d h = Some ((d', None), h')
    /\ NoDup (AllPatterns d')
    /\ buckets_at h' (AllPatterns d') (addOrMerge callNum s r bs)
    /\ views_mirror d' h'.
Proof.
  intros Hnd Hrep Hinv.
  destruct (addPattern_spec callNum s r d h bs Hnd Hrep)
    as (d' & h' & Hrun & Hnd' & Hrep' & _ & _ & Hres).
  exists d', h'. repeat (split; [done|]).
  destruct (existsb (same_sig s r) bs).
  - destruct Hres as [-> _]. intros p. split; [|apply Hinv].
    intros Hp. destruct (proj1 (Hinv p) Hp) as (cd & Hcd & H1 & H2 & H3).
    unfold addPattern, addPattern_in_order, bind in Hrun.
    destruct (addPattern_scan callNum s r (AllPatterns d) h) as [[b h1]|] eqn:Hscan; [|done].
    assert (h1 = h') as ->.
    { destruct b; unfold ret, new in Hrun; [congruence|].
      injection Hrun as Hd Hh. exfalso.
      apply (f_equal AllPatterns) in Hd. rewrite classify_fold in Hd. simpl in Hd.
      apply (f_equal length) in Hd. rewrite length_app in Hd. simpl in Hd. lia. }
    destruct (addPattern_scan_keeps_sig _ _ _ _ _ _ _ Hscan p cd Hcd) as (cd' & Hcd' & Hs & _).
    exists cd'. rewrite Hs. done.
  - destruct Hres as [-> ->]. unfold views_mirror. simpl. intros p. split.
    + intros [Hp| ->%list_elem_of_singleton]%elem_of_app.
      * destruct (proj1 (Hinv p) Hp) as (cd & Hcd & H1 & H2 & H3).
        pose proof (lookup_lt_Some _ _ _ Hcd) as Hlt.
        exists cd. rewrite lookup_app_l by done. split; [done|].
        rewrite !refs_app, !refs_replicate_ne by lia. lia.
      * assert (length h ∉ AllPatterns d) as Hfresh.
        { intros Hin. pose proof (buckets_at_valid _ _ _ _ Hrep Hin). lia. }
        destruct (proj2 (Hinv _) Hfresh) as (H1 & H2 & H3).
        eexists. rewrite lookup_app_r, Nat.sub_diag by done. split; [done|]. simpl.
        rewrite !refs_app, !refs_replicate_eq. lia.
    + intros Hnotin. apply not_elem_of_app in Hnotin as [Hnotin Hne].
      apply not_elem_of_cons in Hne as [Hne _].
      destruct (proj2 (Hinv p) Hnotin) as (H1 & H2 & H3).
      rewrite !refs_app, !refs_replicate_ne by done. lia.
Qed.

Lemma views_mirror_all calls : forall d h bs,
  NoDup (AllPatterns d) -> buckets_at h (AllPatterns d) bs -> views_mirror d h ->
  exists d' h', addPatterns calls d h = Some (d', h') /\ views_mirror d' h'.
Proof.
  induction calls as [|[[n s] r] calls IH]; intros d h bs Hnd Hrep Hinv.
  - by exists d, h.
  - destruct (views_mirror_step n s r d h bs Hnd Hrep Hinv)
      as (d1 & h1 & Hrun & Hnd1 & Hrep1 & Hinv1).
    destruct (IH d1 h1 _ Hnd1 Hrep1 Hinv1) as (d2 & h2 & Hrun2 & Hinv2).
    exists d2, h2. simpl. unfold bind. rewrite Hrun. done.
Qed.

Lemma hits_range_le f (m : IntMap) : (Z.of_nat (hits f (range_map m)) <= len_map m)%Z.
Proof.
  pose proof (hits_le f (range_map m)) as Hle.
  destruct m as [g|]; simpl in *; [|lia]. rewrite length_map_to_list in Hle. lia.
Qed.

End Views.

(** C4, as stated: every bucket of a collection built by successive calls of
    [addPattern] is referenced at most once by the three topology views
    taken together.  The sample calls refute it: the bucket of the second
    call (200 ranks with one peer, two ranks with two peers) is referenced by
    [NToN] and by [NToOne]. *)
Lemma bucket_in_at_most_one_view_counterexample :
  ~ (forall calls d h,
       addPatterns calls zero_Data [] = Some (d, h) ->
       forall p, p ∈ AllPatterns d -> (topology_refs d p <= 1)%nat).
Proof.
  intros Hstated.
  specialize (Hstated Sample.calls _ _ addPatterns_sample 1%nat).
  assert (1%nat ∈ [0; 1]%nat) as Hin by (right; left).
  specialize (Hstated Hin). vm_compute in Hstated. lia.
Qed.

(** C4, amended.  In every collection built by successive calls of
    [addPattern] from the zero collection, the references of the views to a
    bucket mirror the entries of its send signature: [OneToN], [NToN] and
    [NToOne] hold one reference to the bucket per entry picked up by their
    rule, every entry is picked up by at most one rule, so the three views
    together reference the bucket at most as many times as its send
    signature has entries; a bucket whose send signature has at most one
    entry is referenced by at most one view, at most once. *)
Theorem views_reference_once_per_entry (h0 : list CallData)
    (calls : list (Z * IntMap * IntMap)) (d : Data) (h : list CallData)
    (p : ptr) (cd : CallData) :
  addPatterns calls zero_Data h0 = Some (d, h) ->
  p ∈ AllPatterns d -> h !! p = Some cd ->
  refs p (OneToN d) = hits is_OneToN (range_map (Send cd))
  /\ refs p (NToN d) = hits is_NToN (range_map (Send cd))
  /\ refs p (NToOne d) = hits is_NToOne (range_map (Send cd))
  /\ Z.of_nat (topology_refs d p) <= len_map (Send cd)
  /\ (len_map (Send cd) <= 1 -> (topology_refs d p <= 1)%nat).
Proof.
  intros Hrun Hp Hcd.
  destruct (views_mirror_all calls zero_Data h0 []) as (d' & h' & Hrun' & Hinv).
  { constructor. }
  { constructor. }
  { intros q. split; [by intros ?%elem_of_nil|by intros _]. }
  rewrite Hrun in Hrun'. injection Hrun' as <- <-.
  destruct (proj1 (Hinv p) Hp) as (cd' & Hcd' & H1 & H2 & H3).
  assert (cd' = cd) as -> by congruence.
  assert (Z.of_nat (topology_refs d p) <= len_map (Send cd)) as Hle.
  { unfold topology_refs. rewrite H1, H2, H3.
    pose proof (hits_disjoint_le (range_map (Send cd))) as Hd.
    destruct (Send cd) as [g|]; simpl in *; [|lia].
    rewrite length_map_to_list in Hd. lia. }
  repeat (split; [done|]). lia.
Qed.

Lemma views_reference_once_per_entry_witness :
  refs 1%nat [] = hits is_OneToN (range_map Sample.mixed)
  /\ refs 1%nat [0; 1]%nat = hits is_NToN (range_map Sample.mixed)
  /\ refs 1%nat [1]%nat = hits is_NToOne (range_map Sample.mixed)
  /\ Z.of_nat (topology_refs (mkData [0; 1]%nat [] [0; 1]%nat [1]%nat []) 1%nat)
     <= len_map Sample.mixed
  /\ (len_map Sample.mixed <= 1 ->
      (topology_refs (mkData [0; 1]%nat [] [0; 1]%nat [1]%nat []) 1%nat <= 1)%nat).
Proof.
  apply (views_reference_once_per_entry [] Sample.calls
           (mkData [0; 1]%nat [] [0; 1]%nat [1]%nat [])
           [mkCallData Sample.two_by_two Sample.two_by_two 2 [0; 2];
            mkCallData Sample.mixed Sample.mixed 1 [1]]
           1%nat (mkCallData Sample.mixed Sample.mixed 1 [1])).
  - by vm_compute.
  - right. left.
  - reflexivity.
Defined.

(** ** The classification pass of a group *)

Section Pass.

Variable counts_NewSendRecvStats : Z -> SendRecvStats.
Variable counts_ParseFiles :
  string -> string -> Z -> Z -> nat -> SendRecvStats * option error.
Variables (sendCountsFile recvCountsFile : string) (numCalls sizeThreshold : Z).

Local Abbreviation ok := (parse_ok counts_ParseFiles sendCountsFile recvCountsFile
                        numCalls sizeThreshold).
Local Abbreviation fed := (fed_calls counts_ParseFiles sendCountsFile recvCountsFile
                         numCalls sizeThreshold).
Local Abbreviation barriers := (barrier_calls counts_ParseFiles sendCountsFile
                              recvCountsFile numCalls sizeThreshold).
Local Abbreviation loop := (ParseFiles_loop counts_ParseFiles sendCountsFile
                          recvCountsFile numCalls sizeThreshold).

Lemma empties_at_frame h h' ps es :
  empties_at h ps es -> (forall q, q ∈ ps -> h' !! q = h !! q) -> empties_at h' ps es.
Proof.
  intros Hrep Hfr. unfold empties_at in *.
  induction Hrep as [|p b ps bs Hp Hrep IH]; constructor.
  - rewrite Hfr; [done|]. by left.
  - apply IH. intros q Hq. apply Hfr. by right.
Qed.

Lemma empties_at_valid h ps es p : empties_at h ps es -> p ∈ ps -> (p < length h)%nat.
Proof.
  intros Hrep Hin. apply list_elem_of_lookup in Hin as [i Hi].
  destruct (Forall2_lookup_l _ _ _ _ _ Hrep Hi) as (b & _ & Hb).
  by apply lookup_lt_Some in Hb.
Qed.

(** The loop of [ParseFiles] when [counts.ParseFiles] succeeds for every
    call still to process: it ends with a nil error, the buckets are the
    buckets after feeding these calls, and [Empty] has gained one fresh
    record per barrier-like call. *)
Lemma ParseFiles_loop_spec todo : forall d st h bs es,
  Forall ok todo ->
  NoDup (AllPatterns d ++ Empty d) ->
  buckets_at h (AllPatterns d) bs ->
  empties_at h (Empty d) es ->
  exists st' d' h',
    loop todo d st h = Some ((st', d', None), h')
    /\ NoDup (AllPatterns d' ++ Empty d')
    /\ buckets_at h' (AllPatterns d') (addOrMerge_all (fed todo) bs)
    /\ empties_at h' (Empty d') (es ++ barriers todo)
    /\ (length h <= length h')%nat
    /\ (forall p, p ∈ Empty d' -> p ∈ Empty d \/ (length h <= p)%nat).
Proof.
  induction todo as [|i todo IH]; intros d st h bs es Hok Hnd Hrep Hemp.
  - exists st, d, h. simpl. rewrite app_nil_r. repeat (split; [done|]).
    intros p Hp. by left.
  - apply Forall_cons in Hok as [Hi Hok].
    unfold parse_ok in Hi. cbn [ParseFiles_loop].
    destruct (counts_ParseFiles sendCountsFile recvCountsFile numCalls sizeThreshold
                (Z.to_nat i)) as [cp err] eqn:Hcp.
    simpl in Hi. subst err.
    apply NoDup_app in Hnd as (HndA & Hdisj & HndE).
    destruct (addPattern_spec i (SendPatterns cp) (RecvPatterns cp) d h bs HndA Hrep)
      as (d1 & h1 & Hrun & Hnd1 & Hrep1 & Hfr & HE1 & Hres).
    assert (length h <= length h1)%nat as Hlen1.
    { destruct (existsb _ bs); [lia|]. destruct Hres as [-> _].
      rewrite length_app. simpl. lia. }
    assert (forall p, p ∈ AllPatterns d1 -> p ∈ AllPatterns d \/ p = length h) as HA1.
    { intros p Hp. destruct (existsb _ bs).
      - destruct Hres as [-> _]. by left.
      - destruct Hres as [_ ->]. simpl in Hp.
        apply elem_of_app in Hp as [?|?%list_elem_of_singleton]; auto. }
    assert (empties_at h1 (Empty d1) es) as Hemp1.
    { rewrite HE1. eapply empties_at_frame; [exact Hemp|].
      intros q Hq. apply Hfr.
      - intros Hin. by apply (Hdisj q).
      - by eapply empties_at_valid. }
    assert (NoDup (AllPatterns d1 ++ Empty d1)) as Hnd1'.
    { apply NoDup_app. split; [done|]. split; [|by rewrite HE1].
      intros p Hp HpE. rewrite HE1 in HpE.
      destruct (HA1 p Hp) as [Hin| ->]; [by apply (Hdisj p)|].
      pose proof (empties_at_valid _ _ _ _ Hemp HpE). lia. }
    unfold bind at 1. rewrite Hrun.
    assert (fed (i :: todo) = (i, SendPatterns cp, RecvPatterns cp) :: fed todo) as ->.
    { unfold fed_calls, counts_of. rewrite fmap_cons. by rewrite Hcp. }
    assert (barriers (i :: todo)
            = (if (TotalSendNonZeroCounts cp =? 0) && (TotalRecvNonZeroCounts cp =? 0)
               then [i] else []) ++ barriers todo) as ->.
    { unfold barrier_calls, is_barrier, counts_of. simpl. rewrite Hcp. simpl.
      by destruct (_ && _). }
    destruct ((TotalSendNonZeroCounts cp =? 0) && (TotalRecvNonZeroCounts cp =? 0)).
    + unfold bind at 1. unfold bind at 1. unfold new, ret.
      match goal with |- context [loop todo ?d2 ?st2 ?h2] =>
        destruct (IH d2 st2 h2 (addOrMerge i (SendPatterns cp) (RecvPatterns cp) bs)
                    (es ++ [i]) Hok) as (st' & d' & h' & Hloop & Hnd' & Hrep' & Hemp' & Hlen' & Hfresh)
      end.
      * simpl. rewrite app_assoc. apply NoDup_app. split; [done|].
        split; [|apply NoDup_singleton].
        intros p Hp ->%list_elem_of_singleton.
        apply elem_of_app in Hp as [Hp|Hp].
        -- pose proof (buckets_at_valid _ _ _ _ Hrep1 Hp). lia.
        -- pose proof (empties_at_valid _ _ _ _ Hemp1 Hp). lia.
      * simpl. by apply buckets_at_alloc.
      * simpl. apply Forall2_app.
        -- eapply empties_at_frame; [exact Hemp1|].
           intros q Hq. apply lookup_app_l. by eapply empties_at_valid.
        -- constructor; [|constructor]. by rewrite lookup_app_r, Nat.sub_diag.
      * exists st', d', h'. split; [exact Hloop|]. split; [done|]. split; [done|].
        split; [by rewrite <- app_assoc in Hemp'|].
        rewrite length_app in Hlen'. simpl in Hlen'. split; [lia|].
        intros p Hp. destruct (Hfresh p Hp) as [Hin|Hge].
        -- simpl in Hin. apply elem_of_app in Hin as [Hin| ->%list_elem_of_singleton].
           ++ left. by rewrite <- HE1.
           ++ right. lia.
        -- right. rewrite length_app in Hge. simpl in Hge. lia.
    + unfold bind at 1. unfold ret at 1.
      match goal with |- context [loop todo d1 ?st2 h1] =>
        destruct (IH d1 st2 h1 (addOrMerge i (SendPatterns cp) (RecvPatterns cp) bs)
                    es Hok Hnd1' Hrep1 Hemp1)
          as (st' & d' & h' & Hloop & Hnd' & Hrep' & Hemp' & Hlen' & Hfresh)
      end.
      exists st', d', h'. split; [exact Hloop|]. repeat (split; [done|]).
      split; [lia|]. intros p Hp. destruct (Hfresh p Hp) as [Hin|Hge].
      * left. by rewrite <- HE1.
      * right. lia.
Qed.

End Pass.

Section Accounting.

Lemma total_count_step callNum s r bs :
  Forall (fun b => 0 <= Count b < GoInt.max_int) bs ->
  total_count (addOrMerge callNum s r bs) = total_count bs + 1.
Proof.
  induction bs as [|b bs IH]; intros Hall; simpl; [done|].
  apply Forall_cons in Hall as [Hb Hall].
  destruct (same_sig s r b); simpl.
  - rewrite add_one_small by done. lia.
  - rewrite IH by done. lia.
Qed.

Lemma calls_step callNum s r bs :
  concat (Calls <$> addOrMerge callNum s r bs) ≡ₚ callNum :: concat (Calls <$> bs).
Proof.
  induction bs as [|b bs IH]; simpl; [done|].
  destruct (same_sig s r b); simpl.
  - rewrite <- app_assoc. simpl. by rewrite <- Permutation_middle.
  - rewrite IH. by rewrite <- Permutation_middle.
Qed.

Lemma records_counts_small calls bs :
  Z.of_nat (length calls) < GoInt.max_int -> records calls bs ->
  Forall (fun b => 0 <= Count b < GoInt.max_int) bs.
Proof.
  intros Hbound (_ & Hall & _). eapply Forall_impl; [exact Hall|].
  intros b (Hcalls & Hcount & _). simpl.
  pose proof (calls_with_length (Send b) (Recv b) calls) as Hle.
  rewrite <- Hcalls in Hle. lia.
Qed.

Lemma total_count_all calls :
  Z.of_nat (length calls) <= GoInt.max_int ->
  total_count (addOrMerge_all calls []) = Z.of_nat (length calls).
Proof.
  induction calls as [|[[n s] r] calls IH] using rev_ind; intros Hbound; [done|].
  rewrite addOrMerge_all_snoc, length_app in *. simpl in *.
  rewrite total_count_step.
  - rewrite IH; lia.
  - eapply records_counts_small; [|apply records_all]; lia.
Qed.

Lemma calls_all calls :
  concat (Calls <$> addOrMerge_all calls []) ≡ₚ (fun c => c.1.1) <$> calls.
Proof.
  induction calls as [|[[n s] r] calls IH] using rev_ind; [done|].
  rewrite addOrMerge_all_snoc, calls_step, IH, fmap_app. simpl.
  by rewrite Permutation_app_comm.
Qed.

Lemma elem_of_concat {A} (x : A) (ls : list (list A)) :
  x ∈ concat ls <-> exists l, x ∈ l /\ l ∈ ls.
Proof.
  induction ls as [|l0 ls IH]; simpl.
  - split; [by intros ?%elem_of_nil|]. by intros (l & _ & ?%elem_of_nil).
  - rewrite elem_of_app, IH. split.
    + intros [Hx|(l & Hx & Hl)]; [exists l0|exists l]; split; try done; by constructor.
    + intros (l & Hx & [->|Hl]%elem_of_cons); [by left|right; by exists l].
Qed.

(** In a family of lists whose concatenation has no duplicate, an element
    belongs to one list only. *)
Lemma concat_NoDup_unique {A} (ls : list (list A)) x : forall k k' l l',
  NoDup (concat ls) ->
  ls !! k = Some l -> ls !! k' = Some l' -> x ∈ l -> x ∈ l' -> k = k'.
Proof.
  induction ls as [|l0 ls IH]; intros k k' l l' Hnd Hk Hk' Hx Hx'; [done|].
  simpl in Hnd. apply NoDup_app in Hnd as (_ & Hdisj & Hnd).
  assert (forall j lj, ls !! j = Some lj -> x ∈ lj -> x ∈ concat ls) as Hin.
  { intros j lj Hj Hxj. apply elem_of_concat. exists lj. split; [done|].
    by eapply list_elem_of_lookup_2. }
  destruct k as [|k], k' as [|k']; simpl in *.
  - done.
  - injection Hk as ->. exfalso. eapply Hdisj; [exact Hx|]. by eapply Hin.
  - injection Hk' as ->. exfalso. eapply Hdisj; [exact Hx'|]. by eapply Hin.
  - f_equal. by eapply IH.
Qed.

Lemma fed_calls_numbers cp sf rf n t todo :
  (fun c : Z * IntMap * IntMap => c.1.1) <$> fed_calls cp sf rf n t todo = todo.
Proof.
  unfold fed_calls. rewrite <- list_fmap_compose. simpl.
  induction todo as [|i todo IH]; [done|]. rewrite fmap_cons. simpl. by rewrite IH.
Qed.

End Accounting.

(** C2.  A classification pass over [numCalls] calls (a non-negative [int])
    in which [counts.ParseFiles] succeeds for every call ends with a nil
    error; afterwards the hit counts of the buckets of [AllPatterns] add up
    to [numCalls], the call lists of the buckets together hold each of the
    call indices [0 .. numCalls-1] once, and every call index is in the call
    list of exactly one bucket. *)
Theorem ParseFiles_accounts_for_every_call
    (counts_NewSendRecvStats : Z -> SendRecvStats)
    (counts_ParseFiles : string -> string -> Z -> Z -> nat -> SendRecvStats * option error)
    (sendCountsFile recvCountsFile : string) (numCalls sizeThreshold : Z)
    (h0 : list CallData) :
  0 <= numCalls <= GoInt.max_int ->
  (forall i, 0 <= i < numCalls ->
     parse_ok counts_ParseFiles sendCountsFile recvCountsFile numCalls sizeThreshold i) ->
  exists st d h bs,
    ParseFiles counts_NewSendRecvStats counts_ParseFiles sendCountsFile recvCountsFile
      numCalls sizeThreshold h0 = Some ((st, d, None), h)
    /\ NoDup (AllPatterns d)
    /\ buckets_at h (AllPatterns d) bs
    /\ total_count bs = numCalls
    /\ concat (Calls <$> bs) ≡ₚ seqZ 0 numCalls
    /\ forall i, 0 <= i < numCalls ->
         exists k b,
           bs !! k = Some b /\ i ∈ Calls b
           /\ forall k' b', bs !! k' = Some b' -> i ∈ Calls b' -> k' = k.
Proof.
  intros Hn Hok.
  destruct (ParseFiles_loop_spec counts_ParseFiles sendCountsFile recvCountsFile numCalls
              sizeThreshold (seqZ 0 numCalls) zero_Data
              (counts_NewSendRecvStats sizeThreshold) h0 [] [])
    as (st & d & h & Hrun & Hnd & Hrep & _).
  { apply Forall_forall. intros i Hi. apply Hok. apply elem_of_seqZ in Hi. lia. }
  { constructor. }
  { constructor. }
  { constructor. }
  set (calls := fed_calls counts_ParseFiles sendCountsFile recvCountsFile numCalls
                  sizeThreshold (seqZ 0 numCalls)) in *.
  assert (length calls = Z.to_nat numCalls) as Hlen.
  { unfold calls, fed_calls. by rewrite length_fmap, length_seqZ. }
  assert (concat (Calls <$> addOrMerge_all calls []) ≡ₚ seqZ 0 numCalls) as Hperm.
  { rewrite calls_all. unfold calls. by rewrite fed_calls_numbers. }
  exists st, d, h, (addOrMerge_all calls []).
  split; [exact Hrun|]. split; [by apply NoDup_app in Hnd as (? & _)|].
  split; [done|]. split; [rewrite total_count_all; lia|]. split; [done|].
  intros i Hi.
  assert (i ∈ concat (Calls <$> addOrMerge_all calls [])) as Hin.
  { rewrite Hperm. apply elem_of_seqZ. lia. }
  apply elem_of_concat in Hin as (l & Hil & Hl).
  apply list_elem_of_lookup in Hl as [k Hk].
  rewrite list_lookup_fmap in Hk.
  destruct (addOrMerge_all calls [] !! k) as [b|] eqn:Hb; [|done].
  injection Hk as <-. exists k, b. split; [done|]. split; [done|].
  intros k' b' Hb' Hi'.
  eapply (concat_NoDup_unique (Calls <$> addOrMerge_all calls []) i k' k).
  - rewrite Hperm. apply NoDup_seqZ.
  - by rewrite list_lookup_fmap, Hb'.
  - by rewrite list_lookup_fmap, Hb.
  - done.
  - done.
Qed.

Lemma ParseFiles_accounts_for_every_call_witness :
  exists st d h bs,
    ParseFiles SamplePass.counts_NewSendRecvStats SamplePass.counts_ParseFiles
      "send.txt" "recv.txt" 3 200 [] = Some ((st, d, None), h)
    /\ NoDup (AllPatterns d)
    /\ buckets_at h (AllPatterns d) bs
    /\ total_count bs = 3
    /\ concat (Calls <$> bs) ≡ₚ seqZ 0 3
    /\ forall i, 0 <= i < 3 ->
         exists k b,
           bs !! k = Some b /\ i ∈ Calls b
           /\ forall k' b', bs !! k' = Some b' -> i ∈ Calls b' -> k' = k.
Proof.
  apply (ParseFiles_accounts_for_every_call SamplePass.counts_NewSendRecvStats
           SamplePass.counts_ParseFiles "send.txt" "recv.txt" 3 200 []).
  - split; by vm_compute.
  - intros i _. unfold parse_ok, SamplePass.counts_ParseFiles.
    by destruct (Nat.even (Z.to_nat i)).
Defined.

(** The sample pass: calls 0 and 2 exchange no data; they share one bucket of
    [AllPatterns] and each has a record of its own in [Empty]. *)
Example ParseFiles_sample :
  ParseFiles SamplePass.counts_NewSendRecvStats SamplePass.counts_ParseFiles
    "send.txt" "recv.txt" 3 200 []
  = Some ((mkSendRecvStats None None 0 0 3 [],
           mkData [0; 2]%nat [] [2]%nat [2]%nat [1; 3]%nat, None),
          [mkCallData (Some ∅) (Some ∅) 2 [0; 2];
           mkCallData None None 1 [0];
           mkCallData Sample.mixed Sample.mixed 1 [1];
           mkCallData None None 1 [2]]).
Proof. by vm_compute. Qed.

(** C10.  After a classification pass in which [counts.ParseFiles] succeeds
    for every call, [Empty] holds, in call order, one address per call whose
    send and receive counts are all zero.  Each address points to a record
    allocated during the pass, with no signature, hit count 1 and that call's
    index as its only call; the addresses are distinct and none of them is a
    bucket of [AllPatterns].  So the length of [Empty] is the number of
    barrier-like calls, and the line of the consolidated summary for the
    group prints that number. *)
Theorem ParseFiles_Empty_one_record_per_barrier_call
    (counts_NewSendRecvStats : Z -> SendRecvStats)
    (counts_ParseFiles : string -> string -> Z -> Z -> nat -> SendRecvStats * option error)
    (sendCountsFile recvCountsFile : string) (numCalls sizeThreshold : Z)
    (h0 : list CallData) :
  (forall i, 0 <= i < numCalls ->
     parse_ok counts_ParseFiles sendCountsFile recvCountsFile numCalls sizeThreshold i) ->
  let barriers :=
    barrier_calls counts_ParseFiles sendCountsFile recvCountsFile numCalls sizeThreshold
      (seqZ 0 numCalls) in
  exists st d h,
    ParseFiles counts_NewSendRecvStats counts_ParseFiles sendCountsFile recvCountsFile
      numCalls sizeThreshold h0 = Some ((st, d, None), h)
    /\ empties_at h (Empty d) barriers
    /\ length (Empty d) = length barriers
    /\ NoDup (Empty d)
    /\ (forall p, p ∈ Empty d -> (p ∉ AllPatterns d) /\ (length h0 <= p)%nat)
    /\ (forall rank stats,
          empty_line rank d stats
          = ("-> Sub-communicator led by rank " +:+ GoInt.fmt_d rank +:+ ": "
             +:+ GoInt.fmt_d (Z.of_nat (length barriers)) +:+ "/"
             +:+ GoInt.fmt_d (TotalNumCalls stats) +:+ " alltoallv calls" +:+ nl)).
Proof.
  intros Hok barriers.
  destruct (ParseFiles_loop_spec counts_ParseFiles sendCountsFile recvCountsFile numCalls
              sizeThreshold (seqZ 0 numCalls) zero_Data
              (counts_NewSendRecvStats sizeThreshold) h0 [] [])
    as (st & d & h & Hrun & Hnd & Hrep & Hemp & _ & Hfresh).
  { apply Forall_forall. intros i Hi. apply Hok. apply elem_of_seqZ in Hi. lia. }
  { constructor. }
  { constructor. }
  { constructor. }
  simpl in Hemp. fold barriers in Hemp.
  apply NoDup_app in Hnd as (_ & Hdisj & HndE).
  assert (length (Empty d) = length barriers) as Hlen by by eapply Forall2_length.
  exists st, d, h. split; [exact Hrun|]. repeat (split; [done|]). split.
  - intros p Hp. split; [intros Hin; by apply (Hdisj p)|].
    destruct (Hfresh p Hp) as [Hin|Hge]; [|done]. by apply elem_of_nil in Hin.
  - intros rank stats. unfold empty_line. by rewrite Hlen.
Qed.

Lemma ParseFiles_Empty_one_record_per_barrier_call_witness :
  let barriers :=
    barrier_calls SamplePass.counts_ParseFiles "send.txt" "recv.txt" 3 200 (seqZ 0 3) in
  exists st d h,
    ParseFiles SamplePass.counts_NewSendRecvStats SamplePass.counts_ParseFiles
      "send.txt" "recv.txt" 3 200 [] = Some ((st, d, None), h)
    /\ empties_at h (Empty d) barriers
    /\ length (Empty d) = length barriers
    /\ NoDup (Empty d)
    /\ (forall p, p ∈ Empty d -> (p ∉ AllPatterns d) /\ (length (@nil CallData) <= p)%nat)
    /\ (forall rank stats,
          empty_line rank d stats
          = ("-> Sub-communicator led by rank " +:+ GoInt.fmt_d rank +:+ ": "
             +:+ GoInt.fmt_d (Z.of_nat (length barriers)) +:+ "/"
             +:+ GoInt.fmt_d (TotalNumCalls stats) +:+ " alltoallv calls" +:+ nl)).
Proof.
  apply (ParseFiles_Empty_one_record_per_barrier_call SamplePass.counts_NewSendRecvStats
           SamplePass.counts_ParseFiles "send.txt" "recv.txt" 3 200 []).
  intros i _. unfold parse_ok, SamplePass.counts_ParseFiles.
  by destruct (Nat.even (Z.to_nat i)).
Defined.

(** ** The structural check [Same] *)

(** The sample groups are what [addPattern] builds from one call each. *)
Example sample_groups_built :
  addPattern 0 SampleGroups.three_peers SampleGroups.three_peers zero_Data []
  = Some ((SampleGroups.group_a, None), [mkCallData SampleGroups.three_peers
                                           SampleGroups.three_peers 1 [0]])
  /\ addPattern 0 SampleGroups.five_peers SampleGroups.five_peers zero_Data
       [mkCallData SampleGroups.three_peers SampleGroups.three_peers 1 [0]]
     = Some ((SampleGroups.group_b, None), SampleGroups.store).
Proof. split; by vm_compute. Qed.

(** [patternIsInList] never looks at the peer count it is given. *)
Lemma patternIsInList_ignores_numPeers h numPeers numPeers' numRanks ctx patterns :
  patternIsInList h numPeers numRanks ctx patterns
  = patternIsInList h numPeers' numRanks ctx patterns.
Proof.
  induction patterns as [|p patterns IH]; simpl; [done|].
  destruct (h !! p) as [cd|]; simpl; [|done]. by rewrite IH.
Qed.

(** C5 at the failing input.  The reference group has one bucket whose send
    and receive signatures are [{3: 4}] and the target group has one bucket
    whose signatures are [{5: 4}]: no bucket of the target has an entry with
    peer count 3 and rank count 4, and yet [Same] returns [true]. *)
Theorem Same_accepts_different_peer_counts :
  Same SampleGroups.store SampleGroups.group_a SampleGroups.group_b = Some true
  /\ Forall (fun p =>
       exists cd, SampleGroups.store !! p = Some cd
         /\ existsb (fun e => (e.1 =? 3) && (e.2 =? 4)) (range_map (Send cd)) = false
         /\ existsb (fun e => (e.1 =? 3) && (e.2 =? 4)) (range_map (Recv cd)) = false)
       (AllPatterns SampleGroups.group_b).
Proof.
  split; [by vm_compute|].
  constructor; [|constructor]. eexists. split; [reflexivity|]. split; by vm_compute.
Qed.

(** ** The first loop of the aggregator *)

Section Heterogeneous.

Lemma patternIsInList_total h numPeers numRanks ctx patterns :
  Forall (fun p => is_Some (h !! p)) patterns ->
  is_Some (patternIsInList h numPeers numRanks ctx patterns).
Proof.
  induction 1 as [|p patterns [cd Hcd] _ IH]; simpl; [done|].
  rewrite Hcd. simpl. by destruct (existsb _ _).
Qed.

Lemma sameListOfPatterns_entries_total h ctx patterns2 entries :
  Forall (fun p => is_Some (h !! p)) patterns2 ->
  is_Some (sameListOfPatterns_entries h ctx patterns2 entries).
Proof.
  intros Hv. induction entries as [|e entries IH]; simpl; [done|].
  destruct (patternIsInList_total h e.1 e.2 ctx patterns2 Hv) as [count ->]. simpl.
  by destruct (count =? 0).
Qed.

Lemma sameListOfPatterns_pass_total h ctx patterns1 patterns2 :
  Forall (fun p => is_Some (h !! p)) patterns1 ->
  Forall (fun p => is_Some (h !! p)) patterns2 ->
  is_Some (sameListOfPatterns_pass h ctx patterns1 patterns2).
Proof.
  intros Hv1 Hv2. induction Hv1 as [|p patterns1 [cd Hcd] _ IH]; simpl; [done|].
  rewrite Hcd. simpl.
  destruct (sameListOfPatterns_entries_total h ctx patterns2
              (range_map (if String.eqb ctx "SEND" then Send cd else Recv cd)) Hv2)
    as [ok ->].
  simpl. by destruct ok.
Qed.

(** [Same] does not panic on collections whose buckets are allocated. *)
Lemma Same_total h d1 d2 :
  allocated h d1 -> allocated h d2 -> is_Some (Same h d1 d2).
Proof.
  intros Hv1 Hv2. unfold Same, sameListOfPatterns.
  destruct (sameListOfPatterns_pass_total h "SEND" _ _ Hv1 Hv2) as [ok ->]. simpl.
  destruct ok; [|done]. by apply sameListOfPatterns_pass_total.
Qed.

(** Once a reference is chosen, a later group that differs from it in one
    of the four lengths, or that fails [Same] against it, makes the loop
    return. *)
Lemma scan_rejects h ref rest :
  allocated h ref -> Forall (allocated h) rest ->
  Exists (fun p => view_lengths p <> view_lengths ref \/ Same h ref p = Some false) rest ->
  AnalyzeSubCommsResults_scan h
    (Z.of_nat (length (AllPatterns ref))) (Z.of_nat (length (NToN ref)))
    (Z.of_nat (length (OneToN ref))) (Z.of_nat (length (NToOne ref))) ref rest
  = Some false.
Proof.
  intros Href Hv Hex. induction rest as [|p rest IH]; [by inversion Hex|].
  apply Forall_cons in Hv as [Hp Hv]. simpl.
  destruct (Z.eqb_spec (Z.of_nat (length (AllPatterns ref))) (-1)) as [Hneg|_]; [lia|].
  destruct (Z.eqb_spec (Z.of_nat (length (AllPatterns ref)))
              (Z.of_nat (length (AllPatterns p)))) as [H1|H1]; simpl; [|done].
  destruct (Z.eqb_spec (Z.of_nat (length (NToOne ref)))
              (Z.of_nat (length (NToOne p)))) as [H2|H2]; simpl; [|done].
  destruct (Z.eqb_spec (Z.of_nat (length (NToN ref)))
              (Z.of_nat (length (NToN p)))) as [H3|H3]; simpl; [|done].
  destruct (Z.eqb_spec (Z.of_nat (length (OneToN ref)))
              (Z.of_nat (length (OneToN p)))) as [H4|H4]; simpl; [|done].
  destruct (Same_total h ref p Href Hp) as [same Hsame]. rewrite Hsame. simpl.
  destruct same; simpl; [|done].
  apply IH; [done|].
  apply Exists_cons in Hex as [[Hlen|Hfail]|Hex]; [| |done].
  - exfalso. apply Hlen. unfold view_lengths.
    apply Nat2Z.inj in H1, H2, H3, H4. by rewrite H1, H2, H3, H4.
  - congruence.
Qed.

Lemma scan_rejects_from_start h groups ref rest :
  groups = ref :: rest ->
  Forall (allocated h) groups ->
  Exists (fun p => view_lengths p <> view_lengths ref \/ Same h ref p = Some false) rest ->
  AnalyzeSubCommsResults_scan h (-1) (-1) (-1) (-1) zero_Data groups = Some false.
Proof.
  intros -> [Href Hv]%Forall_cons Hex. simpl. by apply scan_rejects.
Qed.

End Heterogeneous.

(** C6, as stated: when two groups differ in one of the four numbers of
    entries or fail the check [Same], no report is written.  The loop only
    compares each group with the reference, the first group it visits.  In
    the sample the second and the third group fail [Same] against each other
    in both directions, each having a rank count that the other has not, but
    both pass it against the reference, whose only rank count they have: the
    report is written. *)
Lemma two_groups_failing_Same_counterexample :
  ~ (forall range_order prefix h groups_order ranks_order dir stats allPatterns w,
       groups_order ≡ₚ map_to_list allPatterns ->
       map_Forall (fun _ d => allocated h d) allPatterns ->
       (exists r1 d1 r2 d2,
          allPatterns !! r1 = Some d1 /\ allPatterns !! r2 = Some d2
          /\ (view_lengths d1 <> view_lengths d2 \/ Same h d1 d2 = Some false)) ->
       AnalyzeSubCommsResults range_order prefix h groups_order ranks_order dir stats
         allPatterns w
       = Some (None, w)).
Proof.
  assert ([(0, SampleCovering.reference); (1, SampleCovering.second);
           (2, SampleCovering.third)] ≡ₚ map_to_list SampleCovering.allPatterns)
    as Hperm.
  { unfold SampleCovering.allPatterns.
    rewrite map_to_list_insert by done. apply perm_skip.
    rewrite map_to_list_insert by done. apply perm_skip.
    by rewrite map_to_list_singleton. }
  assert (map_Forall (fun _ d => allocated SampleCovering.store d)
            SampleCovering.allPatterns) as Halloc.
  { unfold SampleCovering.allPatterns.
    apply map_Forall_insert_2; [|apply map_Forall_insert_2; [|apply map_Forall_singleton]];
      repeat constructor; by eexists. }
  assert (Same SampleCovering.store SampleCovering.second SampleCovering.third = Some false
          /\ Same SampleCovering.store SampleCovering.third SampleCovering.second
             = Some false) as [Hfails _].
  { vm_compute. split; reflexivity. }
  assert (exists r1 d1 r2 d2,
            SampleCovering.allPatterns !! r1 = Some d1
            /\ SampleCovering.allPatterns !! r2 = Some d2
            /\ (view_lengths d1 <> view_lengths d2
                \/ Same SampleCovering.store d1 d2 = Some false)) as Hhet.
  { exists 1, SampleCovering.second, 2, SampleCovering.third.
    split; [by vm_compute|]. split; [by vm_compute|]. by right. }
  intros Hstated.
  specialize (Hstated (fun _ m => range_map m) "multicomm" SampleCovering.store
                [(0, SampleCovering.reference); (1, SampleCovering.second);
                 (2, SampleCovering.third)]
                [0; 1; 2] "out" SampleCovering.stats SampleCovering.allPatterns
                SampleCovering.world Hperm Halloc Hhet).
  apply (f_equal (fun r => match r with
                           | Some (_, w) => quota w
                           | None => 0%nat
                           end)) in Hstated.
  vm_compute in Hstated. discriminate Hstated.
Qed.

(** C6, amended.  Let the groups be visited in any order by the first loop
    of [AnalyzeSubCommsResults] (their buckets being allocated).  If two
    groups differ in the number of entries of [AllPatterns], [NToOne], [NToN]
    or [OneToN], or if some group fails the check [Same] against the
    reference (the first group visited), the function returns a nil error and
    leaves the world as it was: no report file is created, nothing is
    written. *)
Theorem AnalyzeSubCommsResults_heterogeneous_no_report
    (range_order : nat -> IntMap -> list (Z * Z))
    (format_MulticommHighlightFilePrefix : string)
    (h : list CallData) (groups_order : list (Z * Data)) (ranks_order : list Z)
    (dir : string) (stats : gmap Z SendRecvStats) (allPatterns : gmap Z Data)
    (w : World) :
  groups_order ≡ₚ map_to_list allPatterns ->
  map_Forall (fun _ d => allocated h d) allPatterns ->
  (exists r1 d1 r2 d2,
     allPatterns !! r1 = Some d1 /\ allPatterns !! r2 = Some d2
     /\ view_lengths d1 <> view_lengths d2)
  \/ (exists ref rest g,
        groups_order = ref :: rest /\ g ∈ rest /\ Same h ref.2 g.2 = Some false) ->
  AnalyzeSubCommsResults range_order format_MulticommHighlightFilePrefix h
    groups_order ranks_order dir stats allPatterns w
  = Some (None, w).
Proof.
  intros Hperm Hvalid Hhet.
  assert (forall g, g ∈ groups_order -> allPatterns !! g.1 = Some g.2) as Hin.
  { intros [r d] Hg. rewrite Hperm in Hg. by apply elem_of_map_to_list in Hg. }
  assert (Forall (allocated h) groups_order.*2) as Hv.
  { apply Forall_fmap, Forall_forall. intros g Hg. simpl.
    eapply (Hvalid g.1). by apply Hin. }
  assert (AnalyzeSubCommsResults_scan h (-1) (-1) (-1) (-1) zero_Data groups_order.*2
          = Some false) as Hscan.
  { destruct Hhet as [(r1 & d1 & r2 & d2 & H1 & H2 & Hne)|(ref & rest & g & -> & Hg & Hsame)].
    - assert ((r1, d1) ∈ groups_order) as Hg1 by (rewrite Hperm; by apply elem_of_map_to_list).
      assert ((r2, d2) ∈ groups_order) as Hg2 by (rewrite Hperm; by apply elem_of_map_to_list).
      destruct groups_order as [|ref rest]; [by apply elem_of_nil in Hg1|].
      eapply scan_rejects_from_start; [by rewrite fmap_cons|done|].
      apply Exists_exists.
      destruct (decide (view_lengths d1 = view_lengths ref.2)) as [Heq1|Hne1].
      + exists d2. split; [|left; congruence].
        apply elem_of_cons in Hg2 as [<-|Hg2]; [by destruct Hne|].
        apply list_elem_of_fmap. by exists (r2, d2).
      + exists d1. split; [|by left].
        apply elem_of_cons in Hg1 as [<-|Hg1]; [by destruct Hne1|].
        apply list_elem_of_fmap. by exists (r1, d1).
    - eapply scan_rejects_from_start; [by rewrite fmap_cons|done|].
      apply Exists_exists. exists g.2. split; [|by right].
      apply list_elem_of_fmap. by exists g. }
  unfold AnalyzeSubCommsResults. by rewrite Hscan.
Qed.

Lemma AnalyzeSubCommsResults_heterogeneous_no_report_witness :
  AnalyzeSubCommsResults (fun _ m => range_map m) "multicomm" SampleCovering.store
    [(1, SampleCovering.second); (2, SampleCovering.third)]
    [1; 2] "out" (<[1 := SampleCovering.one_call]> {[2 := SampleCovering.one_call]})
    (<[1 := SampleCovering.second]> {[2 := SampleCovering.third]})
    SampleCovering.world
  = Some (None, SampleCovering.world).
Proof.
  apply AnalyzeSubCommsResults_heterogeneous_no_report.
  - rewrite map_to_list_insert by done. apply perm_skip.
    by rewrite map_to_list_singleton.
  - apply map_Forall_insert_2; [|apply map_Forall_singleton];
      repeat constructor; by eexists.
  - right. exists (1, SampleCovering.second), [(2, SampleCovering.third)],
             (2, SampleCovering.third).
    split; [done|]. split; [by left|]. by vm_compute.
Defined.

(** The same input with homogeneous groups: the two sample groups of one
    bucket each pass the loop, and the report is created. *)
Example AnalyzeSubCommsResults_sample_report :
  AnalyzeSubCommsResults (fun _ m => range_map m) "multicomm" SampleGroups.store
    [(0, SampleGroups.group_a); (4, SampleGroups.group_b)] [4; 0] "out"
    (<[0 := mkSendRecvStats None None 0 0 1 [mkBin 3 0 200; mkBin 1 200 (-1)]]>
       {[4 := mkSendRecvStats None None 0 0 1 []]})
    (<[0 := SampleGroups.group_a]> {[4 := SampleGroups.group_b]})
    (mkWorld ∅ 100 0)
  = Some (None,
          mkWorld {["out/multicomm.md" :=
                      "Alltoallv on sub-communicators detected." +:+ nl +:+ nl
                      +:+ "# Patterns summary" +:+ nl +:+ nl
                      +:+ nl +:+ "## All 0 counts pattern; no data exchanged" +:+ nl +:+ nl
                      +:+ nl +:+ "# Counts analysis" +:+ nl +:+ nl
                      +:+ "-> Sub-communicator led by rank 0:" +:+ nl
                      +:+ tab +:+ "3 of the messages are of size between 0 and 199 bytes" +:+ nl
                      +:+ tab +:+ "1 of messages are larger or equal of 200 bytes" +:+ nl
                      +:+ "-> Sub-communicator led by rank 4:" +:+ nl]}
                  92 0).
Proof. by vm_compute. Qed.

(** ** Texts *)

Section Texts.

Lemma append_cons c s t : String c s +:+ t = String c (s +:+ t).
Proof. reflexivity. Qed.

Lemma append_nil_l s : "" +:+ s = s.
Proof. reflexivity. Qed.

Lemma append_nil_r s : s +:+ "" = s.
Proof. induction s as [|c s IH]; [done|]. by rewrite append_cons, IH. Qed.

Lemma append_assoc s1 s2 s3 : (s1 +:+ s2) +:+ s3 = s1 +:+ s2 +:+ s3.
Proof. induction s1 as [|c s1 IH]; [done|]. by rewrite !append_cons, IH. Qed.

Lemma no_newline_app s t : no_newline (s +:+ t) = no_newline s && no_newline t.
Proof.
  induction s as [|c s IH]; [done|]. rewrite append_cons. simpl.
  by rewrite IH, andb_assoc.
Qed.

Lemma no_newline_uint d : no_newline (NilEmpty.string_of_uint d) = true.
Proof. induction d; simpl; done. Qed.

Lemma no_newline_fmt_d z : no_newline (GoInt.fmt_d z) = true.
Proof.
  unfold GoInt.fmt_d, NilZero.string_of_int, NilZero.string_of_uint.
  destruct (Z.to_int z) as [d|d]; destruct d; simpl; try done;
    apply no_newline_uint.
Qed.

Lemma ReadString_nl_line a rest :
  no_newline a = true -> ReadString_nl (a +:+ nl +:+ rest) = (a +:+ nl, rest, true).
Proof.
  induction a as [|c a IH]; [done|]. simpl.
  intros [Hc Ha]%andb_true_iff. rewrite append_cons. simpl.
  destruct (Ascii.eqb c "010"); [done|]. by rewrite IH.
Qed.

Lemma ReadString_line a rest :
  no_newline a = true -> ReadString (a +:+ nl +:+ rest) = (a +:+ nl, None, rest).
Proof. intros Ha. unfold ReadString. by rewrite ReadString_nl_line. Qed.

Lemma prefix_append p s : String.prefix p (p +:+ s) = true.
Proof.
  induction p as [|c p IH]; [by destruct s|].
  rewrite append_cons. cbn [String.prefix].
  destruct (ascii_dec c c); [done|congruence].
Qed.

End Texts.

(** ** Writing appends *)

Section Appends.

Lemma grows_refl fd w : grows fd w w.
Proof. intros text Ht. exists "". by rewrite append_nil_r. Qed.

Lemma grows_trans fd w1 w2 w3 : grows fd w1 w2 -> grows fd w2 w3 -> grows fd w1 w3.
Proof.
  intros H12 H23 text Ht. destruct (H12 text Ht) as [m1 H1].
  destruct (H23 _ H1) as [m2 H2]. exists (m1 +:+ m2). by rewrite <- append_assoc.
Qed.

Lemma Grows_ret fd {A} (a : A) : Grows fd (ret a).
Proof. intros w r w' [= _ <-]. apply grows_refl. Qed.

Lemma Grows_panic fd {A} : Grows fd (@panic World A).
Proof. by intros w r w'. Qed.

Lemma Grows_bind fd {A B} (f : IO A) (k : A -> IO B) :
  Grows fd f -> (forall a, Grows fd (k a)) -> Grows fd (bind f k).
Proof.
  intros Hf Hk w r w'. unfold bind.
  destruct (f w) as [[a w1]|] eqn:Hfw; [|done]. intros Hkw.
  eapply grows_trans; [by eapply Hf|by eapply Hk].
Qed.

Lemma Grows_try fd (f k : IO (option error)) :
  Grows fd f -> Grows fd k ->
  Grows fd (bind f (fun err => match err with Some e => ret (Some e) | None => k end)).
Proof.
  intros Hf Hk. apply Grows_bind; [done|]. intros [e|]; [apply Grows_ret|done].
Qed.

Lemma Grows_WriteString fd s : Grows fd (WriteString fd s).
Proof.
  intros w r w'. unfold WriteString. destruct (quota w).
  - intros [= _ <-]. apply grows_refl.
  - intros [= _ <-] text Ht. exists s. simpl. rewrite lookup_insert_eq.
    unfold content_of. by rewrite Ht.
Qed.

Lemma Grows_deref fd h p : Grows fd (deref h p).
Proof.
  intros w r w'. unfold deref. destruct (h !! p); [|done].
  intros [= _ <-]. apply grows_refl.
Qed.

Lemma Grows_for_each fd {A} (body : A -> IO (option error)) l :
  (forall x, Grows fd (body x)) -> Grows fd (for_each body l).
Proof.
  intros Hb. induction l as [|x l IH]; simpl; [apply Grows_ret|].
  by apply Grows_try.
Qed.

Lemma Grows_for_each_num fd {A} (body : Z -> A -> IO (option error)) l :
  (forall n x, Grows fd (body n x)) -> forall num, Grows fd (for_each_num body num l).
Proof.
  intros Hb. induction l as [|x l IH]; intros num; simpl; [apply Grows_ret|].
  by apply Grows_try.
Qed.

Variable range_order : nat -> IntMap -> list (Z * Z).
Variable notation_CompressIntArray : list Z -> string.

Lemma Grows_range fd m : Grows fd (range range_order m).
Proof. intros w r w'. unfold range. intros [= _ <-]. intros text Ht. exists "".
  simpl. by rewrite append_nil_r. Qed.

Lemma Grows_writeDataToFile fd h cd : Grows fd (writeDataToFile range_order h fd cd).
Proof.
  unfold writeDataToFile.
  apply Grows_bind; [apply Grows_deref|]. intros c.
  apply Grows_bind; [apply Grows_range|]. intros sends.
  apply Grows_try; [apply Grows_for_each; intros; apply Grows_WriteString|].
  apply Grows_bind; [apply Grows_range|]. intros recvs.
  apply Grows_try; [apply Grows_for_each; intros; apply Grows_WriteString|].
  apply Grows_ret.
Qed.

Lemma Grows_WriteToFile fd h num total cd :
  Grows fd (WriteToFile range_order notation_CompressIntArray h fd num total cd).
Proof.
  unfold WriteToFile.
  apply Grows_bind; [apply Grows_deref|]. intros c.
  apply Grows_try; [apply Grows_WriteString|].
  apply Grows_try; [apply Grows_WriteString|].
  apply Grows_try; [apply Grows_writeDataToFile|].
  apply Grows_try; [apply Grows_WriteString|].
  apply Grows_ret.
Qed.

Lemma bind_inv {A B} (f : IO A) (k : A -> IO B) w r w' :
  bind f k w = Some (r, w') ->
  exists a w1, f w = Some (a, w1) /\ k a w1 = Some (r, w').
Proof.
  unfold bind. destruct (f w) as [[a w1]|]; [|done]. intros Hk. by exists a, w1.
Qed.

Lemma try_inv (f k : IO (option error)) w w' :
  bind f (fun err => match err with Some e => ret (Some e) | None => k end) w
  = Some (None, w') ->
  exists w1, f w = Some (None, w1) /\ k w1 = Some (None, w').
Proof.
  intros (err & w1 & Hf & Hk)%bind_inv. destruct err as [e|]; [done|]. by exists w1.
Qed.

Lemma WriteString_inv fd s w w' :
  WriteString fd s w = Some (None, w') ->
  files w' = <[fd := content_of fd w +:+ s]> (files w).
Proof. unfold WriteString. destruct (quota w); [done|]. by intros [= <-]. Qed.

(** A patterns file written for a collection with at least one bucket
    starts with the title line and the header of the first bucket. *)
Lemma SaveStats_patterns_text h fd d numCalls w w' text :
  files w !! fd = Some text ->
  AllPatterns d <> [] ->
  SaveStats_patterns range_order notation_CompressIntArray h fd d numCalls w
  = Some (None, w') ->
  exists count more,
    files w' !! fd
    = Some (text +:+ ("# Patterns" +:+ nl) +:+ pattern_header 0 count numCalls +:+ more).
Proof.
  intros Ht Hne Hrun. destruct (AllPatterns d) as [|p ps] eqn:Hps; [done|].
  unfold SaveStats_patterns in Hrun. rewrite Hps in Hrun.
  apply try_inv in Hrun as (w1 & Htitle & Hrun). cbn [for_each_num] in Hrun.
  apply try_inv in Hrun as (w2 & Hfirst & Hrest).
  unfold WriteToFile in Hfirst.
  apply bind_inv in Hfirst as (c & w1' & Hc & Hfirst).
  assert (w1' = w1) as ->.
  { unfold deref in Hc. destruct (h !! p); [|done]. by injection Hc. }
  apply try_inv in Hfirst as (w3 & Hhdr & Hfirst).
  assert (grows fd w3 w2) as G1.
  { revert Hfirst. apply Grows_try; [apply Grows_WriteString|].
    apply Grows_try; [apply Grows_writeDataToFile|].
    apply Grows_try; [apply Grows_WriteString|apply Grows_ret]. }
  assert (grows fd w2 w') as G2.
  { revert Hrest. apply Grows_for_each_num. intros. apply Grows_WriteToFile. }
  apply WriteString_inv in Htitle, Hhdr.
  destruct (grows_trans _ _ _ _ G1 G2
              (text +:+ ("# Patterns" +:+ nl) +:+ pattern_header 0 (Count c) numCalls))
    as [more Hmore].
  { rewrite Hhdr, lookup_insert_eq. f_equal. unfold content_of.
    rewrite Htitle, lookup_insert_eq. cbn [from_option]. unfold id, content_of.
    rewrite Ht. cbn [from_option]. unfold id. by rewrite append_assoc. }
  exists (Count c), more. rewrite Hmore. by rewrite !append_assoc.
Qed.

End Appends.

(** ** Reading back a patterns file *)

Section ReadBack.

Variable notation_ConvertCompressedCallListToIntSlice : string -> list Z * option error.

Lemma pattern_header_lines num count total more :
  exists a,
    no_newline a = true
    /\ pattern_header num count total +:+ more
       = ("## Pattern #" +:+ a) +:+ nl +:+ nl +:+ more.
Proof.
  exists (GoInt.fmt_d num +:+ " (" +:+ GoInt.fmt_d count +:+ "/"
          +:+ GoInt.fmt_d total +:+ " alltoallv calls)").
  split.
  - rewrite !no_newline_app, !no_newline_fmt_d. reflexivity.
  - unfold pattern_header. by rewrite !append_assoc.
Qed.

(** The header parser stops at the empty line that [WriteToFile] leaves
    between the two lines of a header. *)
Lemma GetPatternHeader_written_header num count total more :
  GetPatternHeader notation_ConvertCompressedCallListToIntSlice
    (pattern_header num count total +:+ more)
  = ([], "", Some (not_a_header nl), more).
Proof.
  destruct (pattern_header_lines num count total more) as (a & Ha & ->).
  unfold GetPatternHeader.
  rewrite ReadString_line by (rewrite no_newline_app, Ha; reflexivity).
  rewrite append_assoc, prefix_append. cbn [negb].
  change (nl +:+ more) with ("" +:+ nl +:+ more).
  rewrite ReadString_line by reflexivity.
  reflexivity.
Qed.

End ReadBack.

(** C7 on the code.  Write the patterns file of any collection that has at
    least one bucket with [SaveStats] (the file is open and empty, every
    write succeeds) and look any call number up with [GetCall]: the lookup
    fails with the error "not a header", because [WriteToFile] ends the
    header line with two newlines and [GetPatternHeader] expects the line
    ["Alltoallv calls: ..."] right after it.  No call is ever found. *)
Theorem GetCall_rejects_written_patterns_file
    (range_order : nat -> IntMap -> list (Z * Z))
    (notation_CompressIntArray : list Z -> string)
    (notation_ConvertCompressedCallListToIntSlice : string -> list Z * option error)
    (h : list CallData) (dir : string) (jobid rank : Z) (d : Data) (numCalls : Z)
    (w w' : World) (callNum : Z) :
  files w !! GetFilePath dir jobid rank = Some "" ->
  AllPatterns d <> [] ->
  SaveStats_patterns range_order notation_CompressIntArray h
    (GetFilePath dir jobid rank) d numCalls w = Some (None, w') ->
  GetCall notation_ConvertCompressedCallListToIntSlice (files w') dir jobid rank callNum
  = Some ("", Some (unable_to_read (GetFilePath dir jobid rank) (not_a_header nl))).
Proof.
  intros Hopen Hne Hsave.
  destruct (SaveStats_patterns_text _ _ _ _ _ _ _ _ _ Hopen Hne Hsave)
    as (count & more & Htext).
  unfold GetCall. rewrite Htext.
  rewrite append_nil_l, append_assoc.
  rewrite ReadString_line by reflexivity.
  rewrite String.eqb_refl. cbn [negb GetCall_loop].
  by rewrite GetPatternHeader_written_header.
Qed.

Lemma GetCall_rejects_written_patterns_file_witness :
  GetCall (fun _ => ([0; 2], None))
    (files (mkWorld {[GetFilePath "out" 7 0 :=
                        "# Patterns" +:+ nl
                        +:+ "## Pattern #0 (2/3 alltoallv calls)" +:+ nl +:+ nl
                        +:+ "Alltoallv calls: 0,2" +:+ nl +:+ nl
                        +:+ "## Pattern #1 (1/3 alltoallv calls)" +:+ nl +:+ nl
                        +:+ "Alltoallv calls: 1" +:+ nl
                        +:+ "2 ranks sent to 2 other ranks" +:+ nl
                        +:+ "200 ranks sent to 1 other ranks" +:+ nl
                        +:+ "2 ranks recv'd from 2 other ranks" +:+ nl
                        +:+ "200 ranks recv'd from 1 other ranks" +:+ nl +:+ nl]}
                    88 4))
    "out" 7 0 2
  = Some ("", Some (unable_to_read (GetFilePath "out" 7 0) (not_a_header nl))).
Proof.
  apply (GetCall_rejects_written_patterns_file (fun _ m => range_map m)
           (fun l => match l with [_; _] => "0,2" | _ => "1" end)
           (fun _ => ([0; 2], None))
           [mkCallData (Some ∅) (Some ∅) 2 [0; 2];
            mkCallData None None 1 [0];
            mkCallData Sample.mixed Sample.mixed 1 [1];
            mkCallData None None 1 [2]]
           "out" 7 0 (mkData [0; 2]%nat [] [2]%nat [2]%nat [1; 3]%nat) 3
           (mkWorld {[GetFilePath "out" 7 0 := ""]} 99 0)).
  - by vm_compute.
  - done.
  - by vm_compute.
Defined.

(** The header parser accepts a header whose two lines follow one another,
    as the [srcountsanalyzer] command prints them. *)
Example GetPatternHeader_single_newline
    (convert : string -> list Z * option error) (rest : string) :
  GetPatternHeader convert
    ("## Pattern #0 (2 alltoallv calls)" +:+ nl +:+ "Alltoallv calls: 0,2" +:+ nl +:+ rest)
  = ((convert "0,2").1, "0,2", (convert "0,2").2, rest).
Proof.
  unfold GetPatternHeader.
  rewrite ReadString_line by reflexivity. cbn [negb String.prefix].
  replace (String.prefix "## Pattern #" ("## Pattern #0 (2 alltoallv calls)" +:+ nl))
    with true by reflexivity.
  cbn [negb]. rewrite ReadString_line by reflexivity.
  replace (String.prefix "Alltoallv calls: " ("Alltoallv calls: 0,2" +:+ nl))
    with true by reflexivity.
  cbn [negb].
  replace (TrimRight (TrimLeft ("Alltoallv calls: 0,2" +:+ nl) "Alltoallv calls: ") nl)
    with "0,2" by reflexivity.
  by destruct (convert "0,2").
Qed.

(** ** The consolidated report *)

(** C9, as stated: two runs of the report writer on the same grouped result
    give the same output.  A bucket with two entries in its send signature is
    described by two lines, written in the order in which the runtime visits
    the map; two runs that visit it in opposite orders write different
    files. *)
Lemma report_byte_identical_counterexample :
  ~ (forall range_order1 range_order2,
       admissible range_order1 -> admissible range_order2 ->
       forall prefix h ranks_order dir stats allPatterns w,
         AnalyzeSubCommsResults_report range_order1 prefix h ranks_order dir stats
           allPatterns w
         = AnalyzeSubCommsResults_report range_order2 prefix h ranks_order dir stats
             allPatterns w).
Proof.
  intros Hstated.
  specialize (Hstated SampleReport.forwards SampleReport.backwards).
  assert (admissible SampleReport.forwards) as H1 by (by intros n m).
  assert (admissible SampleReport.backwards) as H2.
  { intros n m. unfold SampleReport.backwards. by rewrite reverse_Permutation. }
  specialize (Hstated H1 H2 "multicomm" SampleReport.store [0] "out"
                SampleReport.stats SampleReport.allPatterns SampleReport.world).
  apply (f_equal (fun r => match r with
                           | Some (_, w) => content_of "out/multicomm.md" w
                           | None => EmptyString
                           end)) in Hstated.
  vm_compute in Hstated. discriminate Hstated.
Qed.

Section ReportText.

Variable range_order : nat -> IntMap -> list (Z * Z).
Variable format_MulticommHighlightFilePrefix : string.

Lemma WriteString_text fd s w w' text :
  files w !! fd = Some text ->
  WriteString fd s w = Some (None, w') ->
  files w' !! fd = Some (text +:+ s).
Proof.
  intros Ht Hw%WriteString_inv. rewrite Hw, lookup_insert_eq.
  unfold content_of. by rewrite Ht.
Qed.

Lemma join_cons s l : join (s :: l) = s +:+ join l.
Proof. reflexivity. Qed.

(** A loop whose body appends [f x] appends the texts of its elements. *)
Lemma for_each_text fd {A} (body : A -> IO (option error)) (f : A -> string) l :
  (forall x w w' text,
     files w !! fd = Some text -> body x w = Some (None, w') ->
     files w' !! fd = Some (text +:+ f x)) ->
  forall w w' text,
    files w !! fd = Some text -> for_each body l w = Some (None, w') ->
    files w' !! fd = Some (text +:+ join (f <$> l)).
Proof.
  intros Hbody. induction l as [|x l IH]; intros w w' text Ht Hrun.
  - injection Hrun as <-. by rewrite append_nil_r.
  - cbn [for_each] in Hrun. apply try_inv in Hrun as (w1 & Hx & Hrun).
    rewrite fmap_cons, join_cons, <- append_assoc.
    eapply IH; [|exact Hrun]. by eapply Hbody.
Qed.

Lemma WriteSubcommPatterns_text title view h fd ranks stats patterns w w' text :
  files w !! fd = Some text ->
  WriteSubcommPatterns range_order title view h fd ranks stats patterns w
  = Some (None, w') ->
  exists body, files w' !! fd = Some (text +:+ (title +:+ nl +:+ nl) +:+ body).
Proof.
  intros Ht Hrun. unfold WriteSubcommPatterns in Hrun.
  apply try_inv in Hrun as (w1 & Htitle & Hrun).
  pose proof (WriteString_text _ _ _ _ _ Ht Htitle) as Ht1.
  assert (grows fd w1 w') as Hg.
  { revert Hrun. apply Grows_try; [apply Grows_WriteString|].
    apply Grows_bind; [destruct ranks; [apply Grows_panic|apply Grows_ret]|].
    intros r0.
    apply Grows_try; [apply Grows_for_each; intros; apply Grows_writeDataToFile|].
    apply Grows_try; [apply Grows_WriteString|].
    apply Grows_try; [|apply Grows_ret].
    apply Grows_for_each. intros r.
    apply Grows_try; [apply Grows_WriteString|].
    apply Grows_for_each_num. intros num p.
    apply Grows_bind; [apply Grows_deref|]. intros c. apply Grows_WriteString. }
  destruct (Hg _ Ht1) as [body Hbody]. exists body.
  by rewrite Hbody, append_assoc.
Qed.

Lemma section_text title view h fd ranks stats patterns first w w' text :
  files w !! fd = Some text ->
  (if (0 <? length (view first))%nat
   then WriteSubcommPatterns range_order title view h fd ranks stats patterns
   else ret None) w = Some (None, w') ->
  exists s, section_shape title (view first) s
            /\ files w' !! fd = Some (text +:+ s).
Proof.
  intros Ht Hrun. destruct (view first) as [|p ps] eqn:Hview; simpl in Hrun.
  - injection Hrun as <-. exists "". split; [done|]. by rewrite append_nil_r.
  - destruct (WriteSubcommPatterns_text _ _ _ _ _ _ _ _ _ _ Ht Hrun) as [body Hbody].
    exists ((title +:+ nl +:+ nl) +:+ body). split; [by exists body|].
    by rewrite Hbody.
Qed.

(** The text of a report that was written without error: the title, the
    three topology sections in their fixed order, the tally of the calls
    without data, the binned statistics. *)
Lemma report_text h ranks_order dir stats allPatterns w w' :
  AnalyzeSubCommsResults_report range_order format_MulticommHighlightFilePrefix
    h ranks_order dir stats allPatterns w = Some (None, w') ->
  let ranks := merge_sort Z.le ranks_order in
  let first := first_group ranks_order allPatterns in
  exists sNtoN s1toN sNto1,
    section_shape "## N to n patterns" (NToN first) sNtoN
    /\ section_shape "## 1 to n patterns" (OneToN first) s1toN
    /\ section_shape "## N to 1 patterns" (NToOne first) sNto1
    /\ files w' !! filepath_Join dir (format_MulticommHighlightFilePrefix +:+ ".md")
       = Some (report_title +:+ sNtoN +:+ s1toN +:+ sNto1
               +:+ tally_title +:+ tally_text ranks stats allPatterns
               +:+ counts_title +:+ bins_text ranks stats).
Proof.
  intros Hrun ranks first. unfold AnalyzeSubCommsResults_report in Hrun.
  set (fd := filepath_Join dir (format_MulticommHighlightFilePrefix +:+ ".md")) in *.
  apply bind_inv in Hrun as ([fd' err] & w0 & Hopen & Hrun).
  unfold os_OpenFile in Hopen. destruct (quota w) as [|q]; [by injection Hopen as <- <- <-|].
  injection Hopen as <- <- <-.
  assert (files (mkWorld (<[fd := ""]> (files w)) q (tick w)) !! fd = Some "") as Ht0
    by apply lookup_insert_eq.
  apply try_inv in Hrun as (w1 & Htitle & Hrun).
  pose proof (WriteString_text _ _ _ _ _ Ht0 Htitle) as Ht1. rewrite append_nil_l in Ht1.
  fold ranks in Hrun.
  apply bind_inv in Hrun as (r0 & w1' & Hr0 & Hrun).
  assert (w1' = w1 /\ default zero_Data (allPatterns !! r0) = first) as [-> Hfirst].
  { unfold first, first_group. fold ranks. destruct ranks; [done|].
    by injection Hr0 as -> ->. }
  rewrite Hfirst in Hrun.
  apply try_inv in Hrun as (w2 & HNN & Hrun).
  destruct (section_text _ NToN _ _ _ _ _ first _ _ _ Ht1 HNN) as (sNN & HsNN & Ht2).
  apply try_inv in Hrun as (w3 & H1N & Hrun).
  destruct (section_text _ OneToN _ _ _ _ _ first _ _ _ Ht2 H1N) as (s1N & Hs1N & Ht3).
  apply try_inv in Hrun as (w4 & HN1 & Hrun).
  destruct (section_text _ NToOne _ _ _ _ _ first _ _ _ Ht3 HN1) as (sN1 & HsN1 & Ht4).
  apply try_inv in Hrun as (w5 & Htally & Hrun).
  pose proof (WriteString_text _ _ _ _ _ Ht4 Htally) as Ht5.
  apply try_inv in Hrun as (w6 & Hlines & Hrun).
  eapply (for_each_text fd _
            (fun rank =>
               let d := default zero_Data (allPatterns !! rank) in
               if (0 <? length (Empty d))%nat
               then empty_line rank d (default zero_SendRecvStats (stats !! rank))
               else EmptyString)) in Hlines; [|clear; intros rank w w' text Ht Hb|exact Ht5].
  2:{ cbv zeta in *. destruct (0 <? length _)%nat.
      - by eapply WriteString_text.
      - injection Hb as <-. by rewrite append_nil_r. }
  apply try_inv in Hrun as (w7 & Hcounts & Hrun).
  pose proof (WriteString_text _ _ _ _ _ Hlines Hcounts) as Ht7.
  apply try_inv in Hrun as (w8 & Hbins & Hrun).
  eapply (for_each_text fd _
            (fun rank =>
               ("-> Sub-communicator led by rank " +:+ GoInt.fmt_d rank +:+ ":" +:+ nl)
               +:+ join (bin_line <$> Bins (default zero_SendRecvStats (stats !! rank)))))
    in Hbins; [|clear; intros rank w w' text Ht Hb|exact Ht7].
  2:{ apply try_inv in Hb as (w1 & Hhead & Hb).
      rewrite <- append_assoc.
      eapply (for_each_text fd _ bin_line); [|by eapply WriteString_text|exact Hb].
      intros b wa wb ta Hta Hwb. by eapply WriteString_text. }
  injection Hrun as <-.
  exists sNN, s1N, sN1. repeat (split; [done|]).
  rewrite Hbins. f_equal. unfold tally_text, bins_text.
  by rewrite !append_assoc.
Qed.

End ReportText.

Section Determinism.

Lemma bind_ext {A B} (f1 f2 : IO A) (k1 k2 : A -> IO B) w :
  f1 w = f2 w ->
  (forall a w1, f1 w = Some (a, w1) -> k1 a w1 = k2 a w1) ->
  bind f1 k1 w = bind f2 k2 w.
Proof.
  intros Hf Hk. unfold bind. rewrite <- Hf.
  destruct (f1 w) as [[a w1]|]; [|done]. by apply Hk.
Qed.

Lemma try_ext (f1 f2 k1 k2 : IO (option error)) w :
  f1 w = f2 w ->
  (forall w1, f1 w = Some (None, w1) -> k1 w1 = k2 w1) ->
  bind f1 (fun err => match err with Some e => ret (Some e) | None => k1 end) w
  = bind f2 (fun err => match err with Some e => ret (Some e) | None => k2 end) w.
Proof.
  intros Hf Hk. apply bind_ext; [done|]. intros [e|] w1 Hw1; [done|]. by apply Hk.
Qed.

Lemma for_each_ext {A} (b1 b2 : A -> IO (option error)) l :
  (forall x, x ∈ l -> forall w, b1 x w = b2 x w) ->
  forall w, for_each b1 l w = for_each b2 l w.
Proof.
  induction l as [|x l IH]; intros Hb w; [done|]. cbn [for_each].
  apply try_ext; [apply Hb; by left|]. intros w1 _. apply IH.
  intros y Hy. apply Hb. by right.
Qed.

Lemma range_map_length m : Z.of_nat (length (range_map m)) = len_map m.
Proof. destruct m as [g|]; simpl; [|done]. by rewrite length_map_to_list. Qed.

(** A map with at most one entry can be visited in one order only. *)
Lemma admissible_small ro1 ro2 n m :
  admissible ro1 -> admissible ro2 -> len_map m <= 1 -> ro1 n m = ro2 n m.
Proof.
  intros H1 H2 Hlen. specialize (H1 n m). specialize (H2 n m).
  rewrite <- range_map_length in Hlen.
  destruct (range_map m) as [|e [|e' l]]; simpl in Hlen; [| |lia].
  - apply Permutation_nil_r in H1, H2. congruence.
  - apply Permutation_singleton_r in H1, H2. congruence.
Qed.

Variables range_order1 range_order2 : nat -> IntMap -> list (Z * Z).
Hypothesis admissible1 : admissible range_order1.
Hypothesis admissible2 : admissible range_order2.

Lemma writeDataToFile_small h fd p w :
  small_signatures h [p] ->
  writeDataToFile range_order1 h fd p w = writeDataToFile range_order2 h fd p w.
Proof.
  intros Hsmall. unfold writeDataToFile.
  apply bind_ext; [done|]. intros c w1 Hc.
  assert (h !! p = Some c) as Hp.
  { unfold deref in Hc. destruct (h !! p); [|done]. by injection Hc as -> _. }
  destruct (Hsmall p c) as [Hs Hr]; [by left|done|].
  apply bind_ext.
  { unfold range. by rewrite (admissible_small range_order1 range_order2). }
  intros sends w2 _. apply try_ext; [done|]. intros w3 _.
  apply bind_ext; [|done].
  unfold range. by rewrite (admissible_small range_order1 range_order2).
Qed.

Lemma WriteSubcommPatterns_small title view h fd ranks stats patterns w :
  small_signatures h
    (match ranks with
     | [] => []
     | r0 :: _ => view (default zero_Data (patterns !! r0))
     end) ->
  WriteSubcommPatterns range_order1 title view h fd ranks stats patterns w
  = WriteSubcommPatterns range_order2 title view h fd ranks stats patterns w.
Proof.
  intros Hsmall. unfold WriteSubcommPatterns.
  apply try_ext; [done|]. intros w1 _.
  apply try_ext; [done|]. intros w2 _.
  apply bind_ext; [done|]. intros r0 w3 Hr0.
  destruct ranks as [|r ranks]; [done|]. injection Hr0 as -> ->.
  apply try_ext; [|done].
  apply for_each_ext. intros p Hp w'. apply writeDataToFile_small.
  intros q cd Hq%list_elem_of_singleton Hcd. subst q. by apply (Hsmall p).
Qed.

Lemma merge_sort_perm (l l' : list Z) : l ≡ₚ l' -> merge_sort Z.le l = merge_sort Z.le l'.
Proof.
  intros Hp. apply (Sorted_unique Z.le).
  - apply Sorted_merge_sort, _.
  - apply Sorted_merge_sort, _.
  - by rewrite !merge_sort_Permutation.
Qed.

Lemma small_signatures_app h ps qs :
  small_signatures h (ps ++ qs) -> small_signatures h ps /\ small_signatures h qs.
Proof.
  intros H. split; intros p cd Hp; apply H; apply elem_of_app; auto.
Qed.

(** When the buckets that the report describes have at most one entry per
    signature, the report does not depend on the orders that the runtime
    picks. *)
Lemma report_small prefix h ranks_order ranks_order' dir stats allPatterns w :
  ranks_order ≡ₚ ranks_order' ->
  small_signatures h (described_buckets ranks_order allPatterns) ->
  AnalyzeSubCommsResults_report range_order1 prefix h ranks_order dir stats
    allPatterns w
  = AnalyzeSubCommsResults_report range_order2 prefix h ranks_order' dir stats
      allPatterns w.
Proof.
  intros Hperm Hsmall. unfold AnalyzeSubCommsResults_report.
  rewrite <- (merge_sort_perm _ _ Hperm).
  unfold described_buckets, first_group in Hsmall.
  apply bind_ext; [done|]. intros [fd err] w1 _. destruct err; [done|].
  apply try_ext; [done|]. intros w2 _.
  apply bind_ext; [done|]. intros r0 w3 Hr0.
  destruct (merge_sort Z.le ranks_order) as [|r ranks] eqn:Hranks; [done|].
  injection Hr0 as -> ->.
  apply small_signatures_app in Hsmall as [HNN Hsmall].
  apply small_signatures_app in Hsmall as [H1N HN1].
  apply try_ext.
  { destruct (0 <? length _)%nat; [|done]. by apply WriteSubcommPatterns_small. }
  intros w4 _. apply try_ext.
  { destruct (0 <? length _)%nat; [|done]. by apply WriteSubcommPatterns_small. }
  intros w5 _. apply try_ext; [|done].
  destruct (0 <? length _)%nat; [|done]. by apply WriteSubcommPatterns_small.
Qed.

End Determinism.

(** C9, amended.  Take two runs of the report writer on the same grouped
    result; each run visits the entries of a map, and the keys of the
    statistics, in some order of its own.  (1) If every bucket that the
    report describes (the buckets in the three views of the group with the
    smallest rank) has at most one entry in its send signature and at most
    one in its receive signature, the two runs have the same outcome, byte
    for byte.  (2) In any case a report written without error consists of
    the title, then the N-to-N, 1-to-N and N-to-1 sections in this order
    (a section is absent when its view is empty, and otherwise starts with
    its own title), then the tally of the calls without data per group, then
    the binned size statistics per group, groups in ascending rank. *)
Theorem report_fixed_order_and_deterministic_on_small_signatures
    (range_order1 range_order2 : nat -> IntMap -> list (Z * Z))
    (format_MulticommHighlightFilePrefix : string)
    (h : list CallData) (ranks_order ranks_order' : list Z) (dir : string)
    (stats : gmap Z SendRecvStats) (allPatterns : gmap Z Data) (w : World) :
  admissible range_order1 -> admissible range_order2 ->
  ranks_order ≡ₚ ranks_order' ->
  (small_signatures h (described_buckets ranks_order allPatterns) ->
   AnalyzeSubCommsResults_report range_order1 format_MulticommHighlightFilePrefix
     h ranks_order dir stats allPatterns w
   = AnalyzeSubCommsResults_report range_order2 format_MulticommHighlightFilePrefix
       h ranks_order' dir stats allPatterns w)
  /\ (forall w',
        AnalyzeSubCommsResults_report range_order1 format_MulticommHighlightFilePrefix
          h ranks_order dir stats allPatterns w = Some (None, w') ->
        let ranks := merge_sort Z.le ranks_order in
        let first := first_group ranks_order allPatterns in
        exists sNtoN s1toN sNto1,
          section_shape "## N to n patterns" (NToN first) sNtoN
          /\ section_shape "## 1 to n patterns" (OneToN first) s1toN
          /\ section_shape "## N to 1 patterns" (NToOne first) sNto1
          /\ files w' !! filepath_Join dir (format_MulticommHighlightFilePrefix +:+ ".md")
             = Some (report_title +:+ sNtoN +:+ s1toN +:+ sNto1
                     +:+ tally_title +:+ tally_text ranks stats allPatterns
                     +:+ counts_title +:+ bins_text ranks stats)).
Proof.
  intros H1 H2 Hperm. split.
  - intros Hsmall. by apply report_small.
  - intros w' Hrun. exact (report_text _ _ _ _ _ _ _ _ _ Hrun).
Qed.

Lemma report_fixed_order_and_deterministic_on_small_signatures_witness :
  AnalyzeSubCommsResults_report SampleSubcomms.forwards "multicomm" SampleSubcomms.store
    [4; 0] "out" SampleSubcomms.stats SampleSubcomms.allPatterns SampleSubcomms.world
  = AnalyzeSubCommsResults_report SampleSubcomms.backwards "multicomm"
      SampleSubcomms.store [0; 4] "out" SampleSubcomms.stats SampleSubcomms.allPatterns
      SampleSubcomms.world
  /\ (let ranks := merge_sort Z.le [4; 0] in
      let first := first_group [4; 0] SampleSubcomms.allPatterns in
      exists sNtoN s1toN sNto1,
        section_shape "## N to n patterns" (NToN first) sNtoN
        /\ section_shape "## 1 to n patterns" (OneToN first) s1toN
        /\ section_shape "## N to 1 patterns" (NToOne first) sNto1
        /\ files SampleSubcomms.written !! filepath_Join "out" ("multicomm" +:+ ".md")
           = Some (report_title +:+ sNtoN +:+ s1toN +:+ sNto1
                   +:+ tally_title
                   +:+ tally_text ranks SampleSubcomms.stats SampleSubcomms.allPatterns
                   +:+ counts_title +:+ bins_text ranks SampleSubcomms.stats)).
Proof.
  destruct (report_fixed_order_and_deterministic_on_small_signatures
              SampleSubcomms.forwards SampleSubcomms.backwards "multicomm"
              SampleSubcomms.store [4; 0] [0; 4] "out" SampleSubcomms.stats
              SampleSubcomms.allPatterns SampleSubcomms.world)
    as [Hsame Hshape].
  - by intros n m.
  - intros n m. unfold SampleSubcomms.backwards. by rewrite reverse_Permutation.
  - apply perm_swap.
  - split.
    + apply Hsame. intros p cd Hp Hcd.
      assert (described_buckets [4; 0] SampleSubcomms.allPatterns = [0%nat]) as Hd
        by (by vm_compute).
      rewrite Hd in Hp. apply list_elem_of_singleton in Hp as ->.
      injection Hcd as <-. split; vm_compute; intros Hgt; discriminate Hgt.
    + apply (Hshape SampleSubcomms.written). by vm_compute.
Defined.

(** The report of the sample collection whose bucket has two entries per
    signature, with the maps visited in the order of [range_map]. *)
Example report_sample :
  option_map (fun r => content_of "out/multicomm.md" r.2)
    (AnalyzeSubCommsResults_report SampleReport.forwards "multicomm" SampleReport.store
       [0] "out" SampleReport.stats SampleReport.allPatterns SampleReport.world)
  = Some ("Alltoallv on sub-communicators detected." +:+ nl +:+ nl
          +:+ "# Patterns summary" +:+ nl +:+ nl
          +:+ "## N to n patterns" +:+ nl +:+ nl
          +:+ nl +:+ "### Pattern(s) description" +:+ nl +:+ nl
          +:+ "2 ranks sent to 2 other ranks" +:+ nl
          +:+ "200 ranks sent to 1 other ranks" +:+ nl
          +:+ "2 ranks recv'd from 2 other ranks" +:+ nl
          +:+ "200 ranks recv'd from 1 other ranks" +:+ nl
          +:+ nl +:+ nl +:+ "### Sub-communicator(s) information" +:+ nl +:+ nl
          +:+ "-> Subcommunicator led by rank 0:" +:+ nl
          +:+ tab +:+ "pattern #0: 1/1 alltoallv calls" +:+ nl
          +:+ "## N to 1 patterns" +:+ nl +:+ nl
          +:+ nl +:+ "### Pattern(s) description" +:+ nl +:+ nl
          +:+ "2 ranks sent to 2 other ranks" +:+ nl
          +:+ "200 ranks sent to 1 other ranks" +:+ nl
          +:+ "2 ranks recv'd from 2 other ranks" +:+ nl
          +:+ "200 ranks recv'd from 1 other ranks" +:+ nl
          +:+ nl +:+ nl +:+ "### Sub-communicator(s) information" +:+ nl +:+ nl
          +:+ "-> Subcommunicator led by rank 0:" +:+ nl
          +:+ tab +:+ "pattern #0: 1/1 alltoallv calls" +:+ nl
          +:+ nl +:+ "## All 0 counts pattern; no data exchanged" +:+ nl +:+ nl
          +:+ nl +:+ "# Counts analysis" +:+ nl +:+ nl
          +:+ "-> Sub-communicator led by rank 0:" +:+ nl
          +:+ tab +:+ "202 of the messages are of size between 0 and 199 bytes" +:+ nl).
Proof. by vm_compute. Qed.

(** ** Adequacy of the embedding *)

Section Adequacy.

(** The loops of [patternIsInList] and [sameListOfPatterns] over the entries
    of a map give the same result in every order of the entries. *)
Lemma existsb_perm {A} (f : A -> bool) l l' : l ≡ₚ l' -> existsb f l = existsb f l'.
Proof.
  induction 1 as [|x l l' _ IH|x y l|l l' l'' _ IH1 _ IH2]; simpl.
  - done.
  - by rewrite IH.
  - by destruct (f x), (f y).
  - congruence.
Qed.

Lemma sameListOfPatterns_entries_spec h ctx patterns2 entries :
  Forall (fun p => is_Some (h !! p)) patterns2 ->
  sameListOfPatterns_entries h ctx patterns2 entries
  = Some (forallb (fun e => negb (default 0 (patternIsInList h e.1 e.2 ctx patterns2) =? 0))
            entries).
Proof.
  intros Hv. induction entries as [|e entries IH]; simpl; [done|].
  destruct (patternIsInList_total h e.1 e.2 ctx patterns2 Hv) as [count ->]. simpl.
  destruct (count =? 0); simpl; [done|]. apply IH.
Qed.

Lemma forallb_perm {A} (f : A -> bool) l l' : l ≡ₚ l' -> forallb f l = forallb f l'.
Proof.
  induction 1 as [|x l l' _ IH|x y l|l l' l'' _ IH1 _ IH2]; simpl.
  - done.
  - by rewrite IH.
  - by destruct (f x), (f y).
  - congruence.
Qed.

Lemma sameListOfPatterns_entries_perm h ctx patterns2 entries entries' :
  Forall (fun p => is_Some (h !! p)) patterns2 ->
  entries ≡ₚ entries' ->
  sameListOfPatterns_entries h ctx patterns2 entries
  = sameListOfPatterns_entries h ctx patterns2 entries'.
Proof.
  intros Hv Hp. rewrite !sameListOfPatterns_entries_spec by done.
  by rewrite (forallb_perm _ _ _ Hp).
Qed.

(** A line that ends with a newline leaves a shorter text to read. *)
Lemma ReadString_nl_shorter s :
  let '(line, rest, found) := ReadString_nl s in
  (String.length rest <= String.length s)%nat
  /\ (found = true -> (String.length rest < String.length s)%nat).
Proof.
  induction s as [|c s IH]; simpl; [split; [lia|done]|].
  destruct (Ascii.eqb c "010"); simpl; [split; lia|].
  destruct (ReadString_nl s) as [[line rest] found]. destruct IH as [Hle Hlt].
  split; [lia|]. intros Hf. specialize (Hlt Hf). lia.
Qed.

Lemma ReadString_shorter reader line err rest :
  ReadString reader = (line, err, rest) ->
  (String.length rest <= String.length reader)%nat
  /\ (err = None -> (String.length rest < String.length reader)%nat).
Proof.
  unfold ReadString. pose proof (ReadString_nl_shorter reader) as H.
  destruct (ReadString_nl reader) as [[l r] found]. destruct H as [Hle Hlt].
  intros [= <- <- <-]. split; [done|]. destruct found; [auto|done].
Qed.

(** [getPatterns] returns, and does not give text back to the reader. *)
Lemma getPatterns_loop_total fuel : forall patterns reader,
  (String.length reader < fuel)%nat ->
  exists patterns' err rest,
    getPatterns_loop fuel patterns reader = Some (patterns', err, rest)
    /\ (String.length rest <= String.length reader)%nat.
Proof.
  induction fuel as [|fuel IH]; intros patterns reader Hfuel; [lia|].
  cbn [getPatterns_loop].
  destruct (ReadString reader) as [[line err] rest] eqn:Hread.
  apply ReadString_shorter in Hread as [Hle Hlt].
  destruct err as [e|].
  - destruct e; eauto 6.
  - specialize (Hlt eq_refl).
    destruct (_ || _); [eauto 6|]. destruct (String.prefix _ _); [eauto 6|].
    destruct (IH (patterns +:+ line) rest) as (p' & e' & r' & Hrun & Hr'); [lia|].
    exists p', e', r'. split; [done|lia].
Qed.

Lemma getPatterns_total reader :
  exists patterns err rest,
    getPatterns reader = Some (patterns, err, rest)
    /\ (String.length rest <= String.length reader)%nat.
Proof. apply getPatterns_loop_total. lia. Qed.

Variable notation_ConvertCompressedCallListToIntSlice : string -> list Z * option error.

Lemma GetPatternHeader_shorter reader callIDs callIDsStr rest :
  GetPatternHeader notation_ConvertCompressedCallListToIntSlice reader
  = (callIDs, callIDsStr, None, rest) ->
  (String.length rest < String.length reader)%nat.
Proof.
  unfold GetPatternHeader.
  destruct (ReadString reader) as [[line err] r1] eqn:H1.
  apply ReadString_shorter in H1 as [Hle1 Hlt1].
  destruct err as [e|]; [done|]. specialize (Hlt1 eq_refl).
  destruct (negb _); [done|].
  destruct (ReadString r1) as [[line2 err2] r2] eqn:H2.
  apply ReadString_shorter in H2 as [Hle2 Hlt2].
  destruct err2 as [e|]; [done|].
  destruct (negb _); [done|].
  destruct (notation_ConvertCompressedCallListToIntSlice _) as [ids err].
  intros [= _ _ _ <-]. lia.
Qed.

(** [GetCall] returns: its loops never run out of fuel. *)
Lemma GetCall_loop_total fuel : forall path callNum reader,
  (String.length reader < fuel)%nat ->
  is_Some (GetCall_loop notation_ConvertCompressedCallListToIntSlice fuel path callNum reader).
Proof.
  induction fuel as [|fuel IH]; intros path callNum reader Hfuel; [lia|].
  cbn [GetCall_loop].
  destruct (GetPatternHeader _ reader) as [[[callIDs str] err] rest] eqn:Hhdr.
  destruct err as [e|]; [by destruct e|].
  apply GetPatternHeader_shorter in Hhdr.
  destruct (getPatterns_total rest) as (p & e & r & Hget & Hr). rewrite Hget. simpl.
  destruct (existsb _ callIDs); destruct e; try done.
  apply IH. lia.
Qed.

Lemma GetCall_total fs dir jobid rank callNum :
  is_Some (GetCall notation_ConvertCompressedCallListToIntSlice fs dir jobid rank callNum).
Proof.
  unfold GetCall. destruct (fs !! _) as [text|]; [|done].
  destruct (ReadString text) as [[line err] reader].
  destruct err; [done|]. destruct (negb _); [done|].
  apply GetCall_loop_total. lia.
Qed.

End Adequacy.

(** * Further properties of the embedded code *)

(** ** Signature comparison *)

(** X1.  [CompareCallPatterns] answers [true] exactly when the two map values
    have the same entries and are both nil or both non-nil: a nil map and an
    empty, allocated map are told apart although both have length 0. *)
Theorem CompareCallPatterns_decides_equality :
  (forall p1 p2 : IntMap, CompareCallPatterns p1 p2 = true <-> p1 = p2)
  /\ (forall g1 g2 : gmap Z Z,
        CompareCallPatterns (Some g1) (Some g2) = true <-> forall k, g1 !! k = g2 !! k)
  /\ CompareCallPatterns None (Some ∅) = false
  /\ CompareCallPatterns (Some ∅) None = false.
Proof.
  split; [apply CompareCallPatterns_eq|]. split; [|split; reflexivity].
  intros g1 g2. rewrite CompareCallPatterns_eq. split.
  - by intros [= ->].
  - intros Hk. f_equal. by apply map_eq.
Qed.

(** ** [addPattern] and the order of the send signature *)

(** X2.  Whatever order the runtime picks to visit the entries of the send
    signature in the classification loop, [addPattern] returns the same
    collection and leaves the same store. *)
Theorem addPattern_independent_of_iteration_order
    (order1 order2 : list (Z * Z)) (callNum : Z) (s r : IntMap) (d : Data)
    (h : list CallData) :
  order1 ≡ₚ range_map s -> order2 ≡ₚ range_map s ->
  addPattern_in_order order1 callNum s r d h = addPattern_in_order order2 callNum s r d h.
Proof.
  intros H1 H2. unfold addPattern_in_order, bind.
  destruct (addPattern_scan callNum s r (AllPatterns d) h) as [[[] h']|]; try done.
  unfold new, ret. do 2 f_equal. f_equal.
  apply classify_order_irrelevant. by rewrite H1, H2.
Qed.

Lemma addPattern_independent_of_iteration_order_witness :
  addPattern_in_order (range_map Sample.mixed) 0 Sample.mixed Sample.mixed zero_Data []
  = addPattern_in_order (reverse (range_map Sample.mixed)) 0 Sample.mixed Sample.mixed
      zero_Data [].
Proof.
  apply addPattern_independent_of_iteration_order.
  - reflexivity.
  - apply reverse_Permutation.
Defined.

(** ** Invariants of a collection *)

(** X3.  After any sequence of [addPattern] calls on a zero collection (as
    many calls as fit in an [int]) the run has not panicked and: the
    addresses of [AllPatterns] are distinct and allocated; every bucket has a
    non-empty call list and a hit count equal to its length; no two buckets
    carry the same signature pair; every address in [OneToN], [NToN] or
    [NToOne] is an address of [AllPatterns]; [Empty] is untouched; there are
    at most as many buckets as calls. *)
Theorem addPatterns_keeps_collection_invariants (h0 : list CallData)
    (calls : list (Z * IntMap * IntMap)) :
  Z.of_nat (length calls) <= GoInt.max_int ->
  exists d h bs,
    addPatterns calls zero_Data h0 = Some (d, h)
    /\ NoDup (AllPatterns d)
    /\ buckets_at h (AllPatterns d) bs
    /\ Forall (fun b => Count b = Z.of_nat (length (Calls b)) /\ 1 <= Count b) bs
    /\ NoDup ((fun b => (Send b, Recv b)) <$> bs)
    /\ (forall p, p ∈ OneToN d \/ p ∈ NToN d \/ p ∈ NToOne d -> p ∈ AllPatterns d)
    /\ Empty d = []
    /\ (length (AllPatterns d) <= length calls)%nat.
Proof.
  intros Hbound.
  destruct (addPatterns_spec calls zero_Data h0 [])
    as (d & h & Hrun & Hnd & Hrep & Hemp); [constructor|constructor|].
  destruct (views_mirror_all calls zero_Data h0 []) as (d' & h' & Hrun' & Hinv).
  { constructor. }
  { constructor. }
  { intros q. split; [by intros ?%elem_of_nil|by intros _]. }
  rewrite Hrun in Hrun'. injection Hrun' as <- <-.
  pose proof (records_all calls Hbound) as (Hsigs & Hall & Hcov).
  exists d, h, (addOrMerge_all calls []).
  split; [done|]. split; [done|]. split; [done|]. split.
  { eapply Forall_impl; [exact Hall|]. intros b (Hcalls & Hcount & Hne). simpl.
    split; [done|]. rewrite Hcount. destruct (Calls b); [done|]. simpl. lia. }
  split; [done|]. split.
  { intros p Hp. destruct (decide (p ∈ AllPatterns d)) as [|Hnotin]; [done|].
    destruct (proj2 (Hinv p) Hnotin) as (H1 & H2 & H3).
    destruct Hp as [Hp|[Hp|Hp]]; apply refs_pos in Hp; lia. }
  split; [done|].
  rewrite (buckets_at_length _ _ _ Hrep).
  assert (total_count (addOrMerge_all calls []) = Z.of_nat (length calls)) as Htot
    by by apply total_count_all.
  assert (forall bs, Forall (fun b => Calls b = calls_with (Send b) (Recv b) calls
                                      /\ Count b = Z.of_nat (length (Calls b))
                                      /\ Calls b <> []) bs ->
                     Z.of_nat (length bs) <= total_count bs) as Hle.
  { clear. induction 1 as [|b bs (_ & Hc & Hne) _ IH]; simpl; [done|].
    destruct (Calls b); [done|]. simpl in Hc. lia. }
  specialize (Hle _ Hall). lia.
Qed.

Lemma addPatterns_keeps_collection_invariants_witness :
  exists d h bs,
    addPatterns Sample.calls zero_Data [] = Some (d, h)
    /\ NoDup (AllPatterns d)
    /\ buckets_at h (AllPatterns d) bs
    /\ Forall (fun b => Count b = Z.of_nat (length (Calls b)) /\ 1 <= Count b) bs
    /\ NoDup ((fun b => (Send b, Recv b)) <$> bs)
    /\ (forall p, p ∈ OneToN d \/ p ∈ NToN d \/ p ∈ NToOne d -> p ∈ AllPatterns d)
    /\ Empty d = []
    /\ (length (AllPatterns d) <= length Sample.calls)%nat.
Proof.
  apply (addPatterns_keeps_collection_invariants [] Sample.calls). by vm_compute.
Defined.

(** ** The records of other collections *)

Section Frame_of_a_run.

Lemma addPatterns_frame calls (h0 : list CallData) (n0 : nat) : forall d h bs,
  NoDup (AllPatterns d) -> buckets_at h (AllPatterns d) bs ->
  (forall p, p ∈ AllPatterns d -> (n0 <= p)%nat) ->
  (forall q, (q < n0)%nat -> h !! q = h0 !! q) ->
  (n0 <= length h)%nat ->
  exists d' h',
    addPatterns calls d h = Some (d', h')
    /\ (forall q, (q < n0)%nat -> h' !! q = h0 !! q)
    /\ (length h <= length h')%nat.
Proof.
  induction calls as [|[[n s] r] calls IH]; intros d h bs Hnd Hrep Hge Hsame Hlen.
  - exists d, h. by simpl.
  - destruct (addPattern_spec n s r d h bs Hnd Hrep)
      as (d1 & h1 & Hrun & Hnd1 & Hrep1 & Hfr & _ & Hres).
    assert ((length h <= length h1)%nat
            /\ forall p, p ∈ AllPatterns d1 -> (n0 <= p)%nat) as [Hlen1 Hge1].
    { destruct (existsb _ bs).
      - destruct Hres as [-> ->]. split; [lia|done].
      - destruct Hres as [-> ->]. rewrite length_app. simpl. split; [lia|].
        intros p [Hp| ->%list_elem_of_singleton]%elem_of_app; [by apply Hge|lia]. }
    destruct (IH d1 h1 _ Hnd1 Hrep1 Hge1) as (d2 & h2 & Hrun2 & Hsame2 & Hlen2); [|lia|].
    { intros q Hq. rewrite Hfr; [by apply Hsame| |lia].
      intros Hin. specialize (Hge q Hin). lia. }
    exists d2, h2. simpl. unfold bind. rewrite Hrun. split; [done|]. split; [done|lia].
Qed.

End Frame_of_a_run.

(** X4.  Building a collection from the zero value never touches a record
    that was in the store before (the buckets of another group, say): the
    run does not panic, the store does not shrink, and every record that was
    allocated before the run is still there, unchanged. *)
Theorem addPatterns_leaves_existing_records (h0 : list CallData)
    (calls : list (Z * IntMap * IntMap)) :
  exists d h,
    addPatterns calls zero_Data h0 = Some (d, h)
    /\ (length h0 <= length h)%nat
    /\ forall q cd, h0 !! q = Some cd -> h !! q = Some cd.
Proof.
  destruct (addPatterns_frame calls h0 (length h0) zero_Data h0 [])
    as (d & h & Hrun & Hsame & Hlen); try done.
  { constructor. }
  { constructor. }
  { intros p Hp. by apply elem_of_nil in Hp. }
  exists d, h. split; [done|]. split; [done|].
  intros q cd Hq. rewrite Hsame; [done|]. by eapply lookup_lt_Some.
Qed.

(** ** What [Same] compares *)

Section Same_reading.

Lemma patternIsInList_spec h numPeers numRanks ctx ps bs :
  buckets_at h ps bs -> Forall (fun b => Count b <> 0) bs ->
  exists count,
    patternIsInList h numPeers numRanks ctx ps = Some count
    /\ (count <> 0 <-> has_rank_count ctx bs numRanks).
Proof.
  intros Hrep. induction Hrep as [|p b ps bs Hp Hrep IH]; intros Hnz.
  - exists 0. split; [done|]. split; [done|].
    intros (b & e & Hb & _). by apply elem_of_nil in Hb.
  - apply Forall_cons in Hnz as [Hb Hnz]. simpl. rewrite Hp. simpl.
    destruct (existsb _ _) eqn:Hex.
    + exists (Count b). split; [done|]. split; [|done]. intros _.
      apply existsb_exists in Hex as (e & He%list_elem_of_In & Hcond).
      apply andb_true_iff in Hcond as [_ Hv%Z.eqb_eq].
      exists b, e. split; [by left|]. split; [done|]. done.
    + destruct (IH Hnz) as (count & Hrun & Hiff). exists count. split; [done|].
      rewrite Hiff. split.
      * intros (b' & e & Hb' & He & Hv). exists b', e. split; [by right|done].
      * intros (b' & e & Hb' & He & Hv).
        apply elem_of_cons in Hb' as [->|Hb']; [|by exists b', e].
        exfalso. apply not_true_iff_false in Hex. apply Hex.
        apply existsb_exists. exists e. split; [by apply list_elem_of_In|].
        rewrite Z.eqb_refl. simpl. apply Z.eqb_eq. done.
Qed.

Lemma sameListOfPatterns_entries_reading h ctx ps2 bs2 entries :
  buckets_at h ps2 bs2 -> Forall (fun b => Count b <> 0) bs2 ->
  exists ok,
    sameListOfPatterns_entries h ctx ps2 entries = Some ok
    /\ (ok = true <-> forall e, e ∈ entries -> has_rank_count ctx bs2 e.2).
Proof.
  intros Hrep Hnz. induction entries as [|e entries IH]; simpl.
  - exists true. split; [done|]. split; [|done]. intros _ e He. by apply elem_of_nil in He.
  - destruct (patternIsInList_spec h e.1 e.2 ctx ps2 bs2 Hrep Hnz) as (count & -> & Hc).
    simpl. destruct (Z.eqb_spec count 0) as [->|Hne].
    + exists false. split; [done|]. split; [done|]. intros Hall.
      exfalso. apply (proj2 Hc); [|done]. apply Hall. by left.
    + destruct IH as (ok & Hrun & Hiff). exists ok. split; [done|]. rewrite Hiff.
      split.
      * intros Hall e' [->|He']%elem_of_cons; [by apply Hc|by apply Hall].
      * intros Hall e' He'. apply Hall. by right.
Qed.

Lemma sameListOfPatterns_pass_reading h ctx ps1 bs1 ps2 bs2 :
  buckets_at h ps1 bs1 -> buckets_at h ps2 bs2 -> Forall (fun b => Count b <> 0) bs2 ->
  exists ok,
    sameListOfPatterns_pass h ctx ps1 ps2 = Some ok
    /\ (ok = true <-> rank_counts_covered ctx bs1 bs2).
Proof.
  intros Hrep1 Hrep2 Hnz. induction Hrep1 as [|p b ps1 bs1 Hp Hrep1 IH]; simpl.
  - exists true. split; [done|]. split; [|done]. intros _ b e Hb. by apply elem_of_nil in Hb.
  - rewrite Hp. simpl.
    destruct (sameListOfPatterns_entries_reading h ctx ps2 bs2
                (range_map (if String.eqb ctx "SEND" then Send b else Recv b)) Hrep2 Hnz)
      as (ok & -> & Hok).
    simpl. destruct ok.
    + destruct IH as (ok' & Hrun & Hiff). exists ok'. split; [done|]. rewrite Hiff.
      split.
      * intros Hall b1 e [->|Hb1]%elem_of_cons He; [by apply Hok|by eapply Hall].
      * intros Hall b1 e Hb1 He. eapply Hall; [by right|done].
    + exists false. split; [done|]. split; [done|]. intros Hall.
      exfalso. assert (false = true); [|done]. apply Hok. intros e He.
      eapply Hall; [by left|done].
Qed.

(** [Same] against the value-level reading. *)
Lemma Same_decided h reference target bs1 bs2 :
  buckets_at h (AllPatterns reference) bs1 ->
  buckets_at h (AllPatterns target) bs2 ->
  Forall (fun b => Count b <> 0) bs2 ->
  exists same,
    Same h reference target = Some same
    /\ (same = true <->
        rank_counts_covered "SEND" bs1 bs2 /\ rank_counts_covered "RECV" bs1 bs2).
Proof.
  intros Hrep1 Hrep2 Hnz. unfold Same, sameListOfPatterns.
  destruct (sameListOfPatterns_pass_reading h "SEND" _ _ _ _ Hrep1 Hrep2 Hnz)
    as (ok1 & -> & H1).
  destruct (sameListOfPatterns_pass_reading h "RECV" _ _ _ _ Hrep1 Hrep2 Hnz)
    as (ok2 & Hrun2 & H2).
  simpl. destruct ok1.
  - exists ok2. split; [done|]. rewrite H2. split; [|by intros [_ ?]].
    intros Hr. split; [by apply H1|done].
  - exists false. split; [done|]. split; [done|]. intros [Hs _].
    by apply H1 in Hs.
Qed.

End Same_reading.

(** X5.  On two collections whose buckets are allocated, the target's with
    non-zero hit counts, [Same] returns without panic, and it returns [true]
    exactly when every rank count that occurs in a send signature of the
    reference occurs in some send signature of the target, and likewise for
    the receive signatures.  Peer counts and hit counts play no part. *)
Theorem Same_compares_rank_counts_only (h : list CallData) (reference target : Data)
    (bs1 bs2 : list CallData) :
  buckets_at h (AllPatterns reference) bs1 ->
  buckets_at h (AllPatterns target) bs2 ->
  Forall (fun b => Count b <> 0) bs2 ->
  exists same,
    Same h reference target = Some same
    /\ (same = true <->
        rank_counts_covered "SEND" bs1 bs2 /\ rank_counts_covered "RECV" bs1 bs2).
Proof.
  intros Hrep1 Hrep2 Hnz. unfold Same, sameListOfPatterns.
  destruct (sameListOfPatterns_pass_reading h "SEND" _ _ _ _ Hrep1 Hrep2 Hnz)
    as (ok1 & -> & H1).
  destruct (sameListOfPatterns_pass_reading h "RECV" _ _ _ _ Hrep1 Hrep2 Hnz)
    as (ok2 & Hrun2 & H2).
  simpl. destruct ok1.
  - exists ok2. split; [done|]. rewrite H2. split; [|by intros [_ ?]].
    intros Hr. split; [by apply H1|done].
  - exists false. split; [done|]. split; [done|]. intros [Hs _].
    by apply H1 in Hs.
Qed.

Lemma Same_compares_rank_counts_only_witness :
  exists same,
    Same SampleGroups.store SampleGroups.group_a SampleGroups.group_b = Some same
    /\ (same = true <->
        rank_counts_covered "SEND"
          [mkCallData SampleGroups.three_peers SampleGroups.three_peers 1 [0]]
          [mkCallData SampleGroups.five_peers SampleGroups.five_peers 1 [0]]
        /\ rank_counts_covered "RECV"
             [mkCallData SampleGroups.three_peers SampleGroups.three_peers 1 [0]]
             [mkCallData SampleGroups.five_peers SampleGroups.five_peers 1 [0]]).
Proof.
  apply (Same_compares_rank_counts_only SampleGroups.store SampleGroups.group_a
           SampleGroups.group_b).
  - repeat constructor.
  - repeat constructor.
  - repeat constructor. by vm_compute.
Defined.

(** X6.  On collections built by [addPattern] (allocated buckets, non-zero
    hit counts) [Same] is reflexive and transitive. *)
Theorem Same_is_a_preorder (h : list CallData) (d1 d2 d3 : Data)
    (bs1 bs2 bs3 : list CallData) :
  buckets_at h (AllPatterns d1) bs1 -> Forall (fun b => Count b <> 0) bs1 ->
  buckets_at h (AllPatterns d2) bs2 -> Forall (fun b => Count b <> 0) bs2 ->
  buckets_at h (AllPatterns d3) bs3 -> Forall (fun b => Count b <> 0) bs3 ->
  Same h d1 d1 = Some true
  /\ (Same h d1 d2 = Some true -> Same h d2 d3 = Some true -> Same h d1 d3 = Some true).
Proof.
  intros R1 N1 R2 N2 R3 N3.
  destruct (Same_decided h d1 d1 _ _ R1 R1 N1) as (s11 & H11 & I11).
  destruct (Same_decided h d1 d2 _ _ R1 R2 N2) as (s12 & H12 & I12).
  destruct (Same_decided h d2 d3 _ _ R2 R3 N3) as (s23 & H23 & I23).
  destruct (Same_decided h d1 d3 _ _ R1 R3 N3) as (s13 & H13 & I13).
  split.
  - rewrite H11. f_equal. apply I11. split; intros b e Hb He; by exists b, e.
  - rewrite H12, H23, H13. intros [= ->] [= ->]. f_equal.
    destruct (proj1 I12 eq_refl) as [S12 Rc12]. destruct (proj1 I23 eq_refl) as [S23 Rc23].
    apply I13. split.
    + intros b e Hb He. destruct (S12 b e Hb He) as (b2 & e2 & Hb2 & He2 & Hv).
      rewrite <- Hv. by eapply S23.
    + intros b e Hb He. destruct (Rc12 b e Hb He) as (b2 & e2 & Hb2 & He2 & Hv).
      rewrite <- Hv. by eapply Rc23.
Qed.

Lemma Same_is_a_preorder_witness :
  Same SampleGroups.store SampleGroups.group_a SampleGroups.group_a = Some true
  /\ (Same SampleGroups.store SampleGroups.group_a SampleGroups.group_b = Some true ->
      Same SampleGroups.store SampleGroups.group_b SampleGroups.group_c = Some true ->
      Same SampleGroups.store SampleGroups.group_a SampleGroups.group_c = Some true).
Proof.
  apply (Same_is_a_preorder SampleGroups.store SampleGroups.group_a SampleGroups.group_b
           SampleGroups.group_c
           [mkCallData SampleGroups.three_peers SampleGroups.three_peers 1 [0]]
           [mkCallData SampleGroups.five_peers SampleGroups.five_peers 1 [0]]
           [mkCallData SampleGroups.three_peers SampleGroups.three_peers 1 [0];
            mkCallData SampleGroups.five_peers SampleGroups.five_peers 1 [0]]);
    repeat constructor; by vm_compute.
Defined.

(** ** The aggregator at the edges *)

Section Runs.

Lemma Runs_ret {A} (a : A) : Runs (ret a).
Proof. intros w. by eexists. Qed.

Lemma Runs_bind {A B} (f : IO A) (k : A -> IO B) :
  Runs f -> (forall a, Runs (k a)) -> Runs (bind f k).
Proof.
  intros Hf Hk w. unfold bind. destruct (Hf w) as [[a w1] ->]. apply Hk.
Qed.

Lemma Runs_try (f k : IO (option error)) :
  Runs f -> Runs k ->
  Runs (bind f (fun err => match err with Some e => ret (Some e) | None => k end)).
Proof. intros Hf Hk. apply Runs_bind; [done|]. intros [e|]; [apply Runs_ret|done]. Qed.

Lemma Runs_WriteString fd s : Runs (WriteString fd s).
Proof. intros w. unfold WriteString. destruct (quota w); by eexists. Qed.

Lemma Runs_for_each {A} (body : A -> IO (option error)) l :
  Forall (fun x => Runs (body x)) l -> Runs (for_each body l).
Proof.
  induction 1 as [|x l Hx _ IH]; simpl; [apply Runs_ret|]. by apply Runs_try.
Qed.

Lemma Runs_for_each_num {A} (body : Z -> A -> IO (option error)) l :
  Forall (fun x => forall n, Runs (body n x)) l ->
  forall num, Runs (for_each_num body num l).
Proof.
  induction 1 as [|x l Hx _ IH]; intros num; simpl; [apply Runs_ret|].
  apply Runs_try; [apply Hx|apply IH].
Qed.

Variable range_order : nat -> IntMap -> list (Z * Z).

Lemma Runs_range m : Runs (range range_order m).
Proof. intros w. by eexists. Qed.

Lemma Runs_deref h p : is_Some (h !! p) -> Runs (deref h p).
Proof. intros [cd Hcd] w. unfold deref. rewrite Hcd. by eexists. Qed.

Lemma Runs_writeDataToFile h fd p :
  is_Some (h !! p) -> Runs (writeDataToFile range_order h fd p).
Proof.
  intros Hp. unfold writeDataToFile.
  apply Runs_bind; [by apply Runs_deref|]. intros c.
  apply Runs_bind; [apply Runs_range|]. intros sends.
  apply Runs_try.
  { apply Runs_for_each, Forall_forall. intros; apply Runs_WriteString. }
  apply Runs_bind; [apply Runs_range|]. intros recvs.
  apply Runs_try; [|apply Runs_ret].
  apply Runs_for_each, Forall_forall. intros; apply Runs_WriteString.
Qed.

Lemma Runs_WriteSubcommPatterns title view h fd r0 ranks stats patterns :
  (forall r, Forall (fun p => is_Some (h !! p)) (view (default zero_Data (patterns !! r)))) ->
  Runs (WriteSubcommPatterns range_order title view h fd (r0 :: ranks) stats patterns).
Proof.
  intros Hv. unfold WriteSubcommPatterns.
  apply Runs_try; [apply Runs_WriteString|].
  apply Runs_try; [apply Runs_WriteString|].
  apply Runs_bind; [apply Runs_ret|]. intros r.
  apply Runs_try.
  { apply Runs_for_each. eapply Forall_impl; [apply Hv|].
    intros p Hp. by apply Runs_writeDataToFile. }
  apply Runs_try; [apply Runs_WriteString|].
  apply Runs_try; [|apply Runs_ret].
  apply Runs_for_each, Forall_forall. intros r' _.
  apply Runs_try; [apply Runs_WriteString|].
  apply Runs_for_each_num. eapply Forall_impl; [apply Hv|].
  intros p Hp n. apply Runs_bind; [by apply Runs_deref|]. intros c.
  apply Runs_WriteString.
Qed.

End Runs.

(** X7.  With no group at all (the two maps are empty, as when no count file
    was found) the aggregator passes its first loop, creates the report
    file, writes the title and then panics on [ranks[0]]: it never returns.
    This needs the file system to accept the two operations; when it
    refuses the first or the second, the function returns the I/O error. *)
Theorem AnalyzeSubCommsResults_panics_without_groups
    (range_order : nat -> IntMap -> list (Z * Z))
    (format_MulticommHighlightFilePrefix dir : string) (h : list CallData) (w : World) :
  let run :=
    AnalyzeSubCommsResults range_order format_MulticommHighlightFilePrefix h [] []
      dir ∅ ∅ w in
  let path := filepath_Join dir (format_MulticommHighlightFilePrefix +:+ ".md") in
  ((2 <= quota w)%nat -> run = None)
  /\ (quota w = 1%nat ->
      run = Some (Some (io_failure path),
                  mkWorld (<[path := ""]> (files w)) 0 (tick w)))
  /\ (quota w = 0%nat -> run = Some (Some (io_failure path), w)).
Proof.
  cbv zeta. unfold AnalyzeSubCommsResults, AnalyzeSubCommsResults_report. simpl.
  unfold bind, os_OpenFile, WriteString. split; [|split].
  - intros Hq. destruct (quota w) as [|[|q]]; [lia|lia|]. reflexivity.
  - intros ->. reflexivity.
  - intros ->. reflexivity.
Qed.

(** X8.  With at least one rank in the statistics and the buckets of the
    topology views allocated, writing the report never panics.  As soon as
    the file system accepts the first operation the report file exists
    afterwards, its previous text discarded, whether the function then
    returns an error or not; when it refuses the first operation the world
    is unchanged and the error is returned. *)
Theorem AnalyzeSubCommsResults_report_returns
    (range_order : nat -> IntMap -> list (Z * Z))
    (format_MulticommHighlightFilePrefix dir : string) (h : list CallData)
    (ranks_order : list Z) (stats : gmap Z SendRecvStats) (allPatterns : gmap Z Data)
    (w : World) :
  ranks_order <> [] ->
  map_Forall (fun _ d => views_allocated h d) allPatterns ->
  let path := filepath_Join dir (format_MulticommHighlightFilePrefix +:+ ".md") in
  exists err w',
    AnalyzeSubCommsResults_report range_order format_MulticommHighlightFilePrefix h
      ranks_order dir stats allPatterns w = Some (err, w')
    /\ ((1 <= quota w)%nat -> exists text, files w' !! path = Some text)
    /\ (quota w = 0%nat -> err = Some (io_failure path) /\ w' = w).
Proof.
  intros Hne Hv path.
  assert (forall view, (view = NToN \/ view = OneToN \/ view = NToOne) ->
            forall r, Forall (fun p => is_Some (h !! p))
                        (view (default zero_Data (allPatterns !! r)))) as Hviews.
  { intros view Hview r. destruct (allPatterns !! r) as [d|] eqn:Hd; simpl.
    - specialize (Hv r d Hd). unfold views_allocated in Hv.
      rewrite !Forall_app in Hv. destruct Hv as (H1 & H2 & H3).
      by destruct Hview as [->|[->| ->]].
    - by destruct Hview as [->|[->| ->]]. }
  unfold AnalyzeSubCommsResults_report. fold path.
  unfold bind at 1. unfold os_OpenFile.
  destruct (quota w) as [|q] eqn:Hq.
  { exists (Some (io_failure path)), w. split; [done|]. split; [lia|done]. }
  set (w1 := mkWorld (<[path := ""]> (files w)) q (tick w)).
  assert (merge_sort Z.le ranks_order <> []) as Hsorted.
  { intros Hnil. apply Hne. apply Permutation_nil_r.
    rewrite <- Hnil. symmetry. apply merge_sort_Permutation. }
  destruct (merge_sort Z.le ranks_order) as [|r0 ranks] eqn:Hranks; [done|].
  match goal with |- context [?k w1] =>
    assert (Runs k) as Hruns; [|assert (Grows path k) as Hgrows]
  end.
  - apply Runs_try; [apply Runs_WriteString|].
    apply Runs_bind; [apply Runs_ret|]. intros r.
    apply Runs_try.
    { destruct (0 <? _)%nat; [|apply Runs_ret].
      apply Runs_WriteSubcommPatterns. apply Hviews. auto. }
    apply Runs_try.
    { destruct (0 <? _)%nat; [|apply Runs_ret].
      apply Runs_WriteSubcommPatterns. apply Hviews. auto. }
    apply Runs_try.
    { destruct (0 <? _)%nat; [|apply Runs_ret].
      apply Runs_WriteSubcommPatterns. apply Hviews. auto. }
    apply Runs_try; [apply Runs_WriteString|].
    apply Runs_try.
    { apply Runs_for_each, Forall_forall. intros rank _.
      cbv zeta. destruct (0 <? _)%nat; [apply Runs_WriteString|apply Runs_ret]. }
    apply Runs_try; [apply Runs_WriteString|].
    apply Runs_try; [|apply Runs_ret].
    apply Runs_for_each, Forall_forall. intros rank _.
    apply Runs_try; [apply Runs_WriteString|].
    apply Runs_for_each, Forall_forall. intros; apply Runs_WriteString.
  - apply Grows_try; [apply Grows_WriteString|].
    apply Grows_bind; [apply Grows_ret|]. intros r.
    assert (forall title view,
              Grows path (if (0 <? length (view (default zero_Data (allPatterns !! r))))%nat
                          then WriteSubcommPatterns range_order title view h path
                                 (r0 :: ranks) stats allPatterns
                          else ret None)) as Hsec.
    { intros title view. destruct (0 <? _)%nat; [|apply Grows_ret].
      unfold WriteSubcommPatterns.
      apply Grows_try; [apply Grows_WriteString|].
      apply Grows_try; [apply Grows_WriteString|].
      apply Grows_bind; [apply Grows_ret|]. intros r1.
      apply Grows_try; [apply Grows_for_each; intros; apply Grows_writeDataToFile|].
      apply Grows_try; [apply Grows_WriteString|].
      apply Grows_try; [|apply Grows_ret].
      apply Grows_for_each. intros r2.
      apply Grows_try; [apply Grows_WriteString|].
      apply Grows_for_each_num. intros num p.
      apply Grows_bind; [apply Grows_deref|]. intros c. apply Grows_WriteString. }
    apply Grows_try; [apply Hsec|].
    apply Grows_try; [apply Hsec|].
    apply Grows_try; [apply Hsec|].
    apply Grows_try; [apply Grows_WriteString|].
    apply Grows_try.
    { apply Grows_for_each. intros rank. cbv zeta.
      destruct (0 <? _)%nat; [apply Grows_WriteString|apply Grows_ret]. }
    apply Grows_try; [apply Grows_WriteString|].
    apply Grows_try; [|apply Grows_ret].
    apply Grows_for_each. intros rank.
    apply Grows_try; [apply Grows_WriteString|].
    apply Grows_for_each. intros; apply Grows_WriteString.
  - destruct (Hruns w1) as [[err w'] Hrun]. exists err, w'. split; [exact Hrun|].
    split; [|lia]. intros _.
    destruct (Hgrows _ _ _ Hrun "") as [more Hmore]; [apply lookup_insert_eq|].
    by exists more.
Qed.

Lemma AnalyzeSubCommsResults_report_returns_witness :
  let path := filepath_Join "out" ("multicomm" +:+ ".md") in
  exists err w',
    AnalyzeSubCommsResults_report SampleReport.forwards "multicomm" SampleReport.store
      [0] "out" SampleReport.stats SampleReport.allPatterns (mkWorld ∅ 3 0)
    = Some (err, w')
    /\ ((1 <= 3)%nat -> exists text, files w' !! path = Some text)
    /\ (3%nat = 0%nat -> err = Some (io_failure path) /\ w' = mkWorld ∅ 3 0).
Proof.
  apply (AnalyzeSubCommsResults_report_returns SampleReport.forwards "multicomm" "out"
           SampleReport.store [0] SampleReport.stats SampleReport.allPatterns
           (mkWorld ∅ 3 0)).
  - done.
  - apply map_Forall_singleton. repeat constructor; by eexists.
Defined.

(** ** Reading the blocks of a patterns file *)

Section Reading.

Lemma length_append s t :
  String.length (s +:+ t) = (String.length s + String.length t)%nat.
Proof. induction s as [|c s IH]; [done|]. rewrite append_cons. simpl. by rewrite IH. Qed.

Lemma ReadString_nl_no_newline a :
  no_newline a = true -> ReadString_nl a = (a, EmptyString, false).
Proof.
  induction a as [|c a IH]; [done|]. simpl. intros [Hc Ha]%andb_true_iff.
  destruct (Ascii.eqb c "010"); [done|]. by rewrite IH.
Qed.

Lemma data_line_facts l :
  data_line l = true ->
  no_newline l = true /\ String.eqb (l +:+ nl) "" = false
  /\ String.eqb (l +:+ nl) nl = false
  /\ String.prefix "Alltoallv calls: " (l +:+ nl) = false.
Proof.
  unfold data_line. rewrite !andb_true_iff, !negb_true_iff.
  intros [[Hnl Hne] Hpre]. split; [done|]. split; [by destruct l|].
  split; [|done]. destruct l as [|c l]; [done|].
  rewrite append_cons. apply String.eqb_neq. intros [= -> Hl].
  simpl in Hnl. done.
Qed.

(** [getPatterns] on data lines followed by an empty line. *)
Lemma getPatterns_loop_lines lines : forall fuel acc rest,
  Forall (fun l => data_line l = true) lines ->
  (String.length (lines_text lines +:+ nl +:+ rest) < fuel)%nat ->
  getPatterns_loop fuel acc (lines_text lines +:+ nl +:+ rest)
  = Some (acc +:+ lines_text lines, None, rest).
Proof.
  induction lines as [|l lines IH]; intros fuel acc rest Hall Hfuel.
  - destruct fuel as [|fuel]; [lia|]. cbn [getPatterns_loop].
    change (lines_text [] +:+ nl +:+ rest) with ("" +:+ nl +:+ rest).
    rewrite ReadString_line by done. by rewrite append_nil_r.
  - apply Forall_cons in Hall as [Hl Hall].
    destruct (data_line_facts l Hl) as (Hnl & He1 & He2 & Hpre).
    destruct fuel as [|fuel]; [lia|]. cbn [getPatterns_loop].
    unfold lines_text in *. rewrite fmap_cons, join_cons, !append_assoc in *.
    rewrite ReadString_line by done. rewrite He1, He2, Hpre. cbn [orb].
    rewrite IH; [by rewrite !append_assoc|done|].
    rewrite !length_append in Hfuel. rewrite !length_append. simpl in *. lia.
Qed.

(** [getPatterns] on data lines followed by the end of the text, possibly
    after some characters without newline. *)
Lemma getPatterns_loop_eof lines : forall fuel acc tail,
  Forall (fun l => data_line l = true) lines ->
  no_newline tail = true ->
  (String.length (lines_text lines +:+ tail) < fuel)%nat ->
  getPatterns_loop fuel acc (lines_text lines +:+ tail)
  = Some (acc +:+ lines_text lines, None, EmptyString).
Proof.
  induction lines as [|l lines IH]; intros fuel acc tail Hall Htail Hfuel.
  - destruct fuel as [|fuel]; [lia|]. cbn [getPatterns_loop].
    change (lines_text [] +:+ tail) with tail.
    unfold ReadString. rewrite ReadString_nl_no_newline by done.
    by rewrite append_nil_r.
  - apply Forall_cons in Hall as [Hl Hall].
    destruct (data_line_facts l Hl) as (Hnl & He1 & He2 & Hpre).
    destruct fuel as [|fuel]; [lia|]. cbn [getPatterns_loop].
    unfold lines_text in *. rewrite fmap_cons, join_cons, !append_assoc in *.
    rewrite ReadString_line by done. rewrite He1, He2, Hpre. cbn [orb].
    rewrite IH; [by rewrite !append_assoc|done|done|].
    rewrite !length_append in Hfuel. rewrite !length_append. simpl in *. lia.
Qed.

(** [getPatterns] on data lines followed by a line that starts like the
    second line of a header. *)
Lemma getPatterns_loop_compromised lines : forall fuel acc hl rest,
  Forall (fun l => data_line l = true) lines ->
  no_newline hl = true ->
  String.prefix "Alltoallv calls: " (hl +:+ nl) = true ->
  (String.length (lines_text lines +:+ hl +:+ nl +:+ rest) < fuel)%nat ->
  getPatterns_loop fuel acc (lines_text lines +:+ hl +:+ nl +:+ rest)
  = Some (acc +:+ lines_text lines, Some (parser_compromised (hl +:+ nl)), rest).
Proof.
  induction lines as [|l lines IH]; intros fuel acc hl rest Hall Hhl Hpre Hfuel.
  - destruct fuel as [|fuel]; [lia|]. cbn [getPatterns_loop].
    change (lines_text [] +:+ ?x) with x.
    rewrite ReadString_line by done. rewrite Hpre.
    assert (String.eqb (hl +:+ nl) "" || String.eqb (hl +:+ nl) nl = false) as ->.
    { destruct hl as [|c hl]; [done|]. rewrite append_cons.
      apply orb_false_intro; [done|]. apply String.eqb_neq. intros [= -> Hl].
      simpl in Hhl. done. }
    by rewrite append_nil_r.
  - apply Forall_cons in Hall as [Hl Hall].
    destruct (data_line_facts l Hl) as (Hnl & He1 & He2 & Hpre').
    destruct fuel as [|fuel]; [lia|]. cbn [getPatterns_loop].
    unfold lines_text in *. rewrite fmap_cons, join_cons, !append_assoc in *.
    rewrite ReadString_line by done. rewrite He1, He2, Hpre'. cbn [orb].
    rewrite IH; [by rewrite !append_assoc|done|done|done|].
    rewrite !length_append in Hfuel. rewrite !length_append. simpl in *. lia.
Qed.

End Reading.

(** X9.  [getPatterns] returns the lines it reads up to, and without, the
    first empty line, and leaves the reader after that line.  When the text
    ends before an empty line it returns the complete lines and silently
    drops the characters after the last newline.  When it meets a line that
    starts with ["Alltoallv calls: "] it returns an error with the lines
    read so far.  (Lines: not empty, not starting like that header line.) *)
Theorem getPatterns_reads_lines_up_to_empty_line (lines : list string)
    (rest tail ids : string) :
  Forall (fun l => data_line l = true) lines ->
  no_newline tail = true -> no_newline ids = true ->
  getPatterns (lines_text lines +:+ nl +:+ rest) = Some (lines_text lines, None, rest)
  /\ getPatterns (lines_text lines +:+ tail) = Some (lines_text lines, None, EmptyString)
  /\ getPatterns (lines_text lines +:+ ("Alltoallv calls: " +:+ ids) +:+ nl +:+ rest)
     = Some (lines_text lines,
             Some (parser_compromised (("Alltoallv calls: " +:+ ids) +:+ nl)), rest).
Proof.
  intros Hall Htail Hids. unfold getPatterns. split; [|split].
  - rewrite getPatterns_loop_lines by (done || lia). by rewrite append_nil_l.
  - rewrite getPatterns_loop_eof by (done || lia). by rewrite append_nil_l.
  - rewrite getPatterns_loop_compromised; [by rewrite append_nil_l|done| | |lia].
    + rewrite no_newline_app, Hids. reflexivity.
    + rewrite append_assoc. apply prefix_append.
Qed.

Lemma getPatterns_reads_lines_up_to_empty_line_witness :
  getPatterns (lines_text ["2 ranks sent to 2 other ranks"; "2 ranks recv'd from 2 other ranks"]
               +:+ nl +:+ "## Pattern #1")
  = Some (lines_text ["2 ranks sent to 2 other ranks"; "2 ranks recv'd from 2 other ranks"],
          None, "## Pattern #1")
  /\ getPatterns (lines_text ["2 ranks sent to 2 other ranks";
                              "2 ranks recv'd from 2 other ranks"] +:+ "4 ranks")
     = Some (lines_text ["2 ranks sent to 2 other ranks"; "2 ranks recv'd from 2 other ranks"],
             None, EmptyString)
  /\ getPatterns (lines_text ["2 ranks sent to 2 other ranks";
                              "2 ranks recv'd from 2 other ranks"]
                  +:+ ("Alltoallv calls: " +:+ "0-3") +:+ nl +:+ "## Pattern #1")
     = Some (lines_text ["2 ranks sent to 2 other ranks"; "2 ranks recv'd from 2 other ranks"],
             Some (parser_compromised (("Alltoallv calls: " +:+ "0-3") +:+ nl)),
             "## Pattern #1").
Proof.
  apply (getPatterns_reads_lines_up_to_empty_line
           ["2 ranks sent to 2 other ranks"; "2 ranks recv'd from 2 other ranks"]
           "## Pattern #1" "4 ranks" "0-3").
  - repeat constructor.
  - reflexivity.
  - reflexivity.
Defined.

Section Reading_blocks.

Variable convert : string -> list Z * option error.

Lemma TrimLeft_call_list ids :
  call_list_text ids = true ->
  TrimLeft (("Alltoallv calls: " +:+ ids) +:+ nl) "Alltoallv calls: " = ids +:+ nl.
Proof.
  unfold call_list_text. intros [_ Hhead]%andb_true_iff.
  rewrite append_assoc, !append_cons, append_nil_l.
  destruct ids as [|c ids]; [reflexivity|].
  rewrite append_cons.
  change (TrimLeft (String c (ids +:+ nl)) "Alltoallv calls: "
          = String c (ids +:+ nl)).
  cbn [TrimLeft]. apply negb_true_iff in Hhead. by rewrite Hhead.
Qed.

Lemma TrimRight_newline ids :
  no_newline ids = true -> TrimRight (ids +:+ nl) nl = ids.
Proof.
  induction ids as [|c ids IH]; [reflexivity|].
  cbn [no_newline]. intros [Hc Hids]%andb_true_iff.
  rewrite append_cons. cbn [TrimRight]. rewrite IH by done.
  destruct ids as [|c' ids]; [|done].
  unfold nl. cbn [in_cutset]. apply negb_true_iff in Hc. by rewrite Hc.
Qed.

(** The header parser on a header whose two lines follow one another. *)
Lemma GetPatternHeader_adjacent_lines title ids rest :
  no_newline title = true -> call_list_text ids = true ->
  GetPatternHeader convert
    (("## Pattern #" +:+ title) +:+ nl +:+ ("Alltoallv calls: " +:+ ids) +:+ nl +:+ rest)
  = ((convert ids).1, ids, (convert ids).2, rest).
Proof.
  intros Htitle Hids.
  assert (no_newline ids = true) as Hnl
    by (unfold call_list_text in Hids; by apply andb_true_iff in Hids as [? _]).
  unfold GetPatternHeader.
  rewrite ReadString_line by (rewrite no_newline_app, Htitle; reflexivity).
  rewrite append_assoc, prefix_append. cbn [negb].
  rewrite ReadString_line by (rewrite no_newline_app, Hnl; reflexivity).
  rewrite (append_assoc "Alltoallv calls: "), prefix_append. cbn [negb].
  rewrite <- (append_assoc "Alltoallv calls: ").
  rewrite TrimLeft_call_list, TrimRight_newline by done.
  by destruct (convert ids).
Qed.

Lemma block_text_length b :
  (0 < String.length (block_text b))%nat.
Proof. unfold block_text. rewrite append_assoc, append_cons. simpl. lia. Qed.

(** The loop of [GetCall] over well-formed blocks. *)
Lemma GetCall_loop_blocks path callNum blocks : forall fuel,
  Forall (block_ok convert) blocks ->
  (String.length (join (block_text <$> blocks)) < fuel)%nat ->
  GetCall_loop convert fuel path callNum (join (block_text <$> blocks))
  = Some match find_block convert callNum blocks with
         | Some b => (lines_text (block_lines b), None)
         | None => (EmptyString, Some (unable_to_find_call callNum))
         end.
Proof.
  induction blocks as [|b blocks IH]; intros fuel Hok Hfuel.
  - destruct fuel as [|fuel]; [simpl in Hfuel; lia|]. reflexivity.
  - apply Forall_cons in Hok as [(Htitle & Hids & Hlines & Hconv) Hok].
    destruct fuel as [|fuel]; [lia|].
    rewrite fmap_cons, join_cons in *. cbn [GetCall_loop find_block].
    unfold block_text at 1. rewrite !append_assoc.
    rewrite <- (append_assoc "## Pattern #"), <- (append_assoc "Alltoallv calls: ").
    rewrite GetPatternHeader_adjacent_lines by done. rewrite Hconv.
    unfold getPatterns. rewrite getPatterns_loop_lines by (done || lia).
    rewrite append_nil_l. cbn [mbind option_bind].
    destruct (existsb _ _); [done|].
    apply IH; [done|].
    rewrite length_append in Hfuel. pose proof (block_text_length b). lia.
Qed.

End Reading_blocks.

(** X10.  [GetCall] on a patterns file made of the line ["# Patterns"] and
    of blocks whose two header lines follow one another (a title line, the
    line of the call list, lines of data, an empty line): it returns the data
    lines of the first block whose decoded call list holds the call number,
    and the error "unable to find data for call" when no block holds it. *)
Theorem GetCall_returns_first_block_listing_the_call
    (convert : string -> list Z * option error)
    (fs : gmap string string) (dir : string) (jobid rank callNum : Z)
    (blocks : list Block) :
  fs !! GetFilePath dir jobid rank
  = Some (("# Patterns" +:+ nl) +:+ join (block_text <$> blocks)) ->
  Forall (block_ok convert) blocks ->
  GetCall convert fs dir jobid rank callNum
  = Some match find_block convert callNum blocks with
         | Some b => (lines_text (block_lines b), None)
         | None => (EmptyString, Some (unable_to_find_call callNum))
         end.
Proof.
  intros Hfile Hok. unfold GetCall. rewrite Hfile.
  rewrite append_assoc, ReadString_line by reflexivity.
  rewrite String.eqb_refl. cbn [negb].
  apply GetCall_loop_blocks; [done|lia].
Qed.

Lemma GetCall_returns_first_block_listing_the_call_witness :
  GetCall (fun s => if String.eqb s "0,2" then ([0; 2], None) else ([1], None))
    {[GetFilePath "out" 7 0 :=
        ("# Patterns" +:+ nl)
        +:+ join (block_text <$>
              [mkBlock "0 (2 alltoallv calls)" "0,2"
                 ["4 ranks sent to 4 other ranks"; "4 ranks recv'd from 4 other ranks"];
               mkBlock "1 (1 alltoallv calls)" "1"
                 ["2 ranks sent to 2 other ranks"]])]}
    "out" 7 0 1
  = Some (lines_text ["2 ranks sent to 2 other ranks"], None).
Proof.
  apply (GetCall_returns_first_block_listing_the_call
           (fun s => if String.eqb s "0,2" then ([0; 2], None) else ([1], None))
           _ "out" 7 0 1
           [mkBlock "0 (2 alltoallv calls)" "0,2"
              ["4 ranks sent to 4 other ranks"; "4 ranks recv'd from 4 other ranks"];
            mkBlock "1 (1 alltoallv calls)" "1"
              ["2 ranks sent to 2 other ranks"]]).
  - by rewrite lookup_singleton_eq.
  - repeat constructor.
Defined.

(** ** The classification pass: failures and returned statistics *)

Section Pass_results.

Variable counts_NewSendRecvStats : Z -> SendRecvStats.
Variable counts_ParseFiles :
  string -> string -> Z -> Z -> nat -> SendRecvStats * option error.
Variables (sendCountsFile recvCountsFile : string) (numCalls sizeThreshold : Z).

Local Abbreviation loop' := (ParseFiles_loop counts_ParseFiles sendCountsFile
                           recvCountsFile numCalls sizeThreshold).

Lemma wrap_add_wrap a b : GoInt.wrap (GoInt.wrap a + b) = GoInt.wrap (a + b).
Proof.
  unfold GoInt.wrap. f_equal.
  replace ((a + 2 ^ 63) mod 2 ^ 64 - 2 ^ 63 + b + 2 ^ 63)
    with ((a + 2 ^ 63) mod 2 ^ 64 + b) by lia.
  rewrite Zplus_mod_idemp_l. f_equal. lia.
Qed.

(** A pass that ends without error continues with the calls that follow. *)
Lemma ParseFiles_loop_app todo1 todo2 : forall d st h st' d' h',
  loop' todo1 d st h = Some ((st', d', None), h') ->
  loop' (todo1 ++ todo2) d st h = loop' todo2 d' st' h'.
Proof.
  induction todo1 as [|i todo1 IH]; intros d st h st' d' h' Hrun.
  - simpl in Hrun. unfold ret in Hrun. by injection Hrun as <- <- <-.
  - rewrite <- app_comm_cons. cbn [ParseFiles_loop] in *.
    destruct (counts_ParseFiles _ _ _ _ _) as [cp [e|]]; [done|].
    unfold bind at 1. unfold bind at 1 in Hrun.
    destruct (addPattern _ _ _ _ h) as [[[d1 [e|]] h1]|]; [done| |done].
    destruct (_ && _).
    + unfold bind at 1. unfold bind at 1 in Hrun.
      unfold bind at 1. unfold bind at 1 in Hrun.
      unfold new, ret in *. by apply IH.
    + unfold bind at 1. unfold bind at 1 in Hrun. unfold ret in *. by apply IH.
Qed.

(** The statistics that a pass returns without error are the ones it
    started from, with the number of calls added to [TotalNumCalls]. *)
Lemma ParseFiles_loop_statistics todo : forall d st h st' d' h',
  loop' todo d st h = Some ((st', d', None), h') ->
  GoInt.in_range (TotalNumCalls st) ->
  st' = mkSendRecvStats (SendPatterns st) (RecvPatterns st)
          (TotalSendNonZeroCounts st) (TotalRecvNonZeroCounts st)
          (GoInt.wrap (TotalNumCalls st + Z.of_nat (length todo))) (Bins st).
Proof.
  induction todo as [|i todo IH]; intros d st h st' d' h' Hrun Hst.
  - simpl in Hrun. unfold ret in Hrun. injection Hrun as <- <- <-.
    simpl. rewrite Z.add_0_r, wrap_in_range by done. by destruct st.
  - cbn [ParseFiles_loop] in Hrun.
    destruct (counts_ParseFiles _ _ _ _ _) as [cp [e|]]; [done|].
    unfold bind at 1 in Hrun.
    destruct (addPattern _ _ _ _ h) as [[[d1 [e|]] h1]|]; [done| |done].
    assert (GoInt.wrap (GoInt.add (TotalNumCalls st) 1 + Z.of_nat (length todo))
            = GoInt.wrap (TotalNumCalls st + Z.of_nat (length (i :: todo)))) as Heq.
    { unfold GoInt.add. rewrite wrap_add_wrap. f_equal. simpl length. lia. }
    assert (GoInt.in_range (GoInt.add (TotalNumCalls st) 1)) as Hin.
    { unfold GoInt.add, GoInt.wrap, GoInt.in_range, GoInt.min_int, GoInt.max_int.
      pose proof (Z.mod_pos_bound (TotalNumCalls st + 1 + 2 ^ 63) (2 ^ 64)). lia. }
    destruct (_ && _).
    + unfold bind at 1 in Hrun. unfold bind at 1 in Hrun. unfold new, ret in Hrun.
      apply IH in Hrun; [|exact Hin]. simpl in Hrun. by rewrite Heq in Hrun.
    + unfold bind at 1 in Hrun. unfold ret in Hrun.
      apply IH in Hrun; [|exact Hin]. simpl in Hrun. by rewrite Heq in Hrun.
Qed.

End Pass_results.

(** X11.  When [counts.ParseFiles] fails for call [k] after it succeeded for
    the calls before, the pass stops there: it returns that error with the
    statistics of the failing call and the collection built from the calls
    [0 .. k-1] (their hit counts add up to [k], their call lists hold each
    of these calls once, [Empty] has one record per barrier-like call among
    them). *)
Theorem ParseFiles_stops_at_first_failing_call
    (counts_NewSendRecvStats : Z -> SendRecvStats)
    (counts_ParseFiles : string -> string -> Z -> Z -> nat -> SendRecvStats * option error)
    (sendCountsFile recvCountsFile : string) (numCalls sizeThreshold : Z)
    (h0 : list CallData) (k : Z) (cs : SendRecvStats) (e : error) :
  0 <= k < numCalls -> numCalls <= GoInt.max_int ->
  (forall i, 0 <= i < k ->
     parse_ok counts_ParseFiles sendCountsFile recvCountsFile numCalls sizeThreshold i) ->
  counts_ParseFiles sendCountsFile recvCountsFile numCalls sizeThreshold (Z.to_nat k)
  = (cs, Some e) ->
  exists d h bs,
    ParseFiles counts_NewSendRecvStats counts_ParseFiles sendCountsFile recvCountsFile
      numCalls sizeThreshold h0 = Some ((cs, d, Some e), h)
    /\ buckets_at h (AllPatterns d) bs
    /\ total_count bs = k
    /\ concat (Calls <$> bs) ≡ₚ seqZ 0 k
    /\ empties_at h (Empty d)
         (barrier_calls counts_ParseFiles sendCountsFile recvCountsFile numCalls
            sizeThreshold (seqZ 0 k)).
Proof.
  intros Hk Hn Hok Hfail.
  destruct (ParseFiles_loop_spec counts_ParseFiles sendCountsFile recvCountsFile numCalls
              sizeThreshold (seqZ 0 k) zero_Data
              (counts_NewSendRecvStats sizeThreshold) h0 [] [])
    as (st & d & h & Hrun & Hnd & Hrep & Hemp & _).
  { apply Forall_forall. intros i Hi. apply Hok. apply elem_of_seqZ in Hi. lia. }
  { constructor. }
  { constructor. }
  { constructor. }
  set (calls := fed_calls counts_ParseFiles sendCountsFile recvCountsFile numCalls
                  sizeThreshold (seqZ 0 k)) in *.
  assert (length calls = Z.to_nat k) as Hlen.
  { unfold calls, fed_calls. by rewrite length_fmap, length_seqZ. }
  exists d, h, (addOrMerge_all calls []).
  split; [|split; [done|split; [rewrite total_count_all; lia|split; [|done]]]].
  - unfold ParseFiles.
    replace numCalls with (k + (numCalls - k)) at 2 by lia.
    rewrite seqZ_app by lia.
    rewrite (ParseFiles_loop_app _ _ _ _ _ _ _ _ _ _ _ _ _ Hrun).
    rewrite seqZ_cons by lia. cbn [ParseFiles_loop].
    rewrite Z.add_0_l, Hfail. reflexivity.
  - rewrite calls_all. unfold calls. by rewrite fed_calls_numbers.
Qed.

Lemma ParseFiles_stops_at_first_failing_call_witness :
  exists d h bs,
    ParseFiles (fun _ => zero_SendRecvStats)
      (fun _ _ _ _ i => if (i <? 2)%nat
                        then (mkSendRecvStats Sample.two_by_two Sample.two_by_two 4 4 0 [],
                              None)
                        else (zero_SendRecvStats, Some io_EOF))
      "send" "recv" 3 200 [] = Some ((zero_SendRecvStats, d, Some io_EOF), h)
    /\ buckets_at h (AllPatterns d) bs
    /\ total_count bs = 2
    /\ concat (Calls <$> bs) ≡ₚ seqZ 0 2
    /\ empties_at h (Empty d)
         (barrier_calls
            (fun _ _ _ _ i => if (i <? 2)%nat
                              then (mkSendRecvStats Sample.two_by_two Sample.two_by_two
                                      4 4 0 [], None)
                              else (zero_SendRecvStats, Some io_EOF))
            "send" "recv" 3 200 (seqZ 0 2)).
Proof.
  apply (ParseFiles_stops_at_first_failing_call (fun _ => zero_SendRecvStats)
           (fun _ _ _ _ i => if (i <? 2)%nat
                             then (mkSendRecvStats Sample.two_by_two Sample.two_by_two
                                     4 4 0 [], None)
                             else (zero_SendRecvStats, Some io_EOF))
           "send" "recv" 3 200 [] 2 zero_SendRecvStats io_EOF).
  - lia.
  - unfold GoInt.max_int. lia.
  - intros i Hi. unfold parse_ok.
    assert (i = 0 \/ i = 1) as [-> | ->] by lia; reflexivity.
  - reflexivity.
Defined.

(** X12.  The statistics that a pass without failure returns carry nothing
    from the calls: they are the value of [counts.NewSendRecvStats] with the
    number of calls added to [TotalNumCalls]; the signatures, the totals of
    non-zero counts and the bins are those of the fresh value.  With a
    number of calls that is zero or negative the pass returns the empty
    collection and allocates nothing. *)
Theorem ParseFiles_returns_fresh_statistics
    (counts_NewSendRecvStats : Z -> SendRecvStats)
    (counts_ParseFiles : string -> string -> Z -> Z -> nat -> SendRecvStats * option error)
    (sendCountsFile recvCountsFile : string) (numCalls sizeThreshold : Z)
    (h0 : list CallData) :
  GoInt.in_range (TotalNumCalls (counts_NewSendRecvStats sizeThreshold)) ->
  (forall i, 0 <= i < numCalls ->
     parse_ok counts_ParseFiles sendCountsFile recvCountsFile numCalls sizeThreshold i) ->
  exists d h,
    ParseFiles counts_NewSendRecvStats counts_ParseFiles sendCountsFile recvCountsFile
      numCalls sizeThreshold h0
    = Some ((mkSendRecvStats
               (SendPatterns (counts_NewSendRecvStats sizeThreshold))
               (RecvPatterns (counts_NewSendRecvStats sizeThreshold))
               (TotalSendNonZeroCounts (counts_NewSendRecvStats sizeThreshold))
               (TotalRecvNonZeroCounts (counts_NewSendRecvStats sizeThreshold))
               (GoInt.wrap (TotalNumCalls (counts_NewSendRecvStats sizeThreshold)
                            + Z.max 0 numCalls))
               (Bins (counts_NewSendRecvStats sizeThreshold)),
             d, None), h)
    /\ (numCalls <= 0 -> d = zero_Data /\ h = h0).
Proof.
  intros Hst Hok.
  destruct (ParseFiles_loop_spec counts_ParseFiles sendCountsFile recvCountsFile numCalls
              sizeThreshold (seqZ 0 numCalls) zero_Data
              (counts_NewSendRecvStats sizeThreshold) h0 [] [])
    as (st & d & h & Hrun & _).
  { apply Forall_forall. intros i Hi. apply Hok. apply elem_of_seqZ in Hi. lia. }
  { constructor. }
  { constructor. }
  { constructor. }
  exists d, h. unfold ParseFiles. split.
  - pose proof (ParseFiles_loop_statistics _ _ _ _ _ _ _ _ _ _ _ _ Hrun Hst) as ->.
    rewrite Hrun, length_seqZ.
    by replace (Z.of_nat (Z.to_nat numCalls)) with (Z.max 0 numCalls) by lia.
  - intros Hle. rewrite seqZ_nil in Hrun by lia. simpl in Hrun. unfold ret in Hrun.
    by injection Hrun as _ <- <-.
Qed.

Lemma ParseFiles_returns_fresh_statistics_witness :
  exists d h,
    ParseFiles (fun _ => zero_SendRecvStats)
      (fun _ _ _ _ _ => (mkSendRecvStats Sample.two_by_two Sample.two_by_two 4 4 0 [], None))
      "send" "recv" 3 200 []
    = Some ((mkSendRecvStats None None 0 0 (GoInt.wrap (0 + Z.max 0 3)) [], d, None), h)
    /\ (3 <= 0 -> d = zero_Data /\ h = []).
Proof.
  apply (ParseFiles_returns_fresh_statistics (fun _ => zero_SendRecvStats)
           (fun _ _ _ _ _ => (mkSendRecvStats Sample.two_by_two Sample.two_by_two 4 4 0 [],
                              None))
           "send" "recv" 3 200 []).
  - unfold GoInt.in_range, GoInt.min_int, GoInt.max_int. simpl. lia.
  - intros i Hi. reflexivity.
Defined.

(** ** When a collection has no summary *)

Section Summary.

Lemma hits_zero f es : hits f es = 0%nat <-> forall e, e ∈ es -> f e = false.
Proof.
  unfold hits. induction es as [|e es IH]; simpl.
  - split; [by intros _ e ?%elem_of_nil|done].
  - destruct (f e) eqn:He; simpl.
    + split; [done|]. intros Hall.
      assert (e ∈ e :: es) as Hin by (by left). specialize (Hall e Hin). congruence.
    + rewrite IH. split.
      * intros Hall e' [->|Hin]%elem_of_cons; [done|by apply Hall].
      * intros Hall e' Hin. apply Hall. by right.
Qed.

Lemma refs_nil_iff (view : list ptr) : view = [] <-> forall p, refs p view = 0%nat.
Proof.
  split; [by intros ->|]. intros Hall. destruct view as [|p view]; [done|].
  specialize (Hall p). unfold refs in Hall. simpl in Hall.
  rewrite bool_decide_eq_true_2 in Hall by done. done.
Qed.

(** The send signatures of the buckets are the send signatures fed. *)
Lemma addOrMerge_sends callNum s r bs x :
  x ∈ Send <$> addOrMerge callNum s r bs <-> x ∈ Send <$> bs \/ x = s.
Proof.
  induction bs as [|b bs IH]; simpl.
  - rewrite list_elem_of_singleton. split; [by right|]. by intros [?%elem_of_nil|].
  - destruct (same_sig s r b) eqn:Hb.
    + apply same_sig_true in Hb as [Hs _]. rewrite !fmap_cons. simpl.
      rewrite !elem_of_cons. split; [tauto|]. intros [?| ->]; [done|by left].
    + rewrite !fmap_cons, !elem_of_cons, IH. tauto.
Qed.

Lemma addOrMerge_all_sends calls x :
  x ∈ Send <$> addOrMerge_all calls [] <-> exists c, c ∈ calls /\ c.1.2 = x.
Proof.
  induction calls as [|c calls IH] using rev_ind.
  - simpl. split; [by intros ?%elem_of_nil|]. by intros (c & ?%elem_of_nil & _).
  - rewrite addOrMerge_all_snoc, addOrMerge_sends, IH. split.
    + intros [(c' & Hc' & Hx)| ->].
      * exists c'. split; [|done]. apply elem_of_app. by left.
      * exists c. split; [|done]. apply elem_of_app. right. by left.
    + intros (c' & [Hc'| ->%list_elem_of_singleton]%elem_of_app & Hx).
      * left. by exists c'.
      * by right.
Qed.

(** A view is empty exactly when no entry of the send signature of a bucket
    meets its rule. *)
Lemma view_empty_iff (view : list ptr) (rule : Z * Z -> bool) (ps : list ptr)
    (h bs : list CallData) :
  buckets_at h ps bs ->
  (forall p, (p ∈ ps -> exists cd, h !! p = Some cd
                          /\ refs p view = hits rule (range_map (Send cd)))
             /\ (p ∉ ps -> refs p view = 0%nat)) ->
  view = [] <-> forall s e, s ∈ Send <$> bs -> e ∈ range_map s -> rule e = false.
Proof.
  intros Hrep Hinv. rewrite refs_nil_iff. split.
  - intros Hall s e (b & -> & Hb)%list_elem_of_fmap He.
    apply list_elem_of_lookup in Hb as [k Hk].
    destruct (Forall2_lookup_r _ _ _ _ _ Hrep Hk) as (p & Hp & Hhp).
    destruct (proj1 (Hinv p)) as (cd & Hcd & Hrefs); [by eapply list_elem_of_lookup_2|].
    assert (cd = b) as -> by congruence.
    rewrite Hall in Hrefs. symmetry in Hrefs. by eapply hits_zero in Hrefs.
  - intros Hall p. destruct (decide (p ∈ ps)) as [Hin|Hnotin]; [|by apply Hinv].
    destruct (proj1 (Hinv p) Hin) as (cd & Hcd & ->).
    apply hits_zero. intros e He. apply (Hall (Send cd)); [|done].
    apply list_elem_of_lookup in Hin as [k Hk].
    destruct (Forall2_lookup_l _ _ _ _ _ Hrep Hk) as (b & Hb & Hhp).
    assert (cd = b) as -> by congruence.
    apply list_elem_of_fmap. exists b. split; [done|]. by eapply list_elem_of_lookup_2.
Qed.

End Summary.

(** X13.  For a collection built by any sequence of [addPattern] calls on a
    zero collection, [NoSummary] holds exactly when no entry (number of peers,
    number of ranks) of the send signature of any call meets one of the three
    rules of the classification; the receive signatures play no part. *)
Theorem NoSummary_iff_no_send_entry_meets_a_rule (h0 : list CallData)
    (calls : list (Z * IntMap * IntMap)) (d : Data) (h : list CallData) :
  addPatterns calls zero_Data h0 = Some (d, h) ->
  NoSummary d = true
  <-> forall c e, c ∈ calls -> e ∈ range_map c.1.2 ->
        is_OneToN e = false /\ is_NToN e = false /\ is_NToOne e = false.
Proof.
  intros Hrun.
  destruct (addPatterns_spec calls zero_Data h0 [])
    as (d1 & h1 & Hrun1 & Hnd & Hrep & _); [constructor|constructor|].
  destruct (views_mirror_all calls zero_Data h0 []) as (d' & h' & Hrun' & Hinv).
  { constructor. }
  { constructor. }
  { intros q. split; [by intros ?%elem_of_nil|by intros _]. }
  rewrite Hrun in Hrun1, Hrun'. injection Hrun1 as <- <-. injection Hrun' as <- <-.
  assert (OneToN d = [] <-> forall s e, s ∈ Send <$> addOrMerge_all calls [] ->
                              e ∈ range_map s -> is_OneToN e = false) as H1.
  { apply (view_empty_iff _ _ (AllPatterns d) h); [done|]. intros p. split.
    - intros Hp. destruct (proj1 (Hinv p) Hp) as (cd & Hcd & Hr & _). by exists cd.
    - intros Hp. by destruct (proj2 (Hinv p) Hp) as (Hr & _). }
  assert (NToN d = [] <-> forall s e, s ∈ Send <$> addOrMerge_all calls [] ->
                            e ∈ range_map s -> is_NToN e = false) as H2.
  { apply (view_empty_iff _ _ (AllPatterns d) h); [done|]. intros p. split.
    - intros Hp. destruct (proj1 (Hinv p) Hp) as (cd & Hcd & _ & Hr & _). by exists cd.
    - intros Hp. by destruct (proj2 (Hinv p) Hp) as (_ & Hr & _). }
  assert (NToOne d = [] <-> forall s e, s ∈ Send <$> addOrMerge_all calls [] ->
                              e ∈ range_map s -> is_NToOne e = false) as H3.
  { apply (view_empty_iff _ _ (AllPatterns d) h); [done|]. intros p. split.
    - intros Hp. destruct (proj1 (Hinv p) Hp) as (cd & Hcd & _ & _ & Hr). by exists cd.
    - intros Hp. by destruct (proj2 (Hinv p) Hp) as (_ & _ & Hr). }
  assert (NoSummary d = true <-> OneToN d = [] /\ NToN d = [] /\ NToOne d = []) as ->.
  { unfold NoSummary. destruct (OneToN d), (NToOne d), (NToN d); simpl; split;
      (done || by intros (? & ? & ?)). }
  rewrite H1, H2, H3. split.
  - intros (Ha & Hb & Hc) c e Hc' He.
    assert (c.1.2 ∈ Send <$> addOrMerge_all calls []) as Hs
      by (apply addOrMerge_all_sends; by exists c).
    split; [by eapply Ha|]. split; [by eapply Hb|by eapply Hc].
  - intros Hall.
    split; [|split]; intros s e (c & Hc & <-)%addOrMerge_all_sends He;
      by destruct (Hall c e Hc He) as (? & ? & ?).
Qed.

Lemma NoSummary_iff_no_send_entry_meets_a_rule_witness :
  NoSummary (mkData [0; 1]%nat [] [0; 1]%nat [1]%nat []) = true
  <-> forall c e, c ∈ Sample.calls -> e ∈ range_map c.1.2 ->
        is_OneToN e = false /\ is_NToN e = false /\ is_NToOne e = false.
Proof.
  apply (NoSummary_iff_no_send_entry_meets_a_rule [] Sample.calls
           (mkData [0; 1]%nat [] [0; 1]%nat [1]%nat [])
           [mkCallData Sample.two_by_two Sample.two_by_two 2 [0; 2];
            mkCallData Sample.mixed Sample.mixed 1 [1]]).
  by vm_compute.
Defined.

(** ** The loop of the command [srcountsanalyzer] *)

Section Srcountsanalyzer.

Variable datafilereader_CompareCallPatterns : IntMap -> IntMap -> bool.
Variable datafilereader_LookupCall :
  string -> string -> Z -> Z -> srcountsanalyzer.CallInfo * option error.
Variables (sendCountsFile recvCountsFile : string) (sizeThreshold : Z).

Local Abbreviation scan := (srcountsanalyzer.addPattern_scan
                              datafilereader_CompareCallPatterns).
Local Abbreviation add := (srcountsanalyzer.addPattern
                             datafilereader_CompareCallPatterns).
Local Abbreviation run := (srcountsanalyzer.main_loop
                             datafilereader_CompareCallPatterns
                             datafilereader_LookupCall
                             sendCountsFile recvCountsFile sizeThreshold).
Local Abbreviation info := (srcountsanalyzer.info_of datafilereader_LookupCall
                              sendCountsFile recvCountsFile sizeThreshold).
Local Abbreviation found := (srcountsanalyzer.lookup_ok datafilereader_LookupCall
                               sendCountsFile recvCountsFile sizeThreshold).
Local Abbreviation fed' := (srcountsanalyzer.fed_calls datafilereader_LookupCall
                              sendCountsFile recvCountsFile sizeThreshold).

Lemma occurrences_snoc f infos c k :
  srcountsanalyzer.occurrences f (infos ++ [c]) k
  = (srcountsanalyzer.occurrences f infos k + if (f c =? k)%Z then 1 else 0)%nat.
Proof.
  unfold srcountsanalyzer.occurrences. rewrite List.filter_app, length_app. simpl.
  by destruct (f c =? k).
Qed.

Lemma occurrences_le f infos k :
  (srcountsanalyzer.occurrences f infos k <= length infos)%nat.
Proof.
  unfold srcountsanalyzer.occurrences.
  induction infos as [|c infos IH]; simpl; [lia|]. destruct (f c =? k); simpl; lia.
Qed.

(** Counting one more call in a map that counts the calls so far. *)
Lemma count_key_tallies m f infos c :
  srcountsanalyzer.tallies m f infos ->
  Z.of_nat (length infos) < GoInt.max_int ->
  srcountsanalyzer.tallies (srcountsanalyzer.count_key m m (f c)) f (infos ++ [c]).
Proof.
  intros Hm Hbound k. rewrite occurrences_snoc.
  pose proof (occurrences_le f infos k) as Hle.
  pose proof (occurrences_le f infos (f c)) as Hle'.
  unfold srcountsanalyzer.count_key.
  destruct (Z.eqb_spec (f c) k) as [->|Hne].
  - rewrite (Hm k).
    destruct (Nat.eqb_spec (srcountsanalyzer.occurrences f infos k) 0) as [->|Hpos].
    + by rewrite lookup_insert_eq.
    + rewrite lookup_insert_eq. cbn [default from_option]. unfold id.
      rewrite add_one_small by lia.
      destruct (Nat.eqb_spec (srcountsanalyzer.occurrences f infos k + 1) 0); [lia|].
      f_equal. lia.
  - rewrite Nat.add_0_r, <- (Hm k).
    destruct (m !! f c); by rewrite lookup_insert_ne.
Qed.

Lemma tallies_empty f : srcountsanalyzer.tallies ∅ f [].
Proof. intros k. by rewrite lookup_empty. Qed.

(** The scan does not panic on allocated addresses and allocates nothing. *)
Lemma scan_allocated callNum s r xs : forall h,
  Forall (fun p => (p < length h)%nat) xs ->
  exists b h', scan callNum s r xs h = Some (b, h') /\ length h' = length h.
Proof.
  induction xs as [|x xs IH]; intros h Hall.
  - by exists false, h.
  - apply Forall_cons in Hall as [Hx Hall]. cbn [srcountsanalyzer.addPattern_scan].
    destruct (lookup_lt_is_Some_2 _ _ Hx) as [c ->].
    destruct (_ && _).
    + eexists _, _. split; [reflexivity|]. by rewrite length_insert.
    + by apply IH.
Qed.

Lemma addPattern_allocated callNum s r g h :
  Forall (fun p => (p < length h)%nat) (srcountsanalyzer.cp g) ->
  exists g' h',
    add callNum s r g h = Some ((g', None), h')
    /\ Forall (fun p => (p < length h')%nat) (srcountsanalyzer.cp g').
Proof.
  intros Hall. destruct (scan_allocated callNum s r _ _ Hall) as (b & h1 & Hrun & Hlen).
  unfold srcountsanalyzer.addPattern, bind. rewrite Hrun. destruct b.
  - exists g, h1. split; [done|]. eapply Forall_impl; [exact Hall|].
    intros p Hp. simpl in *. lia.
  - eexists _, _. split; [reflexivity|]. simpl. apply Forall_app. split.
    + eapply Forall_impl; [exact Hall|]. intros p Hp. simpl in *.
      rewrite length_app. simpl. lia.
    + constructor; [|constructor]. rewrite length_app. simpl. lia.
Qed.

Lemma main_loop_spec todo : forall l h infos,
  srcountsanalyzer.loop_invariant l infos ->
  Forall (fun p => (p < length h)%nat)
         (srcountsanalyzer.cp (srcountsanalyzer.globalPatterns l)) ->
  Forall found todo ->
  Z.of_nat (length infos + length todo) <= GoInt.max_int ->
  exists l' h',
    run todo l h = Some (inr l', h')
    /\ srcountsanalyzer.loop_invariant l' (infos ++ (info <$> todo))
    /\ (forall i todo0, todo = todo0 ++ [i] ->
          srcountsanalyzer.sendMins l' !! srcountsanalyzer.SendNotZeroMin (info i)
          = Some 1
          /\ srcountsanalyzer.recvMins l' !! srcountsanalyzer.RecvNotZeroMin (info i)
             = Some 1).
Proof.
  induction todo as [|i todo IH]; intros l h infos Hinv Hvalid Hok Hbound.
  - exists l, h. simpl. rewrite app_nil_r. split; [done|]. split; [done|].
    intros i todo0 Heq. by destruct todo0.
  - apply Forall_cons in Hok as [Hi Hok].
    unfold srcountsanalyzer.lookup_ok in Hi. cbn [srcountsanalyzer.main_loop].
    assert (info i = (datafilereader_LookupCall sendCountsFile recvCountsFile i
                        sizeThreshold).1) as Hinfo by reflexivity.
    destruct (datafilereader_LookupCall sendCountsFile recvCountsFile i sizeThreshold)
      as [c err]. simpl in Hi, Hinfo. subst err.
    destruct (addPattern_allocated i
                (srcountsanalyzer.SendPatterns (srcountsanalyzer.Patterns c))
                (srcountsanalyzer.RecvPatterns (srcountsanalyzer.Patterns c))
                _ _ Hvalid) as (g' & h1 & Hadd & Hvalid1).
    unfold bind at 1. rewrite Hadd.
    destruct Hinv as (I1 & I2 & I3 & I4 & I5 & I6 & I7 & I8 & I9).
    simpl length in Hbound.
    match goal with |- context [run todo ?l1 h1] =>
      destruct (IH l1 h1 (infos ++ [c])) as (l' & h' & Hrun & Hinv' & Hlast)
    end.
    + simpl. repeat split; try done; apply count_key_tallies; (done || lia).
    + done.
    + done.
    + rewrite length_app. simpl. lia.
    + exists l', h'. split; [exact Hrun|]. split.
      * rewrite fmap_cons, Hinfo. by rewrite <- app_assoc in Hinv'.
      * intros j todo0 Heq. destruct todo0 as [|a todo0].
        -- simpl in Heq. injection Heq as -> ->. simpl in Hrun. unfold ret in Hrun.
           injection Hrun as <- <-. simpl. rewrite Hinfo.
           unfold srcountsanalyzer.count_key at 1 3. rewrite I8, I9, !lookup_empty.
           by rewrite !lookup_insert_eq.
        -- simpl in Heq. injection Heq as -> ->. by eapply Hlast.
Qed.

Lemma loop_invariant_initial :
  srcountsanalyzer.loop_invariant srcountsanalyzer.initial_Locals [].
Proof. repeat split; apply tallies_empty || done. Qed.

(** *** The patterns of the command and the buckets of the package *)

Hypothesis same_comparison : forall p1 p2,
  datafilereader_CompareCallPatterns p1 p2 = CompareCallPatterns p1 p2.

Lemma scan_agrees callNum s r xs : forall h b h',
  scan callNum s r xs h = Some (b, h') ->
  addPattern_scan callNum s r xs (srcountsanalyzer.as_CallData <$> h)
  = Some (b, srcountsanalyzer.as_CallData <$> h').
Proof.
  induction xs as [|x xs IH]; intros h b h' Hrun.
  - simpl in *. unfold ret in *. by injection Hrun as <- <-.
  - cbn [srcountsanalyzer.addPattern_scan addPattern_scan] in *.
    unfold bind, load. rewrite list_lookup_fmap.
    destruct (h !! x) as [c|] eqn:Hx; [|done]. simpl.
    rewrite !same_comparison in Hrun.
    destruct (_ && _).
    + injection Hrun as <- <-. unfold store, ret.
      rewrite bool_decide_eq_true_2
        by (rewrite length_fmap; by eapply lookup_lt_Some).
      by rewrite list_fmap_insert.
    + by apply IH.
Qed.

Lemma addPattern_agrees callNum s r g h g' e h' d :
  add callNum s r g h = Some ((g', e), h') ->
  AllPatterns d = srcountsanalyzer.cp g ->
  exists d',
    addPattern callNum s r d (srcountsanalyzer.as_CallData <$> h)
    = Some ((d', None), srcountsanalyzer.as_CallData <$> h')
    /\ AllPatterns d' = srcountsanalyzer.cp g' /\ e = None.
Proof.
  intros Hrun Hd. unfold srcountsanalyzer.addPattern, bind in Hrun.
  destruct (scan callNum s r _ h) as [[b h1]|] eqn:Hscan; [|done].
  apply scan_agrees in Hscan.
  unfold addPattern, addPattern_in_order, bind. rewrite Hd, Hscan.
  destruct b.
  - unfold ret in *. injection Hrun as <- <- <-. by exists d.
  - injection Hrun as <- <- <-. unfold new, ret. rewrite classify_fold. simpl.
    eexists. split; [|split; [|done]].
    + rewrite length_fmap, fmap_app. reflexivity.
    + reflexivity.
Qed.

Lemma main_loop_agrees todo : forall l h l' h' d,
  run todo l h = Some (inr l', h') ->
  AllPatterns d = srcountsanalyzer.cp (srcountsanalyzer.globalPatterns l) ->
  exists d',
    addPatterns (fed' todo) d (srcountsanalyzer.as_CallData <$> h)
    = Some (d', srcountsanalyzer.as_CallData <$> h')
    /\ AllPatterns d' = srcountsanalyzer.cp (srcountsanalyzer.globalPatterns l').
Proof.
  induction todo as [|i todo IH]; intros l h l' h' d Hrun Hd.
  - simpl in Hrun. unfold ret in Hrun. injection Hrun as <- <-. by exists d.
  - cbn [srcountsanalyzer.main_loop] in Hrun.
    assert (info i = (datafilereader_LookupCall sendCountsFile recvCountsFile i
                        sizeThreshold).1) as Hinfo by reflexivity.
    destruct (datafilereader_LookupCall sendCountsFile recvCountsFile i sizeThreshold)
      as [c [e|]]; [done|].
    simpl in Hinfo.
    change (fed' (i :: todo))
      with ((i, srcountsanalyzer.SendPatterns (srcountsanalyzer.Patterns (info i)),
             srcountsanalyzer.RecvPatterns (srcountsanalyzer.Patterns (info i)))
            :: fed' todo).
    rewrite Hinfo. cbn [addPatterns fst snd].
    unfold bind at 1 in Hrun.
    destruct (add i _ _ _ h) as [[[g1 e1] h1]|] eqn:Hadd; [|done].
    destruct (addPattern_agrees _ _ _ _ _ _ _ _ d Hadd Hd) as (d1 & Hadd' & Hd1 & ->).
    unfold bind at 1. rewrite Hadd'.
    by apply (IH _ _ _ _ d1) in Hrun.
Qed.

End Srcountsanalyzer.

(** X14.  The loop of the command over [numCalls] calls whose lookups all
    succeed ends without a fatal exit, and afterwards each of the maps
    [datatypesSend], [datatypesRecv], [commSizes], [sendMaxs], [recvMaxs],
    [callSendSparsity] and [callRecvSparsity] holds, for every value taken by
    its field, the number of calls with this value, and no other key;
    whatever [datafilereader.CompareCallPatterns] answers. *)
Theorem srcountsanalyzer_histograms_count_the_calls
    (datafilereader_CompareCallPatterns : IntMap -> IntMap -> bool)
    (datafilereader_LookupCall :
       string -> string -> Z -> Z -> srcountsanalyzer.CallInfo * option error)
    (sendCountsFile recvCountsFile : string) (sizeThreshold numCalls : Z) :
  0 <= numCalls <= GoInt.max_int ->
  (forall i, 0 <= i < numCalls ->
     srcountsanalyzer.lookup_ok datafilereader_LookupCall sendCountsFile recvCountsFile
       sizeThreshold i) ->
  exists l h,
    srcountsanalyzer.main_loop datafilereader_CompareCallPatterns
      datafilereader_LookupCall sendCountsFile recvCountsFile sizeThreshold
      (seqZ 0 numCalls) srcountsanalyzer.initial_Locals [] = Some (inr l, h)
    /\ let infos := srcountsanalyzer.info_of datafilereader_LookupCall sendCountsFile
                      recvCountsFile sizeThreshold <$> seqZ 0 numCalls in
       srcountsanalyzer.tallies (srcountsanalyzer.datatypesSend l)
         srcountsanalyzer.SendDatatypeSize infos
       /\ srcountsanalyzer.tallies (srcountsanalyzer.datatypesRecv l)
            srcountsanalyzer.RecvDatatypeSize infos
       /\ srcountsanalyzer.tallies (srcountsanalyzer.commSizes l)
            srcountsanalyzer.CommSize infos
       /\ srcountsanalyzer.tallies (srcountsanalyzer.sendMaxs l)
            srcountsanalyzer.SendMax infos
       /\ srcountsanalyzer.tallies (srcountsanalyzer.recvMaxs l)
            srcountsanalyzer.RecvMax infos
       /\ srcountsanalyzer.tallies (srcountsanalyzer.callSendSparsity l)
            srcountsanalyzer.TotalSendZeroCounts infos
       /\ srcountsanalyzer.tallies (srcountsanalyzer.callRecvSparsity l)
            srcountsanalyzer.TotalRecvZeroCounts infos.
Proof.
  intros Hn Hok.
  destruct (main_loop_spec datafilereader_CompareCallPatterns datafilereader_LookupCall
              sendCountsFile recvCountsFile sizeThreshold (seqZ 0 numCalls)
              srcountsanalyzer.initial_Locals [] [])
    as (l & h & Hrun & Hinv & _).
  - apply loop_invariant_initial.
  - constructor.
  - apply Forall_forall. intros i Hi. apply Hok. apply elem_of_seqZ in Hi. lia.
  - rewrite length_seqZ. simpl. lia.
  - exists l, h. split; [exact Hrun|]. simpl in Hinv.
    destruct Hinv as (I1 & I2 & I3 & I4 & I5 & I6 & I7 & _). by repeat split.
Qed.

Lemma srcountsanalyzer_histograms_count_the_calls_witness :
  exists l h,
    srcountsanalyzer.main_loop CompareCallPatterns srcountsanalyzer.SampleRun.LookupCall
      "send" "recv" 200 (seqZ 0 3) srcountsanalyzer.initial_Locals [] = Some (inr l, h)
    /\ let infos := srcountsanalyzer.info_of srcountsanalyzer.SampleRun.LookupCall
                      "send" "recv" 200 <$> seqZ 0 3 in
       srcountsanalyzer.tallies (srcountsanalyzer.datatypesSend l)
         srcountsanalyzer.SendDatatypeSize infos
       /\ srcountsanalyzer.tallies (srcountsanalyzer.datatypesRecv l)
            srcountsanalyzer.RecvDatatypeSize infos
       /\ srcountsanalyzer.tallies (srcountsanalyzer.commSizes l)
            srcountsanalyzer.CommSize infos
       /\ srcountsanalyzer.tallies (srcountsanalyzer.sendMaxs l)
            srcountsanalyzer.SendMax infos
       /\ srcountsanalyzer.tallies (srcountsanalyzer.recvMaxs l)
            srcountsanalyzer.RecvMax infos
       /\ srcountsanalyzer.tallies (srcountsanalyzer.callSendSparsity l)
            srcountsanalyzer.TotalSendZeroCounts infos
       /\ srcountsanalyzer.tallies (srcountsanalyzer.callRecvSparsity l)
            srcountsanalyzer.TotalRecvZeroCounts infos.
Proof.
  apply (srcountsanalyzer_histograms_count_the_calls CompareCallPatterns
           srcountsanalyzer.SampleRun.LookupCall "send" "recv" 200 3).
  - unfold GoInt.max_int. lia.
  - intros i Hi. reflexivity.
Defined.

(** X15.  In the same loop the maps [sendNotZeroMins] and [recvNotZeroMins]
    are never written: they are empty at the end, whatever the calls.  The
    minimum over the non-zero counts of a call is written into [sendMins]
    (resp. [recvMins]) instead, always with the value 1: after the loop the
    entry of [sendMins] at the non-zero minimum of the last call is 1,
    however many calls have this value as their minimum. *)
Theorem srcountsanalyzer_nonzero_minimums_are_never_counted
    (datafilereader_CompareCallPatterns : IntMap -> IntMap -> bool)
    (datafilereader_LookupCall :
       string -> string -> Z -> Z -> srcountsanalyzer.CallInfo * option error)
    (sendCountsFile recvCountsFile : string) (sizeThreshold numCalls : Z) :
  0 < numCalls <= GoInt.max_int ->
  (forall i, 0 <= i < numCalls ->
     srcountsanalyzer.lookup_ok datafilereader_LookupCall sendCountsFile recvCountsFile
       sizeThreshold i) ->
  exists l h,
    srcountsanalyzer.main_loop datafilereader_CompareCallPatterns
      datafilereader_LookupCall sendCountsFile recvCountsFile sizeThreshold
      (seqZ 0 numCalls) srcountsanalyzer.initial_Locals [] = Some (inr l, h)
    /\ srcountsanalyzer.sendNotZeroMins l = ∅
    /\ srcountsanalyzer.recvNotZeroMins l = ∅
    /\ let last := srcountsanalyzer.info_of datafilereader_LookupCall sendCountsFile
                     recvCountsFile sizeThreshold (numCalls - 1) in
       srcountsanalyzer.sendMins l !! srcountsanalyzer.SendNotZeroMin last = Some 1
       /\ srcountsanalyzer.recvMins l !! srcountsanalyzer.RecvNotZeroMin last = Some 1.
Proof.
  intros Hn Hok.
  destruct (main_loop_spec datafilereader_CompareCallPatterns datafilereader_LookupCall
              sendCountsFile recvCountsFile sizeThreshold (seqZ 0 numCalls)
              srcountsanalyzer.initial_Locals [] [])
    as (l & h & Hrun & Hinv & Hlast).
  - apply loop_invariant_initial.
  - constructor.
  - apply Forall_forall. intros i Hi. apply Hok. apply elem_of_seqZ in Hi. lia.
  - rewrite length_seqZ. simpl. lia.
  - exists l, h. split; [exact Hrun|].
    destruct Hinv as (_ & _ & _ & _ & _ & _ & _ & I8 & I9).
    split; [done|]. split; [done|].
    apply (Hlast (numCalls - 1) (seqZ 0 (numCalls - 1))).
    replace numCalls with ((numCalls - 1) + 1) at 1 by lia.
    rewrite seqZ_app by lia. f_equal.
Qed.

Lemma srcountsanalyzer_nonzero_minimums_are_never_counted_witness :
  exists l h,
    srcountsanalyzer.main_loop CompareCallPatterns srcountsanalyzer.SampleRun.LookupCall
      "send" "recv" 200 (seqZ 0 3) srcountsanalyzer.initial_Locals [] = Some (inr l, h)
    /\ srcountsanalyzer.sendNotZeroMins l = ∅
    /\ srcountsanalyzer.recvNotZeroMins l = ∅
    /\ let last := srcountsanalyzer.info_of srcountsanalyzer.SampleRun.LookupCall
                     "send" "recv" 200 (3 - 1) in
       srcountsanalyzer.sendMins l !! srcountsanalyzer.SendNotZeroMin last = Some 1
       /\ srcountsanalyzer.recvMins l !! srcountsanalyzer.RecvNotZeroMin last = Some 1.
Proof.
  apply (srcountsanalyzer_nonzero_minimums_are_never_counted CompareCallPatterns
           srcountsanalyzer.SampleRun.LookupCall "send" "recv" 200 3).
  - unfold GoInt.max_int. lia.
  - intros i Hi. reflexivity.
Defined.

(** X16.  When [datafilereader.CompareCallPatterns] decides what
    [patterns.CompareCallPatterns] decides, the patterns that the loop of the
    command builds are the buckets that [patterns.addPattern] builds from the
    same calls: same addresses in the same order, same signatures, hit
    counts and call lists. *)
Theorem srcountsanalyzer_patterns_are_the_buckets_of_addPattern
    (datafilereader_CompareCallPatterns : IntMap -> IntMap -> bool)
    (datafilereader_LookupCall :
       string -> string -> Z -> Z -> srcountsanalyzer.CallInfo * option error)
    (sendCountsFile recvCountsFile : string) (sizeThreshold numCalls : Z) :
  (forall p1 p2, datafilereader_CompareCallPatterns p1 p2 = CompareCallPatterns p1 p2) ->
  0 <= numCalls <= GoInt.max_int ->
  (forall i, 0 <= i < numCalls ->
     srcountsanalyzer.lookup_ok datafilereader_LookupCall sendCountsFile recvCountsFile
       sizeThreshold i) ->
  exists l h d,
    srcountsanalyzer.main_loop datafilereader_CompareCallPatterns
      datafilereader_LookupCall sendCountsFile recvCountsFile sizeThreshold
      (seqZ 0 numCalls) srcountsanalyzer.initial_Locals [] = Some (inr l, h)
    /\ addPatterns
         (srcountsanalyzer.fed_calls datafilereader_LookupCall sendCountsFile
            recvCountsFile sizeThreshold (seqZ 0 numCalls))
         zero_Data [] = Some (d, srcountsanalyzer.as_CallData <$> h)
    /\ srcountsanalyzer.cp (srcountsanalyzer.globalPatterns l) = AllPatterns d.
Proof.
  intros Hsame Hn Hok.
  destruct (main_loop_spec datafilereader_CompareCallPatterns datafilereader_LookupCall
              sendCountsFile recvCountsFile sizeThreshold (seqZ 0 numCalls)
              srcountsanalyzer.initial_Locals [] [])
    as (l & h & Hrun & _).
  - apply loop_invariant_initial.
  - constructor.
  - apply Forall_forall. intros i Hi. apply Hok. apply elem_of_seqZ in Hi. lia.
  - rewrite length_seqZ. simpl. lia.
  - destruct (main_loop_agrees _ _ _ _ _ Hsame _ _ _ _ _ zero_Data Hrun)
      as (d & Hadd & Hd); [done|].
    exists l, h, d. by repeat split.
Qed.

Lemma srcountsanalyzer_patterns_are_the_buckets_of_addPattern_witness :
  exists l h d,
    srcountsanalyzer.main_loop CompareCallPatterns srcountsanalyzer.SampleRun.LookupCall
      "send" "recv" 200 (seqZ 0 3) srcountsanalyzer.initial_Locals [] = Some (inr l, h)
    /\ addPatterns
         (srcountsanalyzer.fed_calls srcountsanalyzer.SampleRun.LookupCall
            "send" "recv" 200 (seqZ 0 3))
         zero_Data [] = Some (d, srcountsanalyzer.as_CallData <$> h)
    /\ srcountsanalyzer.cp (srcountsanalyzer.globalPatterns l) = AllPatterns d.
Proof.
  apply (srcountsanalyzer_patterns_are_the_buckets_of_addPattern CompareCallPatterns
           srcountsanalyzer.SampleRun.LookupCall "send" "recv" 200 3).
  - reflexivity.
  - unfold GoInt.max_int. lia.
  - intros i Hi. reflexivity.
Defined.

(** ** Reading back what [srcountsanalyzer] prints *)

Section Printed_patterns.

Variable range_order : nat -> IntMap -> list (Z * Z).
Variable notation_CompressIntArray : list Z -> string.
Variable convert : string -> list Z * option error.

Local Abbreviation print := (srcountsanalyzer_output.print_patterns range_order
                               notation_CompressIntArray).
Local Abbreviation blocks := (srcountsanalyzer_output.blocks_of range_order
                                notation_CompressIntArray).
Local Abbreviation described' := (srcountsanalyzer_output.described range_order).

Lemma join_app l1 l2 : join (l1 ++ l2) = join l1 +:+ join l2.
Proof.
  induction l1 as [|s l1 IH]; [done|].
  rewrite <- app_comm_cons, !join_cons, IH. by rewrite append_assoc.
Qed.

(** A printed integer starts with a digit or with the minus sign. *)
Lemma fmt_d_head z : exists c s, GoInt.fmt_d z = String c s /\ c <> "A"%char.
Proof.
  unfold GoInt.fmt_d, NilZero.string_of_int, NilZero.string_of_uint.
  destruct (Z.to_int z) as [d|d]; [|by eexists _, _].
  destruct d; simpl; by eexists _, _.
Qed.

Lemma data_line_fmt_d z rest :
  no_newline rest = true -> data_line (GoInt.fmt_d z +:+ rest) = true.
Proof.
  intros Hrest. unfold data_line.
  rewrite no_newline_app, no_newline_fmt_d, Hrest.
  destruct (fmt_d_head z) as (c & s & -> & Hc).
  rewrite !append_cons. cbn [String.eqb andb negb String.prefix].
  destruct (ascii_dec "A" c); [congruence|done].
Qed.

Lemma existsb_eqb_elem (callNum : Z) (l : list Z) :
  existsb (fun c => c =? callNum) l = true <-> callNum ∈ l.
Proof.
  rewrite existsb_exists. split.
  - intros (c & Hc & ->%Z.eqb_eq). by apply list_elem_of_In.
  - intros Hin. exists callNum. split; [by apply list_elem_of_In|apply Z.eqb_refl].
Qed.

Lemma line_with_newline a b c d :
  (a +:+ b +:+ c +:+ d) +:+ nl = a +:+ b +:+ c +:+ d +:+ nl.
Proof. by rewrite !append_assoc. Qed.

Lemma lines_text_app l1 l2 : lines_text (l1 ++ l2) = lines_text l1 +:+ lines_text l2.
Proof. unfold lines_text. by rewrite fmap_app, join_app. Qed.

Lemma lines_text_fmap (f g : Z * Z -> string) xs :
  (forall e, f e +:+ nl = g e) -> lines_text (f <$> xs) = join (g <$> xs).
Proof.
  intros Hfg. unfold lines_text. rewrite <- list_fmap_compose. f_equal.
  apply list_fmap_ext. intros i e _. apply Hfg.
Qed.

Lemma print_patterns_blocks h cps cs :
  Forall2 (fun p c => h !! p = Some c) cps cs ->
  forall tick num,
    print h tick num cps = Some (join (block_text <$> blocks tick num cs)).
Proof.
  induction 1 as [|p c cps cs Hp _ IH]; intros tick num; [done|].
  cbn [srcountsanalyzer_output.print_patterns srcountsanalyzer_output.blocks_of].
  rewrite Hp, IH. cbn [mbind option_bind]. f_equal.
  rewrite fmap_cons, join_cons.
  generalize (join (block_text <$> blocks (S (S tick)) (GoInt.add num 1) cs)).
  intros out. unfold block_text. cbn [block_title block_ids block_lines].
  rewrite lines_text_app.
  rewrite (lines_text_fmap _ (fun e => GoInt.fmt_d e.2 +:+ " ranks sent to "
                                       +:+ GoInt.fmt_d e.1 +:+ " other ranks" +:+ nl))
    by (intros e; apply line_with_newline).
  rewrite (lines_text_fmap _ (fun e => GoInt.fmt_d e.2 +:+ " ranks recv'd from "
                                       +:+ GoInt.fmt_d e.1 +:+ " other ranks" +:+ nl))
    by (intros e; apply line_with_newline).
  by rewrite !append_assoc.
Qed.

Lemma blocks_ok cs :
  (forall c, c ∈ cs ->
     call_list_text (notation_CompressIntArray (srcountsanalyzer.calls c)) = true
     /\ convert (notation_CompressIntArray (srcountsanalyzer.calls c))
        = (srcountsanalyzer.calls c, None)) ->
  forall tick num, Forall (block_ok convert) (blocks tick num cs).
Proof.
  induction cs as [|c cs IH]; intros Hcs tick num; [constructor|].
  cbn [srcountsanalyzer_output.blocks_of]. constructor.
  - destruct (Hcs c) as [Htext Hconv]; [by left|].
    unfold block_ok. cbn [block_title block_ids block_lines].
    split; [|split; [done|split; [|by rewrite Hconv]]].
    + rewrite !no_newline_app, !no_newline_fmt_d. reflexivity.
    + apply Forall_app. split; apply Forall_fmap, Forall_forall; intros e _;
        cbn [compose]; apply data_line_fmt_d;
        rewrite !no_newline_app, !no_newline_fmt_d; reflexivity.
  - apply IH. intros c' Hc'. apply Hcs. by right.
Qed.

Lemma blocks_lines tick num c rest b :
  blocks tick num (c :: rest) !! 0%nat = Some b ->
  lines_text (block_lines b) = described' tick c.
Proof.
  cbn [srcountsanalyzer_output.blocks_of]. intros [= <-]. cbn [block_lines].
  unfold srcountsanalyzer_output.described. rewrite lines_text_app.
  rewrite (lines_text_fmap _ (fun e => GoInt.fmt_d e.2 +:+ " ranks sent to "
                                       +:+ GoInt.fmt_d e.1 +:+ " other ranks" +:+ nl))
    by (intros e; apply line_with_newline).
  by rewrite (lines_text_fmap _ (fun e => GoInt.fmt_d e.2 +:+ " ranks recv'd from "
                                          +:+ GoInt.fmt_d e.1 +:+ " other ranks" +:+ nl))
    by (intros e; apply line_with_newline).
Qed.

Lemma find_block_found callNum before c after :
  (forall c', c' ∈ before ++ c :: after ->
     convert (notation_CompressIntArray (srcountsanalyzer.calls c'))
     = (srcountsanalyzer.calls c', None)) ->
  callNum ∈ srcountsanalyzer.calls c ->
  (forall b, b ∈ before -> callNum ∉ srcountsanalyzer.calls b) ->
  forall tick num,
    exists b, find_block convert callNum (blocks tick num (before ++ c :: after)) = Some b
              /\ lines_text (block_lines b) = described' (tick + 2 * length before) c.
Proof.
  intros Hconv Hin. revert Hconv.
  induction before as [|c0 before IH]; intros Hconv Hnot tick num.
  - simpl app. cbn [srcountsanalyzer_output.blocks_of find_block block_ids].
    rewrite (Hconv c) by (by left). cbn [fst].
    rewrite (proj2 (existsb_eqb_elem callNum _) Hin).
    eexists. split; [reflexivity|]. simpl length. rewrite Nat.mul_0_r, Nat.add_0_r.
    apply (blocks_lines tick num c after). reflexivity.
  - rewrite <- app_comm_cons.
    cbn [srcountsanalyzer_output.blocks_of find_block block_ids].
    rewrite (Hconv c0) by (by left). cbn [fst].
    assert (existsb (fun x => x =? callNum) (srcountsanalyzer.calls c0) = false) as ->.
    { apply not_true_iff_false. rewrite existsb_eqb_elem. apply Hnot. by left. }
    destruct IH with (tick := S (S tick)) (num := GoInt.add num 1)
      as (b & Hb & Hlines).
    { intros c' Hc'. apply Hconv. by right. }
    { intros b Hb. apply Hnot. by right. }
    exists b. split; [done|]. rewrite Hlines. f_equal. simpl length. lia.
Qed.

Lemma find_block_missing callNum cs :
  (forall c, c ∈ cs ->
     convert (notation_CompressIntArray (srcountsanalyzer.calls c))
     = (srcountsanalyzer.calls c, None)) ->
  (forall c, c ∈ cs -> callNum ∉ srcountsanalyzer.calls c) ->
  forall tick num, find_block convert callNum (blocks tick num cs) = None.
Proof.
  induction cs as [|c cs IH]; intros Hconv Hnot tick num; [done|].
  cbn [srcountsanalyzer_output.blocks_of find_block block_ids].
  rewrite (Hconv c) by (by left). cbn [fst].
  assert (existsb (fun x => x =? callNum) (srcountsanalyzer.calls c) = false) as ->.
  { apply not_true_iff_false. rewrite existsb_eqb_elem. apply Hnot. by left. }
  apply IH.
  - intros c' Hc'. apply Hconv. by right.
  - intros c' Hc'. apply Hnot. by right.
Qed.

End Printed_patterns.

(** X17.  The section of patterns that [srcountsanalyzer] prints is, after
    its first (empty) line, a patterns file that [GetCall] reads: for a call
    number held by the call list of a pattern, [GetCall] returns the lines
    that describe the first such pattern, as printed; for a call number of no
    call list it returns the error "unable to find data for call".  The
    package [notation] is assumed to print call lists without newline that
    do not start with a character of ["Alltoallv calls: "], and to decode
    what it prints. *)
Theorem GetCall_reads_the_patterns_printed_by_srcountsanalyzer
    (range_order : nat -> IntMap -> list (Z * Z))
    (notation_CompressIntArray : list Z -> string)
    (notation_ConvertCompressedCallListToIntSlice : string -> list Z * option error)
    (h : list srcountsanalyzer.callPattern) (g : srcountsanalyzer.GlobalPatterns)
    (cs : list srcountsanalyzer.callPattern) (tick : nat)
    (dir : string) (jobid rank : Z) :
  Forall2 (fun p c => h !! p = Some c) (srcountsanalyzer.cp g) cs ->
  (forall c, c ∈ cs ->
     call_list_text (notation_CompressIntArray (srcountsanalyzer.calls c)) = true
     /\ notation_ConvertCompressedCallListToIntSlice
          (notation_CompressIntArray (srcountsanalyzer.calls c))
        = (srcountsanalyzer.calls c, None)) ->
  exists file,
    srcountsanalyzer_output.print_patterns_section range_order notation_CompressIntArray
      h tick g = Some (nl +:+ file)
    /\ forall callNum,
         (forall before c after,
            cs = before ++ c :: after ->
            callNum ∈ srcountsanalyzer.calls c ->
            (forall b, b ∈ before -> callNum ∉ srcountsanalyzer.calls b) ->
            GetCall notation_ConvertCompressedCallListToIntSlice
              {[GetFilePath dir jobid rank := file]} dir jobid rank callNum
            = Some (srcountsanalyzer_output.described range_order
                      (tick + 2 * length before) c, None))
         /\ ((forall c, c ∈ cs -> callNum ∉ srcountsanalyzer.calls c) ->
             GetCall notation_ConvertCompressedCallListToIntSlice
               {[GetFilePath dir jobid rank := file]} dir jobid rank callNum
             = Some (EmptyString, Some (unable_to_find_call callNum))).
Proof.
  intros Hrep Hnotation.
  exists (("# Patterns" +:+ nl)
          +:+ join (block_text <$> srcountsanalyzer_output.blocks_of range_order
                                     notation_CompressIntArray tick 0 cs)).
  split.
  { unfold srcountsanalyzer_output.print_patterns_section.
    rewrite (print_patterns_blocks _ _ _ _ _ Hrep). cbn [mbind option_bind].
    by rewrite !append_assoc. }
  assert (forall callNum,
            GetCall notation_ConvertCompressedCallListToIntSlice
              {[GetFilePath dir jobid rank :=
                  ("# Patterns" +:+ nl)
                  +:+ join (block_text <$> srcountsanalyzer_output.blocks_of range_order
                                             notation_CompressIntArray tick 0 cs)]}
              dir jobid rank callNum
            = Some match find_block notation_ConvertCompressedCallListToIntSlice callNum
                           (srcountsanalyzer_output.blocks_of range_order
                              notation_CompressIntArray tick 0 cs) with
                   | Some b => (lines_text (block_lines b), None)
                   | None => (EmptyString, Some (unable_to_find_call callNum))
                   end) as Hget.
  { intros callNum. unfold GetCall. rewrite lookup_singleton_eq.
    rewrite append_assoc, ReadString_line by reflexivity.
    rewrite String.eqb_refl. cbn [negb].
    apply GetCall_loop_blocks; [|lia].
    apply blocks_ok. intros c Hc. destruct (Hnotation c Hc) as [Ht Hc']. by rewrite Hc'. }
  intros callNum. split.
  - intros before c after -> Hin Hnot. rewrite Hget.
    destruct (find_block_found range_order notation_CompressIntArray
                notation_ConvertCompressedCallListToIntSlice callNum before c after)
      with (tick := tick) (num := 0) as (b & -> & ->); try done.
    intros c' Hc'. by destruct (Hnotation c' Hc').
  - intros Hnot. rewrite Hget, find_block_missing; try done.
    intros c Hc. by destruct (Hnotation c Hc).
Qed.

Lemma GetCall_reads_the_patterns_printed_by_srcountsanalyzer_witness :
  exists file,
    srcountsanalyzer_output.print_patterns_section (fun _ m => range_map m)
      (fun l => match l with [_; _] => "0,2" | _ => "1" end)
      [srcountsanalyzer.mkCallPattern Sample.two_by_two Sample.two_by_two 2 [0; 2];
       srcountsanalyzer.mkCallPattern Sample.mixed Sample.mixed 1 [1]]
      4 (srcountsanalyzer.mkGlobalPatterns [0; 1]%nat) = Some (nl +:+ file)
    /\ forall callNum,
         (forall before c after,
            [srcountsanalyzer.mkCallPattern Sample.two_by_two Sample.two_by_two 2 [0; 2];
             srcountsanalyzer.mkCallPattern Sample.mixed Sample.mixed 1 [1]]
            = before ++ c :: after ->
            callNum ∈ srcountsanalyzer.calls c ->
            (forall b, b ∈ before -> callNum ∉ srcountsanalyzer.calls b) ->
            GetCall (fun s => if String.eqb s "0,2" then ([0; 2], None) else ([1], None))
              {[GetFilePath "out" 7 0 := file]} "out" 7 0 callNum
            = Some (srcountsanalyzer_output.described (fun _ m => range_map m)
                      (4 + 2 * length before) c, None))
         /\ ((forall c,
                c ∈ [srcountsanalyzer.mkCallPattern Sample.two_by_two Sample.two_by_two
                       2 [0; 2];
                     srcountsanalyzer.mkCallPattern Sample.mixed Sample.mixed 1 [1]] ->
                callNum ∉ srcountsanalyzer.calls c) ->
             GetCall (fun s => if String.eqb s "0,2" then ([0; 2], None) else ([1], None))
               {[GetFilePath "out" 7 0 := file]} "out" 7 0 callNum
             = Some (EmptyString, Some (unable_to_find_call callNum))).
Proof.
  apply (GetCall_reads_the_patterns_printed_by_srcountsanalyzer (fun _ m => range_map m)
           (fun l => match l with [_; _] => "0,2" | _ => "1" end)
           (fun s => if String.eqb s "0,2" then ([0; 2], None) else ([1], None))
           [srcountsanalyzer.mkCallPattern Sample.two_by_two Sample.two_by_two 2 [0; 2];
            srcountsanalyzer.mkCallPattern Sample.mixed Sample.mixed 1 [1]]
           (srcountsanalyzer.mkGlobalPatterns [0; 1]%nat)
           [srcountsanalyzer.mkCallPattern Sample.two_by_two Sample.two_by_two 2 [0; 2];
            srcountsanalyzer.mkCallPattern Sample.mixed Sample.mixed 1 [1]]
           4%nat "out" 7 0).
  - repeat constructor.
  - intros c [->|[->|[]%elem_of_nil]%elem_of_cons]%elem_of_cons; split; reflexivity.
Defined.

(** ** A block whose data holds a line of call numbers *)

Section Swallowed_error.

Variable convert : string -> list Z * option error.

(** The loop of [GetCall] passes the well-formed blocks that do not hold the
    call number. *)
Lemma GetCall_loop_skips path callNum tail before : forall fuel,
  Forall (block_ok convert) before ->
  find_block convert callNum before = None ->
  (String.length (join (block_text <$> before) +:+ tail) < fuel)%nat ->
  exists fuel',
    (String.length tail < fuel')%nat
    /\ GetCall_loop convert fuel path callNum (join (block_text <$> before) +:+ tail)
       = GetCall_loop convert fuel' path callNum tail.
Proof.
  induction before as [|b before IH]; intros fuel Hok Hfind Hfuel.
  - exists fuel. by rewrite append_nil_l in *.
  - apply Forall_cons in Hok as [(Htitle & Hids & Hlines & Hconv) Hok].
    cbn [find_block] in Hfind.
    destruct (existsb _ _) eqn:Hex; [done|].
    destruct fuel as [|fuel]; [lia|].
    rewrite fmap_cons, join_cons in *.
    destruct (IH fuel Hok Hfind) as (fuel' & Hfuel' & Hloop).
    { rewrite append_assoc, length_append in Hfuel.
      pose proof (block_text_length b). lia. }
    exists fuel'. split; [done|]. rewrite <- Hloop.
    cbn [GetCall_loop]. unfold block_text at 1. rewrite !append_assoc.
    rewrite <- (append_assoc "## Pattern #"), <- (append_assoc "Alltoallv calls: ").
    rewrite GetPatternHeader_adjacent_lines by done. rewrite Hconv, Hex.
    unfold getPatterns. rewrite getPatterns_loop_lines by (done || lia).
    by rewrite append_nil_l.
Qed.

End Swallowed_error.

(** X18.  [GetCall] drops the error of [getPatterns]: when, after
    well-formed blocks that do not hold the call number, it reaches a block
    whose data is followed by a line starting with ["Alltoallv calls: "]
    instead of an empty line (the title line of the next block is missing),
    it returns the empty text and a nil error, whether the block holds the
    call number or not. *)
Theorem GetCall_returns_nothing_and_no_error_on_a_compromised_block
    (convert : string -> list Z * option error)
    (fs : gmap string string) (dir : string) (jobid rank callNum : Z)
    (before : list Block) (b : Block) (ids' rest : string) :
  fs !! GetFilePath dir jobid rank
  = Some (("# Patterns" +:+ nl)
          +:+ join (block_text <$> before)
          +:+ ("## Pattern #" +:+ block_title b) +:+ nl
          +:+ ("Alltoallv calls: " +:+ block_ids b) +:+ nl
          +:+ lines_text (block_lines b)
          +:+ ("Alltoallv calls: " +:+ ids') +:+ nl +:+ rest) ->
  Forall (block_ok convert) before ->
  find_block convert callNum before = None ->
  block_ok convert b ->
  no_newline ids' = true ->
  GetCall convert fs dir jobid rank callNum = Some (EmptyString, None).
Proof.
  intros Hfile Hok Hfind (Htitle & Hids & Hlines & Hconv) Hids'.
  unfold GetCall. rewrite Hfile.
  rewrite append_assoc, ReadString_line by reflexivity.
  rewrite String.eqb_refl. cbn [negb].
  destruct (GetCall_loop_skips convert (GetFilePath dir jobid rank) callNum
              (("## Pattern #" +:+ block_title b) +:+ nl
               +:+ ("Alltoallv calls: " +:+ block_ids b) +:+ nl
               +:+ lines_text (block_lines b)
               +:+ ("Alltoallv calls: " +:+ ids') +:+ nl +:+ rest)
              before _ Hok Hfind (Nat.lt_succ_diag_r _))
    as (fuel & Hfuel & ->).
  destruct fuel as [|fuel]; [lia|]. cbn [GetCall_loop].
  rewrite GetPatternHeader_adjacent_lines by done. rewrite Hconv.
  unfold getPatterns.
  rewrite getPatterns_loop_compromised; [|done| | |lia].
  - cbn [mbind option_bind]. by destruct (existsb _ _).
  - rewrite no_newline_app, Hids'. reflexivity.
  - rewrite append_assoc. apply prefix_append.
Qed.

Lemma GetCall_returns_nothing_and_no_error_on_a_compromised_block_witness :
  GetCall (fun s => if String.eqb s "0,2" then ([0; 2], None) else ([1], None))
    {[GetFilePath "out" 7 0 :=
        ("# Patterns" +:+ nl)
        +:+ join (block_text <$> [])
        +:+ ("## Pattern #" +:+ "0 (2 alltoallv calls)") +:+ nl
        +:+ ("Alltoallv calls: " +:+ "0,2") +:+ nl
        +:+ lines_text ["4 ranks sent to 4 other ranks"]
        +:+ ("Alltoallv calls: " +:+ "1") +:+ nl
        +:+ "2 ranks sent to 2 other ranks" +:+ nl +:+ nl]}
    "out" 7 0 2
  = Some (EmptyString, None).
Proof.
  apply (GetCall_returns_nothing_and_no_error_on_a_compromised_block
           (fun s => if String.eqb s "0,2" then ([0; 2], None) else ([1], None))
           _ "out" 7 0 2 []
           (mkBlock "0 (2 alltoallv calls)" "0,2" ["4 ranks sent to 4 other ranks"])
           "1" ("2 ranks sent to 2 other ranks" +:+ nl +:+ nl)).
  - by rewrite lookup_singleton_eq.
  - constructor.
  - reflexivity.
  - repeat split. repeat constructor.
  - reflexivity.
Defined.

(** ** What a successful [WriteToFile] leaves in the world *)

Section Written_block.

Variable range_order : nat -> IntMap -> list (Z * Z).
Variable notation_CompressIntArray : list Z -> string.

Lemma WriteString_ok fd s w old q :
  files w !! fd = Some old -> quota w = S q ->
  WriteString fd s w = Some (None, mkWorld (<[fd := old +:+ s]> (files w)) q (tick w)).
Proof. intros Hold Hq. unfold WriteString, content_of. by rewrite Hq, Hold. Qed.

Lemma for_each_writes fd {A} (f : A -> string) l : forall fs q t old,
  fs !! fd = Some old -> (length l <= q)%nat ->
  for_each (fun e => WriteString fd (f e)) l (mkWorld fs q t)
  = Some (None, mkWorld (<[fd := old +:+ join (f <$> l)]> fs) (q - length l) t).
Proof.
  induction l as [|x l IH]; intros fs q t old Hold Hq.
  - simpl. unfold ret. rewrite append_nil_r, insert_id by done.
    by rewrite Nat.sub_0_r.
  - simpl in Hq. destruct q as [|q]; [lia|]. cbn [for_each]. unfold bind.
    rewrite (WriteString_ok fd (f x) _ old q) by done. cbn [files tick].
    rewrite (IH _ _ _ (old +:+ f x)) by (by rewrite ?lookup_insert_eq || lia).
    rewrite insert_insert_eq, fmap_cons, join_cons, append_assoc. reflexivity.
Qed.

End Written_block.

(** X19.  [WriteToFile] on an allocated bucket, a file that is open and a
    file system that accepts all its writes: it returns a nil error and has
    appended to the file exactly one block (the header line ending in two
    newlines, the line of the call list, one line per entry of the send
    signature, one per entry of the receive signature, an empty line); no
    other file has changed, and two [range] statements were executed. *)
Theorem WriteToFile_appends_one_block
    (range_order : nat -> IntMap -> list (Z * Z))
    (notation_CompressIntArray : list Z -> string)
    (h : list CallData) (fd : string) (num totalNumCalls : Z) (p : nat)
    (c : CallData) (w : World) (old : string) :
  h !! p = Some c ->
  files w !! fd = Some old ->
  (3 + length (range_order (tick w) (Send c))
   + length (range_order (S (tick w)) (Recv c)) <= quota w)%nat ->
  WriteToFile range_order notation_CompressIntArray h fd num totalNumCalls p w
  = Some (None,
          mkWorld
            (<[fd := old
                     +:+ pattern_header num (Count c) totalNumCalls
                     +:+ ("Alltoallv calls: " +:+ notation_CompressIntArray (Calls c)
                          +:+ nl)
                     +:+ join (sent_line <$> range_order (tick w) (Send c))
                     +:+ join (recvd_line <$> range_order (S (tick w)) (Recv c))
                     +:+ nl]> (files w))
            (quota w - (3 + length (range_order (tick w) (Send c))
                        + length (range_order (S (tick w)) (Recv c))))
            (S (S (tick w)))).
Proof.
  intros Hp Hold Hq. destruct w as [fs q t]. cbn [files quota tick] in *.
  destruct q as [|[|q]]; [lia|lia|].
  unfold WriteToFile, writeDataToFile, bind, deref, range. rewrite Hp.
  rewrite (WriteString_ok fd _ _ old (S q)) by done. cbn [files quota tick].
  rewrite (WriteString_ok fd _ _ (old +:+ pattern_header num (Count c) totalNumCalls) q)
    by (cbn [files quota]; by rewrite ?lookup_insert_eq). cbn [files quota tick].
  erewrite for_each_writes; [|by rewrite lookup_insert_eq|lia].
  cbn [files quota tick].
  erewrite for_each_writes; [|by rewrite lookup_insert_eq|lia].
  unfold ret.
  destruct (q - length (range_order t (Send c))
            - length (range_order (S t) (Recv c)))%nat as [|q'] eqn:Hq'; [lia|].
  erewrite WriteString_ok;
    [|cbn [files]; by rewrite lookup_insert_eq|reflexivity].
  cbn [files quota tick]. rewrite !insert_insert_eq, !append_assoc.
  do 3 f_equal. lia.
Qed.

Lemma WriteToFile_appends_one_block_witness :
  WriteToFile (fun _ m => range_map m) (fun _ => "1")
    [mkCallData Sample.two_by_two Sample.two_by_two 1 [1]] "out.md" 0 3 0%nat
    (mkWorld {["out.md" := "# Patterns" +:+ nl]} 5 0)
  = Some (None,
          mkWorld
            (<["out.md" :=
                 ("# Patterns" +:+ nl)
                 +:+ pattern_header 0 1 3
                 +:+ ("Alltoallv calls: " +:+ "1" +:+ nl)
                 +:+ join (sent_line <$> range_map Sample.two_by_two)
                 +:+ join (recvd_line <$> range_map Sample.two_by_two)
                 +:+ nl]> {["out.md" := "# Patterns" +:+ nl]})
            (5 - (3 + length (range_map Sample.two_by_two)
                  + length (range_map Sample.two_by_two)))
            2).
Proof.
  pose proof (WriteToFile_appends_one_block (fun _ m => range_map m) (fun _ => "1")
                [mkCallData Sample.two_by_two Sample.two_by_two 1 [1]] "out.md" 0 3 0%nat
                (mkCallData Sample.two_by_two Sample.two_by_two 1 [1])
                (mkWorld {["out.md" := "# Patterns" +:+ nl]} 5 0)
                ("# Patterns" +:+ nl)) as Hblock.
  cbn [Count Send Recv Calls tick files quota] in Hblock.
  apply Hblock.
  - reflexivity.
  - by rewrite lookup_singleton_eq.
  - vm_compute. lia.
Defined.

(** ** The summary file *)

Section Summary_text.

Variable range_order : nat -> IntMap -> list (Z * Z).
Variable notation_CompressIntArray : list Z -> string.

Local Abbreviation write := (WriteToFile range_order notation_CompressIntArray).
Local Abbreviation block := (block_written range_order notation_CompressIntArray).
Local Abbreviation blocks' := (blocks_written range_order notation_CompressIntArray).

Lemma WriteString_tick fd s w w' :
  WriteString fd s w = Some (None, w') -> tick w' = tick w.
Proof. unfold WriteString. destruct (quota w); [done|]. by intros [= <-]. Qed.

Lemma for_each_writes_inv fd {A} (f : A -> string) l : forall w w' text,
  files w !! fd = Some text ->
  for_each (fun e => WriteString fd (f e)) l w = Some (None, w') ->
  files w' !! fd = Some (text +:+ join (f <$> l)) /\ tick w' = tick w.
Proof.
  induction l as [|x l IH]; intros w w' text Ht Hrun.
  - injection Hrun as <-. by rewrite append_nil_r.
  - cbn [for_each] in Hrun. apply try_inv in Hrun as (w1 & Hx & Hrun).
    rewrite fmap_cons, join_cons, <- append_assoc.
    rewrite <- (WriteString_tick _ _ _ _ Hx).
    eapply IH; [|exact Hrun]. by eapply WriteString_text.
Qed.

(** A successful [WriteToFile] appends the block of its bucket and runs two
    [range] statements. *)
Lemma WriteToFile_inv h fd num total p w w' old :
  files w !! fd = Some old ->
  write h fd num total p w = Some (None, w') ->
  exists c, h !! p = Some c
            /\ files w' !! fd = Some (old +:+ block (tick w) num total c)
            /\ tick w' = S (S (tick w)).
Proof.
  intros Hold Hrun. unfold WriteToFile in Hrun.
  apply bind_inv in Hrun as (c & w0 & Hc & Hrun).
  unfold deref in Hc. destruct (h !! p) as [c'|] eqn:Hp; [|done].
  injection Hc as -> ->. exists c. split; [done|].
  apply try_inv in Hrun as (w1 & H1 & Hrun).
  apply try_inv in Hrun as (w2 & H2 & Hrun).
  apply try_inv in Hrun as (w3 & H3 & Hrun).
  apply try_inv in Hrun as (w4 & H4 & Hrun).
  injection Hrun as <-.
  pose proof (WriteString_text _ _ _ _ _ Hold H1) as T1.
  pose proof (WriteString_text _ _ _ _ _ T1 H2) as T2.
  pose proof (WriteString_tick _ _ _ _ H1) as K1.
  pose proof (WriteString_tick _ _ _ _ H2) as K2.
  unfold writeDataToFile in H3.
  apply bind_inv in H3 as (c' & w2' & Hc' & H3).
  unfold deref in Hc'. rewrite Hp in Hc'. injection Hc' as <- <-.
  apply bind_inv in H3 as (sends & wa & Hsends & H3).
  injection Hsends as <- <-.
  apply try_inv in H3 as (wb & Hs & H3).
  apply bind_inv in H3 as (recvs & wc & Hrecvs & H3).
  injection Hrecvs as <- <-.
  apply try_inv in H3 as (wd & Hr & H3). injection H3 as <-.
  destruct (for_each_writes_inv fd sent_line _
              (mkWorld (files w2) (quota w2) (S (tick w2))) _ _ T2 Hs) as [T3 K3].
  cbn [tick] in K3.
  destruct (for_each_writes_inv fd recvd_line _
              (mkWorld (files wb) (quota wb) (S (tick wb))) _ _ T3 Hr) as [T4 K4].
  cbn [tick] in K4.
  rewrite (WriteString_text _ _ _ _ _ T4 H4), (WriteString_tick _ _ _ _ H4).
  split; [|lia].
  unfold block_written. rewrite K3, K2, K1. by rewrite !append_assoc.
Qed.

Lemma for_each_num_blocks h fd total ps : forall n w w' old,
  files w !! fd = Some old ->
  for_each_num (fun num cp => write h fd num total cp) n ps w = Some (None, w') ->
  exists cs, buckets_at h ps cs
             /\ files w' !! fd = Some (old +:+ blocks' (tick w) total (numbered n cs))
             /\ tick w' = (tick w + 2 * length cs)%nat.
Proof.
  induction ps as [|p ps IH]; intros n w w' old Hold Hrun.
  - injection Hrun as <-. exists []. split; [constructor|].
    simpl. rewrite append_nil_r. split; [done|lia].
  - cbn [for_each_num] in Hrun. apply try_inv in Hrun as (w1 & Hp & Hrun).
    destruct (WriteToFile_inv _ _ _ _ _ _ _ _ Hold Hp) as (c & Hc & T1 & K1).
    destruct (IH _ _ _ _ T1 Hrun) as (cs & Hcs & T2 & K2).
    exists (c :: cs). split; [by constructor|].
    cbn [numbered blocks_written]. rewrite T2, K2, K1, append_assoc.
    split; [done|]. simpl length. lia.
Qed.

Lemma for_each_blocks h fd total ps : forall w w' old,
  files w !! fd = Some old ->
  for_each (fun cp => write h fd 0 total cp) ps w = Some (None, w') ->
  exists cs, buckets_at h ps cs
             /\ files w' !! fd
                = Some (old +:+ blocks' (tick w) total ((fun c => (0, c)) <$> cs))
             /\ tick w' = (tick w + 2 * length cs)%nat.
Proof.
  induction ps as [|p ps IH]; intros w w' old Hold Hrun.
  - injection Hrun as <-. exists []. split; [constructor|].
    simpl. rewrite append_nil_r. split; [done|lia].
  - cbn [for_each] in Hrun. apply try_inv in Hrun as (w1 & Hp & Hrun).
    destruct (WriteToFile_inv _ _ _ _ _ _ _ _ Hold Hp) as (c & Hc & T1 & K1).
    destruct (IH _ _ _ T1 Hrun) as (cs & Hcs & T2 & K2).
    exists (c :: cs). split; [by constructor|].
    rewrite fmap_cons. cbn [blocks_written]. rewrite T2, K2, K1, append_assoc.
    split; [done|]. simpl length. lia.
Qed.

End Summary_text.

(** X20.  The summary file that [SaveStats] has written when every write
    succeeded.  With no bucket in [OneToN], [NToOne] and [NToN] it holds the
    sentence "Nothing special detected; no summary", without newline.
    Otherwise it holds the sections "1 to N", "N to 1" and "N to n" in this
    order, each only when its view is not empty; the blocks of the first
    section are numbered 0, 1, 2, ... and every block of the other two
    sections bears the number 0. *)
Theorem SaveStats_summary_numbers_only_the_first_section
    (range_order : nat -> IntMap -> list (Z * Z))
    (notation_CompressIntArray : list Z -> string)
    (h : list CallData) (fd : string) (d : Data) (numCalls : Z)
    (w w' : World) (old : string) :
  files w !! fd = Some old ->
  SaveStats_summary range_order notation_CompressIntArray h fd d numCalls w
  = Some (None, w') ->
  exists one_to_n n_to_one n_to_n,
    buckets_at h (OneToN d) one_to_n
    /\ buckets_at h (NToOne d) n_to_one
    /\ buckets_at h (NToN d) n_to_n
    /\ files w' !! fd
       = Some (old +:+ summary_text range_order notation_CompressIntArray (tick w)
                         numCalls one_to_n n_to_one n_to_n).
Proof.
  intros Hold Hrun. unfold SaveStats_summary in Hrun.
  destruct (NoSummary d) eqn:Hno; cbn [negb] in Hrun.
  - apply try_inv in Hrun as (w1 & Hw & Hrun). injection Hrun as <-.
    unfold NoSummary in Hno.
    destruct (OneToN d), (NToOne d), (NToN d); try done.
    exists [], [], []. repeat (split; [constructor|]).
    by eapply WriteString_text.
  - apply try_inv in Hrun as (w1 & H1 & Hrun).
    apply try_inv in Hrun as (w2 & H2 & Hrun).
    apply try_inv in Hrun as (w3 & H3 & Hrun). injection Hrun as <-.
    assert (exists cs1, buckets_at h (OneToN d) cs1
              /\ files w1 !! fd
                 = Some (old +:+ summary_section range_order notation_CompressIntArray
                                   ("# 1 to N patterns" +:+ nl +:+ nl) (tick w) numCalls
                                   (numbered 0 cs1))
              /\ tick w1 = (tick w + 2 * length cs1)%nat) as (cs1 & B1 & T1 & K1).
    { destruct (OneToN d) as [|p ps] eqn:Hv; cbn [length Nat.eqb negb] in H1.
      - injection H1 as <-. exists []. split; [constructor|].
        simpl. rewrite append_nil_r. split; [done|lia].
      - apply try_inv in H1 as (w0 & Ht & H1).
        pose proof (WriteString_text _ _ _ _ _ Hold Ht) as T0.
        destruct (for_each_num_blocks _ _ _ _ _ _ _ _ _ _ T0 H1) as (cs & B & T & K).
        exists cs. split; [done|]. rewrite T, K, (WriteString_tick _ _ _ _ Ht).
        split; [|done]. inversion B; subst. cbn [numbered summary_section].
        by rewrite append_assoc. }
    assert (exists cs2, buckets_at h (NToOne d) cs2
              /\ files w2 !! fd
                 = Some ((old +:+ summary_section range_order notation_CompressIntArray
                                    ("# 1 to N patterns" +:+ nl +:+ nl) (tick w) numCalls
                                    (numbered 0 cs1))
                         +:+ summary_section range_order notation_CompressIntArray
                               (nl +:+ "# N to 1 patterns" +:+ nl +:+ nl) (tick w1)
                               numCalls ((fun c => (0, c)) <$> cs2))
              /\ tick w2 = (tick w1 + 2 * length cs2)%nat) as (cs2 & B2 & T2 & K2).
    { destruct (NToOne d) as [|p ps] eqn:Hv; cbn [length Nat.eqb negb] in H2.
      - injection H2 as <-. exists []. split; [constructor|].
        simpl. rewrite append_nil_r. split; [done|lia].
      - apply try_inv in H2 as (w0 & Ht & H2).
        pose proof (WriteString_text _ _ _ _ _ T1 Ht) as T0.
        destruct (for_each_blocks _ _ _ _ _ _ _ _ _ T0 H2) as (cs & B & T & K).
        exists cs. split; [done|]. rewrite T, K, (WriteString_tick _ _ _ _ Ht).
        split; [|done]. inversion B; subst. rewrite fmap_cons.
        cbn [summary_section]. by rewrite !append_assoc. }
    assert (exists cs3, buckets_at h (NToN d) cs3
              /\ files w3 !! fd
                 = Some (((old +:+ summary_section range_order notation_CompressIntArray
                                     ("# 1 to N patterns" +:+ nl +:+ nl) (tick w)
                                     numCalls (numbered 0 cs1))
                          +:+ summary_section range_order notation_CompressIntArray
                                (nl +:+ "# N to 1 patterns" +:+ nl +:+ nl) (tick w1)
                                numCalls ((fun c => (0, c)) <$> cs2))
                         +:+ summary_section range_order notation_CompressIntArray
                               (nl +:+ "# N to n patterns" +:+ nl +:+ nl) (tick w2)
                               numCalls ((fun c => (0, c)) <$> cs3)))
      as (cs3 & B3 & T3).
    { destruct (NToN d) as [|p ps] eqn:Hv; cbn [length Nat.eqb negb] in H3.
      - injection H3 as <-. exists []. split; [constructor|].
        simpl. by rewrite append_nil_r.
      - apply try_inv in H3 as (w0 & Ht & H3).
        pose proof (WriteString_text _ _ _ _ _ T2 Ht) as T0.
        destruct (for_each_blocks _ _ _ _ _ _ _ _ _ T0 H3) as (cs & B & T & K).
        exists cs. split; [done|]. rewrite T, (WriteString_tick _ _ _ _ Ht).
        inversion B; subst. rewrite fmap_cons.
        cbn [summary_section]. by rewrite !append_assoc. }
    exists cs1, cs2, cs3. repeat (split; [done|]).
    rewrite T3, K2, K1, !append_assoc. f_equal. f_equal.
    unfold summary_text.
    destruct cs1 as [|c1 cs1], cs2 as [|c2 cs2], cs3 as [|c3 cs3]; try reflexivity.
    exfalso. inversion B1 as [Hv1|]; inversion B2 as [Hv2|]; inversion B3 as [Hv3|].
    unfold NoSummary in Hno. by rewrite <- Hv1, <- Hv2, <- Hv3 in Hno.
Qed.

Lemma SaveStats_summary_numbers_only_the_first_section_witness :
  exists one_to_n n_to_one n_to_n,
    buckets_at SampleSummary.store (OneToN SampleSummary.data) one_to_n
    /\ buckets_at SampleSummary.store (NToOne SampleSummary.data) n_to_one
    /\ buckets_at SampleSummary.store (NToN SampleSummary.data) n_to_n
    /\ files SampleSummary.written !! "summary.md"
       = Some ("" +:+ summary_text (fun _ m => range_map m) SampleSummary.compress
                        (tick SampleSummary.world) 3 one_to_n n_to_one n_to_n).
Proof.
  apply (SaveStats_summary_numbers_only_the_first_section (fun _ m => range_map m)
           SampleSummary.compress SampleSummary.store "summary.md" SampleSummary.data 3
           SampleSummary.world SampleSummary.written "").
  - reflexivity.
  - by vm_compute.
Defined.

(** ** The paths of the files of a group *)

Section Paths.

Lemma append_inj_l s a b : s +:+ a = s +:+ b -> a = b.
Proof.
  induction s as [|c s IH]; [done|]. rewrite !append_cons. intros [= H]. by apply IH.
Qed.

Lemma append_char_inj a b c :
  a +:+ String c EmptyString = b +:+ String c EmptyString -> a = b.
Proof.
  revert b. induction a as [|x a IH]; intros [|y b]; rewrite ?append_cons, ?append_nil_l.
  - done.
  - intros [= _ H]. by destruct b.
  - intros [= _ H]. by destruct a.
  - intros [= -> H]. f_equal. by apply IH.
Qed.

Lemma in_cutset_app c a b : in_cutset c (a +:+ b) = in_cutset c a || in_cutset c b.
Proof.
  induction a as [|x a IH]; [done|]. rewrite append_cons. simpl.
  by rewrite IH, orb_assoc.
Qed.

(** A text is cut in one way only at the first occurrence of a character. *)
Lemma split_unique c a1 : forall a2 b1 b2,
  in_cutset c a1 = false -> in_cutset c a2 = false ->
  a1 +:+ String c b1 = a2 +:+ String c b2 -> a1 = a2 /\ b1 = b2.
Proof.
  induction a1 as [|x a1 IH]; intros [|y a2] b1 b2 H1 H2;
    rewrite ?append_cons, ?append_nil_l.
  - by intros [= ->].
  - intros [= <- _]. simpl in H2. by rewrite Ascii.eqb_refl in H2.
  - intros [= -> _]. simpl in H1. by rewrite Ascii.eqb_refl in H1.
  - intros [= -> H]. simpl in H1, H2.
    apply orb_false_elim in H1 as [_ H1]. apply orb_false_elim in H2 as [_ H2].
    destruct (IH _ _ _ H1 H2 H) as [-> ->]. done.
Qed.

Lemma uint_lacks_r d : in_cutset "r" (NilEmpty.string_of_uint d) = false.
Proof. induction d; simpl; done. Qed.

Lemma uint_lacks_dot d : in_cutset "." (NilEmpty.string_of_uint d) = false.
Proof. induction d; simpl; done. Qed.

Lemma fmt_d_lacks_r z : in_cutset "r" (GoInt.fmt_d z) = false.
Proof.
  unfold GoInt.fmt_d, NilZero.string_of_int, NilZero.string_of_uint.
  destruct (Z.to_int z) as [d|d]; destruct d; simpl; try done; apply uint_lacks_r.
Qed.

Lemma fmt_d_lacks_dot z : in_cutset "." (GoInt.fmt_d z) = false.
Proof.
  unfold GoInt.fmt_d, NilZero.string_of_int, NilZero.string_of_uint.
  destruct (Z.to_int z) as [d|d]; destruct d; simpl; try done; apply uint_lacks_dot.
Qed.

(** Two integers that print alike are equal. *)
Lemma fmt_d_inj a b : GoInt.fmt_d a = GoInt.fmt_d b -> a = b.
Proof.
  unfold GoInt.fmt_d. intros Heq.
  assert (forall z, Z.to_int z <> Decimal.Pos Decimal.Nil
                    /\ Z.to_int z <> Decimal.Neg Decimal.Nil) as Hnn.
  { intros [|p|p]; simpl; split; try done; intros [= H];
      by apply DecimalPos.Unsigned.to_uint_nonnil in H. }
  assert (Some (Z.to_int a) = Some (Z.to_int b)) as [= Hint].
  { rewrite <- (NilZero.isi (Z.to_int a)), <- (NilZero.isi (Z.to_int b));
      try apply Hnn. by rewrite Heq. }
  by rewrite <- (DecimalZ.of_to a), <- (DecimalZ.of_to b), Hint.
Qed.

Lemma uint_lacks_slash d : in_cutset "/" (NilEmpty.string_of_uint d) = false.
Proof. induction d; simpl; done. Qed.

Lemma fmt_d_lacks_slash z : in_cutset "/" (GoInt.fmt_d z) = false.
Proof.
  unfold GoInt.fmt_d, NilZero.string_of_int, NilZero.string_of_uint.
  destruct (Z.to_int z) as [d|d]; destruct d; simpl; try done; apply uint_lacks_slash.
Qed.

Lemma path_elements_nonempty path : path_elements path <> [].
Proof.
  destruct path as [|c rest]; [done|]. cbn [path_elements].
  destruct (Ascii.eqb c "/"); [done|]. by destruct (path_elements rest).
Qed.

(** The elements of two paths joined by a separator. *)
Lemma path_elements_app a b :
  path_elements (a +:+ String "/" b) = path_elements a ++ path_elements b.
Proof.
  induction a as [|c a IH]; [done|]. rewrite append_cons. cbn [path_elements].
  rewrite IH. destruct (Ascii.eqb c "/"); [done|].
  pose proof (path_elements_nonempty a). by destruct (path_elements a).
Qed.

Lemma prefix_nil s : String.prefix "" s = true.
Proof. by destruct s. Qed.

(** A text without separator is one element. *)
Lemma path_elements_one n : in_cutset "/" n = false -> path_elements n = [n].
Proof.
  induction n as [|c n IH]; [done|]. cbn [in_cutset path_elements].
  intros [Hc Hn]%orb_false_elim. rewrite Ascii.eqb_sym, Hc. by rewrite IH.
Qed.

Lemma join_with_snoc sep pre n :
  join_with sep (pre ++ [n])
  = match pre with
    | [] => EmptyString
    | _ :: _ => join_with sep pre +:+ sep
    end +:+ n.
Proof.
  induction pre as [|e pre IH]; [done|].
  rewrite <- app_comm_cons. cbn [join_with]. rewrite IH.
  destruct pre as [|e' pre]; simpl app.
  - by rewrite append_nil_l, append_assoc.
  - by rewrite !append_assoc.
Qed.

(** Joining a name to a directory puts the name, as it is, at the end of a
    text that depends on the directory only. *)
Lemma filepath_Join_file_name d :
  exists front, forall n, file_name n -> filepath_Join d n = front +:+ n.
Proof.
  assert (forall rooted out n, file_name n ->
            Clean_element rooted out n = (out.1, n :: out.2)) as Hstep.
  { intros rooted out n (_ & H1 & H2 & H3). unfold Clean_element.
    apply String.eqb_neq in H1, H2, H3. by rewrite H1, H2, H3. }
  unfold filepath_Join. destruct d as [|c d].
  - exists EmptyString. intros n Hn. cbn [String.eqb].
    pose proof Hn as (Hslash & Hne & _).
    apply String.eqb_neq in Hne. rewrite Hne. unfold filepath_Clean. rewrite Hne.
    assert (String.prefix "/" n = false) as ->.
    { destruct n as [|x n]; [done|]. simpl in Hslash.
      apply orb_false_elim in Hslash as [Hx _]. cbn [String.prefix].
      destruct (ascii_dec "/" x) as [<-|]; [done|done]. }
    rewrite path_elements_one by done. cbn [foldl]. rewrite Hstep by done.
    reflexivity.
  - cbn [String.eqb].
    set (rooted := String.prefix "/" (String c d)).
    set (out := foldl (Clean_element rooted) (0%nat, []) (path_elements (String c d))).
    set (pre := replicate out.1 ".." ++ reverse out.2).
    exists ((if rooted then "/" else "")
            +:+ match pre with
                | [] => EmptyString
                | _ :: _ => join_with "/" pre +:+ "/"
                end).
    intros n Hn. unfold filepath_Clean.
    assert (String.prefix "/" (String c d +:+ "/" +:+ n) = rooted) as ->.
    { unfold rooted. rewrite append_cons. cbn [String.prefix].
      destruct (ascii_dec "/" c); [|done]. by rewrite !prefix_nil. }
    rewrite append_cons. cbn [String.eqb]. rewrite <- append_cons.
    change ("/" +:+ n) with (String "/" n).
    rewrite path_elements_app, (path_elements_one n) by apply Hn.
    rewrite foldl_app. cbn [foldl]. fold out. rewrite Hstep by done.
    cbn [fst snd]. rewrite reverse_cons, app_assoc. fold pre.
    destruct (pre ++ [n]) as [|e es] eqn:Hpre; [by destruct pre|].
    rewrite <- Hpre, join_with_snoc. by rewrite append_assoc.
Qed.

Lemma filepath_Join_inj d a b :
  file_name a -> file_name b -> filepath_Join d a = filepath_Join d b -> a = b.
Proof.
  intros Ha Hb. destruct (filepath_Join_file_name d) as [front Hfront].
  rewrite !Hfront by done. apply append_inj_l.
Qed.

(** The names of the patterns files and of the summary files are names. *)
Lemma file_name_patterns prefix j r :
  in_cutset "/" prefix = false ->
  file_name (String "p" prefix +:+ GoInt.fmt_d j +:+ "-rank" +:+ GoInt.fmt_d r +:+ ".md").
Proof.
  intros Hprefix. split; [|by rewrite append_cons].
  rewrite !in_cutset_app, !fmt_d_lacks_slash. simpl. by rewrite Hprefix.
Qed.

(** A file name [<jobid>-rank<rank>.md] determines the job and the rank. *)
Lemma job_rank_inj j1 r1 j2 r2 :
  GoInt.fmt_d j1 +:+ "-rank" +:+ GoInt.fmt_d r1 +:+ ".md"
  = GoInt.fmt_d j2 +:+ "-rank" +:+ GoInt.fmt_d r2 +:+ ".md" ->
  j1 = j2 /\ r1 = r2.
Proof.
  intros H.
  change ("-rank" +:+ GoInt.fmt_d r1 +:+ ".md")
    with ("-" +:+ String "r" ("ank" +:+ GoInt.fmt_d r1 +:+ ".md")) in H.
  change ("-rank" +:+ GoInt.fmt_d r2 +:+ ".md")
    with ("-" +:+ String "r" ("ank" +:+ GoInt.fmt_d r2 +:+ ".md")) in H.
  rewrite <- (append_assoc (GoInt.fmt_d j1) "-"),
    <- (append_assoc (GoInt.fmt_d j2) "-") in H.
  apply split_unique in H as [Hj Hr];
    [|by rewrite in_cutset_app, fmt_d_lacks_r..].
  apply append_char_inj, fmt_d_inj in Hj.
  apply append_inj_l in Hr.
  change ".md" with (String "." "md") in Hr.
  apply split_unique in Hr as [Hr _]; [|apply fmt_d_lacks_dot..].
  apply fmt_d_inj in Hr. done.
Qed.

End Paths.

(** X21.  In one directory, the patterns files of two groups have the same
    path only when the groups have the same job number and the same rank; so
    have their summary files; and the path of a patterns file is never the
    path of a summary file. *)
Theorem patterns_files_do_not_collide (dir : string) (j1 r1 j2 r2 : Z) :
  (GetFilePath dir j1 r1 = GetFilePath dir j2 r2 <-> j1 = j2 /\ r1 = r2)
  /\ (GetSummaryFilePath dir j1 r1 = GetSummaryFilePath dir j2 r2
      <-> j1 = j2 /\ r1 = r2)
  /\ GetFilePath dir j1 r1 <> GetSummaryFilePath dir j2 r2.
Proof.
  assert (forall j r, file_name ("patterns-job" +:+ GoInt.fmt_d j +:+ "-rank"
                                 +:+ GoInt.fmt_d r +:+ ".md")) as Hpatterns.
  { intros j r. by apply (file_name_patterns "atterns-job"). }
  assert (forall j r, file_name (SummaryFilePrefix +:+ "job" +:+ GoInt.fmt_d j +:+ "-rank"
                                 +:+ GoInt.fmt_d r +:+ ".md")) as Hsummary.
  { intros j r. unfold SummaryFilePrefix. rewrite <- append_assoc.
    by apply (file_name_patterns "atterns-summary-job"). }
  split; [|split].
  - split; [|by intros [-> ->]].
    unfold GetFilePath. intros H%filepath_Join_inj; [|done..].
    apply append_inj_l in H. by apply job_rank_inj.
  - split; [|by intros [-> ->]].
    unfold GetSummaryFilePath. intros H%filepath_Join_inj; [|done..].
    unfold SummaryFilePrefix in H.
    apply append_inj_l in H. apply append_inj_l in H. by apply job_rank_inj.
  - unfold GetFilePath, GetSummaryFilePath.
    intros H%filepath_Join_inj; [|done..]. unfold SummaryFilePrefix in H.
    change ("patterns-job" +:+ ?x) with ("patterns-" +:+ String "j" ("ob" +:+ x)) in H.
    change ("patterns-summary-" +:+ ?x)
      with ("patterns-" +:+ String "s" ("ummary-" +:+ x)) in H.
    by apply append_inj_l in H.
Qed.

(** ** The files that [SaveStats] writes for a collection *)

Section Saved_files.

Variable range_order : nat -> IntMap -> list (Z * Z).
Variable notation_CompressIntArray : list Z -> string.

Lemma Runs_WriteToFile h fd num total p :
  is_Some (h !! p) ->
  Runs (WriteToFile range_order notation_CompressIntArray h fd num total p).
Proof.
  intros Hp. unfold WriteToFile.
  apply Runs_bind; [by apply Runs_deref|]. intros c.
  apply Runs_try; [apply Runs_WriteString|].
  apply Runs_try; [apply Runs_WriteString|].
  apply Runs_try; [by apply Runs_writeDataToFile|].
  apply Runs_try; [apply Runs_WriteString|apply Runs_ret].
Qed.

Lemma Runs_summary_section h fd total title view :
  Forall (fun p => is_Some (h !! p)) view ->
  Runs (if negb (length view =? 0)%nat
        then (try* WriteString fd title in
              for_each (fun cp => WriteToFile range_order notation_CompressIntArray
                                    h fd 0 total cp) view)%go
        else ret None).
Proof.
  intros Hv. destruct (negb _); [|apply Runs_ret].
  apply Runs_try; [apply Runs_WriteString|].
  apply Runs_for_each. eapply Forall_impl; [exact Hv|].
  intros p Hp. by apply Runs_WriteToFile.
Qed.

(** The addresses of a collection built by [addPattern] are allocated. *)
Lemma built_collection_allocated h0 calls d h :
  addPatterns calls zero_Data h0 = Some (d, h) ->
  Forall (fun p => is_Some (h !! p)) (AllPatterns d)
  /\ Forall (fun p => is_Some (h !! p)) (OneToN d)
  /\ Forall (fun p => is_Some (h !! p)) (NToOne d)
  /\ Forall (fun p => is_Some (h !! p)) (NToN d).
Proof.
  intros Hrun.
  destruct (addPatterns_spec calls zero_Data h0 [])
    as (d1 & h1 & Hrun1 & Hnd & Hrep & _); [constructor|constructor|].
  destruct (views_mirror_all calls zero_Data h0 []) as (d' & h' & Hrun' & Hinv).
  { constructor. }
  { constructor. }
  { intros q. split; [by intros ?%elem_of_nil|by intros _]. }
  rewrite Hrun in Hrun1, Hrun'. injection Hrun1 as <- <-. injection Hrun' as <- <-.
  assert (forall p, p ∈ AllPatterns d -> is_Some (h !! p)) as Hall.
  { intros p Hp. apply lookup_lt_is_Some_2. by eapply buckets_at_valid. }
  assert (forall p, p ∈ OneToN d \/ p ∈ NToOne d \/ p ∈ NToN d -> is_Some (h !! p))
    as Hviews.
  { intros p Hp. apply Hall.
    destruct (decide (p ∈ AllPatterns d)) as [|Hnotin]; [done|].
    destruct (proj2 (Hinv p) Hnotin) as (H1 & H2 & H3).
    destruct Hp as [Hp|[Hp|Hp]]; apply refs_pos in Hp; lia. }
  repeat split; apply Forall_forall; intros p Hp; auto.
Qed.

End Saved_files.

(** X22.  The patterns file that [SaveStats] has written when every write
    succeeded: the line "# Patterns" followed by one block per bucket of
    [AllPatterns], in the order of [AllPatterns], numbered 0, 1, 2, ... *)
Theorem SaveStats_patterns_writes_one_numbered_block_per_bucket
    (range_order : nat -> IntMap -> list (Z * Z))
    (notation_CompressIntArray : list Z -> string)
    (h : list CallData) (fd : string) (d : Data) (numCalls : Z)
    (w w' : World) (old : string) :
  files w !! fd = Some old ->
  SaveStats_patterns range_order notation_CompressIntArray h fd d numCalls w
  = Some (None, w') ->
  exists bs,
    buckets_at h (AllPatterns d) bs
    /\ files w' !! fd
       = Some (old +:+ ("# Patterns" +:+ nl)
               +:+ blocks_written range_order notation_CompressIntArray (tick w)
                     numCalls (numbered 0 bs)).
Proof.
  intros Hold Hrun. unfold SaveStats_patterns in Hrun.
  apply try_inv in Hrun as (w1 & Ht & Hrun).
  pose proof (WriteString_text _ _ _ _ _ Hold Ht) as T0.
  destruct (for_each_num_blocks _ _ _ _ _ _ _ _ _ _ T0 Hrun) as (bs & B & T & _).
  exists bs. split; [done|].
  by rewrite T, (WriteString_tick _ _ _ _ Ht), append_assoc.
Qed.

Lemma SaveStats_patterns_writes_one_numbered_block_per_bucket_witness :
  exists bs,
    buckets_at SampleSummary.store (AllPatterns SampleSummary.data) bs
    /\ files (match SaveStats_patterns (fun _ m => range_map m) SampleSummary.compress
                      SampleSummary.store "summary.md" SampleSummary.data 3
                      SampleSummary.world with
              | Some (_, w') => w'
              | None => SampleSummary.world
              end) !! "summary.md"
       = Some ("" +:+ ("# Patterns" +:+ nl)
               +:+ blocks_written (fun _ m => range_map m) SampleSummary.compress
                     (tick SampleSummary.world) 3 (numbered 0 bs)).
Proof.
  apply (SaveStats_patterns_writes_one_numbered_block_per_bucket
           (fun _ m => range_map m) SampleSummary.compress SampleSummary.store
           "summary.md" SampleSummary.data 3 SampleSummary.world).
  - reflexivity.
  - by vm_compute.
Defined.

(** X23.  On a collection built by any sequence of [addPattern] calls on a
    zero collection, the writers of [SaveStats] never dereference an address
    that is not allocated: the patterns file and the summary file are written
    without a panic, whatever the file system accepts and whatever order the
    runtime visits the signature maps in. *)
Theorem SaveStats_never_panics_on_a_built_collection
    (range_order : nat -> IntMap -> list (Z * Z))
    (notation_CompressIntArray : list Z -> string)
    (h0 : list CallData) (calls : list (Z * IntMap * IntMap))
    (d : Data) (h : list CallData) (patternsFd summaryFd : string) (numCalls : Z) :
  addPatterns calls zero_Data h0 = Some (d, h) ->
  Runs (SaveStats_patterns range_order notation_CompressIntArray h patternsFd d numCalls)
  /\ Runs (SaveStats_summary range_order notation_CompressIntArray h summaryFd d
             numCalls).
Proof.
  intros Hrun.
  destruct (built_collection_allocated _ _ _ _ Hrun) as (HA & H1 & H2 & H3).
  split.
  - unfold SaveStats_patterns.
    apply Runs_try; [apply Runs_WriteString|].
    apply Runs_for_each_num. eapply Forall_impl; [exact HA|].
    intros p Hp n. by apply Runs_WriteToFile.
  - unfold SaveStats_summary. destruct (negb (NoSummary d)).
    + apply Runs_try.
      { destruct (negb _); [|apply Runs_ret].
        apply Runs_try; [apply Runs_WriteString|].
        apply Runs_for_each_num. eapply Forall_impl; [exact H1|].
        intros p Hp n. by apply Runs_WriteToFile. }
      apply Runs_try; [by apply Runs_summary_section|].
      apply Runs_try; [by apply Runs_summary_section|apply Runs_ret].
    + apply Runs_try; [apply Runs_WriteString|apply Runs_ret].
Qed.

Lemma SaveStats_never_panics_on_a_built_collection_witness :
  Runs (SaveStats_patterns (fun _ m => range_map m) SampleSummary.compress
          SampleSummary.store "patterns.md" SampleSummary.data 3)
  /\ Runs (SaveStats_summary (fun _ m => range_map m) SampleSummary.compress
             SampleSummary.store "summary.md" SampleSummary.data 3).
Proof.
  apply (SaveStats_never_panics_on_a_built_collection (fun _ m => range_map m)
           SampleSummary.compress [] Sample.calls).
  by vm_compute.
Defined.
